(** * SampleGraphRAG: the indexing toolkit, the pipeline driver and the two
    dashboards, embedded from the Python sources under [src/indexing].

    Layout of the development:
    - [PyStr]: Python [str] values as sequences of code points, with the
      builtins the sources call ([len], slicing, [split], [strip], [in],
      [join]);
    - [Eff]: a small state-and-exception monad for the effectful code;
    - [Toolkit]: [semantic_text_splitting.py];
    - [Loader]: [text_splitter.py];
    - [Pipeline]: [indexing_pipeline.py];
    - [Dash], [DashboardV1], [DashboardV2]: what [app.py] (v1) and
      [app2.py] (v2) share, and each of them;
    - the properties, in the same order. *)

From Stdlib Require Import List Arith Lia ZArith NArith Bool String Ascii.
From Stdlib Require Import DecimalString Floats.
Import ListNotations.

Set Implicit Arguments.

(* ------------------------------------------------------------------ *)
(** ** Python strings *)

Module PyStr.

(** A Python [str] is a sequence of Unicode code points. *)
Definition pychar := N.
Definition pystr := list pychar.

(** A source literal made of ASCII characters only. *)
Definition py (s : string) : pystr :=
  map N_of_ascii (list_ascii_of_string s).

Definition char_eqb (a b : pychar) : bool := N.eqb a b.

Fixpoint str_eqb (a b : pystr) : bool :=
  match a, b with
  | [], [] => true
  | x :: a', y :: b' => char_eqb x y && str_eqb a' b'
  | _, _ => false
  end.

(** [len(s)]. *)
Definition len (s : pystr) : nat := List.length s.

(** [s[:n]]. *)
Definition slice_to (n : nat) (s : pystr) : pystr := firstn n s.

(** [needle in hay] starts with a prefix test at every position. *)
Fixpoint startswith (needle hay : pystr) : bool :=
  match needle, hay with
  | [], _ => true
  | _ :: _, [] => false
  | x :: needle', y :: hay' => char_eqb x y && startswith needle' hay'
  end.

Fixpoint contains (needle hay : pystr) : bool :=
  startswith needle hay ||
  match hay with
  | [] => false
  | _ :: hay' => contains needle hay'
  end.

(** [str.isspace] on one code point: the characters [str.split()] and
    [str.strip()] treat as white space. *)
Definition isspace (c : pychar) : bool :=
  ((9 <=? c) && (c <=? 13) || (28 <=? c) && (c <=? 32) ||
   (c =? 133) || (c =? 160) || (c =? 5760) ||
   (8192 <=? c) && (c <=? 8202) || (c =? 8232) || (c =? 8233) ||
   (c =? 8239) || (c =? 8287) || (c =? 12288))%N.

(** [s.split(sep)] for a one-character separator: the segments between
    consecutive separators, empty segments included. *)
Fixpoint split_on (sep : pychar) (s : pystr) : list pystr :=
  match s with
  | [] => [[]]
  | c :: s' =>
      if char_eqb c sep then [] :: split_on sep s'
      else match split_on sep s' with
           | [] => [[c]]
           | seg :: segs => (c :: seg) :: segs
           end
  end.

(** [s.split()]: the maximal runs of non-space characters.  [cur] is the run
    being read, reversed. *)
Fixpoint split_ws_from (cur : pystr) (s : pystr) : list pystr :=
  match s with
  | [] => match cur with [] => [] | _ => [rev cur] end
  | c :: s' =>
      if isspace c
      then match cur with
           | [] => split_ws_from [] s'
           | _ => rev cur :: split_ws_from [] s'
           end
      else split_ws_from (c :: cur) s'
  end.

Definition split_ws (s : pystr) : list pystr := split_ws_from [] s.



(** [sep.join(parts)]. *)
Fixpoint join (sep : pystr) (parts : list pystr) : pystr :=
  match parts with
  | [] => []
  | [p] => p
  | p :: ps => p ++ sep ++ join sep ps
  end.

(** [str(n)] for a non-negative integer. *)
Definition str_of_nat (n : nat) : pystr :=
  py (DecimalString.NilEmpty.string_of_uint (Nat.to_uint n)).

(** [str.lower] on text made of ASCII characters: the capital letters move to
    their small forms and nothing else changes. *)
Definition ascii_lower_char (c : pychar) : pychar :=
  if ((65 <=? c) && (c <=? 90))%N then (c + 32)%N else c.
Definition ascii_lower (s : pystr) : pystr := map ascii_lower_char s.

(** [enumerate(l, start)]. *)
Definition enumerate {A : Type} (start : nat) (l : list A) : list (nat * A) :=
  combine (seq start (List.length l)) l.

(** [x in l] for a list of strings. *)
Definition mem (x : pystr) (l : list pystr) : bool :=
  existsb (str_eqb x) l.

(** The distinct strings of a list, in the order in which they first
    appear; [seen] holds the ones met so far. *)
Fixpoint first_seen (seen : list pystr) (l : list pystr) : list pystr :=
  match l with
  | [] => []
  | x :: xs =>
      if mem x seen then first_seen seen xs
      else x :: first_seen (x :: seen) xs
  end.

(** Number of occurrences of a character. *)
Definition count_char (c : pychar) (s : pystr) : nat :=
  List.length (filter (char_eqb c) s).

(** Number of places where a run of non-space characters starts. *)
Fixpoint count_runs (prev_space : bool) (s : pystr) : nat :=
  match s with
  | [] => 0
  | c :: s' =>
      if isspace c then count_runs true s'
      else (if prev_space then 1 else 0) + count_runs false s'
  end.

End PyStr.

Import PyStr.

(* ------------------------------------------------------------------ *)
(** ** The chunk-splitting and analysis toolkit
    ([semantic_text_splitting.py]) *)

Module Toolkit.

(** *** [analyze_chunks] *)

(** One row of the analysis table. *)
Record ChunkAnalysis : Type := {
  chunk_id : nat;
  length : nat;
  sentences : nat;
  words : nat;
  preview : pystr
}.

Definition dot : pychar := 46%N.
Definition ellipsis : pystr := py "...".

Definition analyze_chunk (i : nat) (chunk : pystr) : ChunkAnalysis :=
  {| chunk_id := i;
     length := len chunk;
     sentences := List.length (split_on dot chunk);
     words := List.length (split_ws chunk);
     preview := slice_to 100 chunk ++ ellipsis |}.

(** The loop appends one row per chunk; the rows, in order, are the data
    frame the method returns. *)
Definition analyze_chunks (chunks : list pystr) : list ChunkAnalysis :=
  fold_left (fun analysis ic => analysis ++ [analyze_chunk (fst ic) (snd ic)])
            (enumerate 0 chunks) [].

(** *** [split_by_topics] *)

Definition General : pystr := py "General".

Definition topic_indicators : list pystr :=
  [ py "AUTO INSURANCE";
    py "LIFE INSURANCE";
    py "PROPERTY INSURANCE";
    py "LIABILITY INSURANCE";
    py "WORKERS COMPENSATION";
    py "HEALTH INSURANCE" ].

(** The [topics] dictionary: keys in insertion order, each with the list of
    chunks appended so far. *)
Definition topics_dict := list (pystr * list pystr).

Fixpoint dict_mem (key : pystr) (d : topics_dict) : bool :=
  match d with
  | [] => false
  | (k, _) :: d' => str_eqb k key || dict_mem key d'
  end.

(** [d[key].append(v)] for a key that is present. *)
Fixpoint dict_append (key : pystr) (v : pystr) (d : topics_dict)
  : topics_dict :=
  match d with
  | [] => []
  | (k, vs) :: d' =>
      if str_eqb k key then (k, vs ++ [v]) :: d'
      else (k, vs) :: dict_append key v d'
  end.

(** One result object. *)
Record TopicChunk : Type := {
  topic : pystr;
  content : pystr;
  chunk_count : nat
}.

Definition format_results (topics : topics_dict) : list TopicChunk :=
  map (fun tc => {| topic := fst tc;
                    content := join (py " ") (snd tc);
                    chunk_count := List.length (snd tc) |}) topics.

Section Topics.

(** [str.lower], Python's builtin. *)
Variable lower : pystr -> pystr.

(** [indicator.lower() in text.lower()]. *)
Definition occurs (indicator text : pystr) : bool :=
  contains (lower indicator) (lower text).

(** The inner loop over the indicators: every indicator that occurs
    overwrites [current_topic]. *)
Definition scan_indicators (current_topic text : pystr) : pystr :=
  fold_left (fun cur indicator => if occurs indicator text then indicator
                                  else cur)
            topic_indicators current_topic.

(** The body of the loop over the base chunks, on the pair
    ([topics], [current_topic]). *)
Definition topics_step (st : topics_dict * pystr) (text : pystr)
  : topics_dict * pystr :=
  let current_topic := scan_indicators (snd st) text in
  let topics := if dict_mem current_topic (fst st) then fst st
                else fst st ++ [(current_topic, [])] in
  (dict_append current_topic text topics, current_topic).

Definition group_by_topic (base_chunks : list pystr) : topics_dict :=
  fst (fold_left topics_step base_chunks ([], General)).

(** The base segmentation: the sentence parser applied to the document,
    each node reduced to its text. *)
Variable sentence_parser : pystr -> list pystr.

Definition split_by_topics (text : pystr) : list TopicChunk :=
  format_results (group_by_topic (sentence_parser text)).

(** **** The behaviour in the words of the specification *)

Definition has_marker (text : pystr) : bool :=
  existsb (fun indicator => occurs indicator text) topic_indicators.

(** The topic that is current after a chunk: unchanged when no marker occurs
    in the chunk, otherwise the marker that occurs in it (the last of the
    fixed list when several do). *)
Definition spec_next_topic (current text : pystr) : pystr :=
  last (filter (fun indicator => occurs indicator text) topic_indicators)
       current.

(** The topic current after each chunk of a pass that starts in [start]. *)
Fixpoint spec_labels (start : pystr) (chunks : list pystr) : list pystr :=
  match chunks with
  | [] => []
  | c :: cs =>
      let t := spec_next_topic start c in t :: spec_labels t cs
  end.

(** The chunks labelled [t], in order. *)
Definition chunks_of (t : pystr) (labelled : list (pystr * pystr))
  : list pystr :=
  map snd (filter (fun p => str_eqb (fst p) t) labelled).

Definition spec_group (labelled : list (pystr * pystr)) : topics_dict :=
  map (fun t => (t, chunks_of t labelled))
      (first_seen [] (map fst labelled)).

Definition spec_buckets (chunks : list pystr) : topics_dict :=
  spec_group (combine (spec_labels General chunks) chunks).

End Topics.

(** What one round of the loop does to the dictionary, given the label of
    the chunk. *)
Definition dict_add (d : topics_dict) (lc : pystr * pystr) : topics_dict :=
  dict_append (fst lc) (snd lc)
    (if dict_mem (fst lc) d then d else d ++ [(fst lc, [])]).

(** The topic before chunk [i]: the start for the first chunk, otherwise the
    label of chunk [i - 1]. *)
Definition topic_before (start : pystr) (labels : list pystr) (i : nat)
  : pystr :=
  match i with
  | 0 => start
  | S j => nth j labels start
  end.

(** The number of chunks held by a dictionary. *)
Definition total_chunks (d : topics_dict) : nat :=
  list_sum (map (fun kv => List.length (snd kv)) d).

(** *** The demonstration routine's sample *)

Definition nl : pystr := [10%N].


(** Modelled from the spec: where a sentence ends.  The base segmentation
    of [split_by_topics] is computed by the node parser of the library
    ([self.sentence_parser.get_nodes_from_documents], then the text of each
    node), which is not among the sources; the spec (4.2) says that
    [split_by_topics] first segments the text by sentence boundaries.  A
    sentence ends at a full stop, a question mark or an exclamation
    mark. *)
Definition is_sentence_end (c : pychar) : bool :=
  ((c =? 46) || (c =? 63) || (c =? 33))%N.

(** Modelled from the spec: the text cut at its sentence boundaries, that
    is after every character that ends a sentence; the pieces, in order,
    make up the text.  [cur] is the piece being read, reversed. *)
Fixpoint spec_cut_from (cur : pystr) (text : pystr) : list pystr :=
  match text with
  | [] => match cur with [] => [] | _ => [rev cur] end
  | c :: text' =>
      if is_sentence_end c then rev (c :: cur) :: spec_cut_from [] text'
      else spec_cut_from (c :: cur) text'
  end.

(** Modelled from the spec: the segmentation by sentence boundaries with
    the pieces kept as they are cut. *)
Definition spec_cut_sentences (text : pystr) : list pystr :=
  spec_cut_from [] text.


End Toolkit.

(* ------------------------------------------------------------------ *)
(** ** Effects: state and exceptions *)

(** A Python exception, by the class the sources can meet. *)
Inductive exn : Type :=
| KeyError (key : pystr)
| IndexError
| ValueError
| External (what : pystr).

Module Eff.

Section Monad.

Variable S : Type.

(** A computation reads and writes a state and either returns or raises;
    the state reached when the exception is raised is kept. *)
Definition M (A : Type) : Type := S -> (exn + A) * S.

Definition ret {A : Type} (a : A) : M A := fun s => (inr a, s).

Definition raise {A : Type} (e : exn) : M A := fun s => (inl e, s).

Definition bind {A B : Type} (m : M A) (k : A -> M B) : M B :=
  fun s =>
    match m s with
    | (inl e, s') => (inl e, s')
    | (inr a, s') => k a s'
    end.

Definition get : M S := fun s => (inr s, s).
Definition put (s : S) : M unit := fun _ => (inr tt, s).
Definition modify (f : S -> S) : M unit := fun s => (inr tt, f s).

(** A value computed without effects that may be an exception. *)
Definition lift_result {A : Type} (r : exn + A) : M A :=
  fun s => (r, s).

(** [for x in l: body(x)]. *)
Fixpoint for_each {A : Type} (l : list A) (body : A -> M unit) : M unit :=
  match l with
  | [] => ret tt
  | x :: l' => bind (body x) (fun _ => for_each l' body)
  end.

(** A list comprehension whose element expression has effects. *)
Fixpoint map_m {A B : Type} (f : A -> M B) (l : list A) : M (list B) :=
  match l with
  | [] => ret []
  | x :: l' =>
      bind (f x) (fun y => bind (map_m f l') (fun ys => ret (y :: ys)))
  end.

(** A loop that rebuilds a local variable [acc] on every round. *)
Fixpoint fold_m {A B : Type} (f : B -> A -> M B) (l : list A) (acc : B)
  : M B :=
  match l with
  | [] => ret acc
  | x :: l' => bind (f acc x) (fun acc' => fold_m f l' acc')
  end.

End Monad.

Arguments ret {S A} a.
Arguments raise {S A} e.
Arguments get {S}.
Arguments lift_result {S A} r.

Declare Scope eff_scope.
Delimit Scope eff_scope with eff.

Notation "x <- m ;; k" := (bind m (fun x => k))
  (at level 61, m at next level, right associativity) : eff_scope.
Notation "m ;; k" := (bind m (fun _ => k))
  (at level 61, right associativity) : eff_scope.

End Eff.

Import Eff.
Local Open Scope eff_scope.

(* ------------------------------------------------------------------ *)
(** ** The document loader ([text_splitter.py]) *)

Module Loader.

(** [os.environ]. *)
Definition environ := list (pystr * pystr).

Fixpoint env_lookup (key : pystr) (env : environ) : option pystr :=
  match env with
  | [] => None
  | (k, v) :: env' => if str_eqb k key then Some v else env_lookup key env'
  end.

(** [load_dotenv()]: the variables of the [.env] file, when one is found,
    are added to the environment; a variable that is already set keeps its
    value.  [dotenv] is the dictionary read from the file, one entry per
    variable. *)
Definition load_dotenv (dotenv : option environ) (env : environ) : environ :=
  match dotenv with
  | None => env
  | Some vars =>
      fold_left (fun env kv =>
                   match env_lookup (fst kv) env with
                   | Some _ => env
                   | None => env ++ [kv]
                   end) vars env
  end.

Definition OPENAI_API_KEY : pystr := py "OPENAI_API_KEY".

Section Loader.

(** The library side: documents, the embedding client and the nodes of the
    semantic splitter, with the library's own state. *)
Variables Docs EmbedModel Nodes World : Type.

(** [SimpleDirectoryReader(directory).load_data()]. *)
Variable read_directory : pystr -> World -> (exn + Docs) * World.
(** [OpenAIEmbedding(api_key=...)]. *)
Variable OpenAIEmbedding : pystr -> World -> (exn + EmbedModel) * World.
(** [SemanticSplitterNodeParser(buffer_size, breakpoint_percentile_threshold,
    embed_model).get_nodes_from_documents(docs)]. *)
Variable semantic_split :
  nat -> nat -> EmbedModel -> Docs -> World -> (exn + Nodes) * World.

(** What the loader does to the outside, in order. *)
Inductive event : Type :=
| ReadDirectory (directory : pystr)
| MakeEmbedding (api_key : pystr)
| SemanticSplit (buffer_size threshold : nat).

Record state : Type := {
  env : environ;
  dotenv_file : option environ;
  world : World;
  log : list event
}.

(** A library call: the call is logged, then it runs on the library's
    state. *)
Definition call {A : Type} (ev : event)
  (f : World -> (exn + A) * World) : M state A :=
  fun s =>
    let r := f (world s) in
    (fst r, {| env := env s; dotenv_file := dotenv_file s;
               world := snd r; log := log s ++ [ev] |}).

(** The module object left by a successful import. *)
Record module : Type := { openai_api_key : pystr }.

(** The module-level statements: [load_dotenv()] and then
    [os.environ['OPENAI_API_KEY']], which raises [KeyError] for a missing
    key. *)
Definition import_text_splitter : M state module :=
  modify (fun s => {| env := load_dotenv (dotenv_file s) (env s);
                      dotenv_file := dotenv_file s;
                      world := world s; log := log s |}) ;;
  s <- get ;;
  match env_lookup OPENAI_API_KEY (env s) with
  | None => raise (KeyError OPENAI_API_KEY)
  | Some key => ret {| openai_api_key := key |}
  end.

Definition default_directory : pystr := py "./book".

(** [TextSplitter.load_data]. *)
Definition load_data (m : module) (directory : pystr) : M state Nodes :=
  docs <- call (ReadDirectory directory) (read_directory directory) ;;
  embed_model <- call (MakeEmbedding (openai_api_key m))
                      (OpenAIEmbedding (openai_api_key m)) ;;
  nodes <- call (SemanticSplit 1 95) (semantic_split 1 95 embed_model docs) ;;
  ret nodes.

(** A client of the loader: [from text_splitter import TextSplitter], then
    [TextSplitter().load_data(directory)]. *)
Definition import_and_load (directory : pystr) : M state Nodes :=
  m <- import_text_splitter ;;
  load_data m directory.

End Loader.

End Loader.

(* ------------------------------------------------------------------ *)
(** ** The indexing pipeline ([indexing_pipeline.py]) *)

Module Pipeline.

Section Pipeline.

(** Nodes, entities and relationships are the objects the stages hand to
    one another; a stage may read and change them through the shared state
    [World], and the driver only passes them on. *)
Variables Nodes Entities Relationships World : Type.

(** The five components, each with its constructor and its stage. *)
Record components : Type := {
  TextSplitter_init : World -> (exn + unit) * World;
  GraphExtractor_init : World -> (exn + unit) * World;
  GraphResolver_init : World -> (exn + unit) * World;
  DataIndexer_init : World -> (exn + unit) * World;
  CommunitySummarizer_init : World -> (exn + unit) * World;
  load_data : World -> (exn + Nodes) * World;
  extract : Nodes -> World -> (exn + Nodes) * World;
  resolve : Nodes -> World -> (exn + Entities * Relationships) * World;
  summarizer_run : Entities -> Relationships -> World -> (exn + unit) * World;
  insert_data : Entities -> Relationships -> World -> (exn + unit) * World
}.

Variable c : components.

(** The calls the driver makes, with their arguments. *)
Inductive call : Type :=
| NewTextSplitter
| NewGraphExtractor
| NewGraphResolver
| NewDataIndexer
| NewCommunitySummarizer
| CallLoadData
| CallExtract (nodes : Nodes)
| CallResolve (nodes : Nodes)
| CallSummarizerRun (entities : Entities) (relationships : Relationships)
| CallInsertData (entities : Entities) (relationships : Relationships).

Definition state : Type := World * list call.

(** A call of a component: logged when it is made, then run. *)
Definition invoke {A : Type} (ev : call)
  (f : World -> (exn + A) * World) : M state A :=
  fun s =>
    let r := f (fst s) in
    (fst r, (snd r, snd s ++ [ev])).

Definition run : M state unit :=
  invoke NewTextSplitter (TextSplitter_init c) ;;
  invoke NewGraphExtractor (GraphExtractor_init c) ;;
  invoke NewGraphResolver (GraphResolver_init c) ;;
  invoke NewDataIndexer (DataIndexer_init c) ;;
  invoke NewCommunitySummarizer (CommunitySummarizer_init c) ;;
  nodes <- invoke CallLoadData (load_data c) ;;
  nodes <- invoke (CallExtract nodes) (extract c nodes) ;;
  er <- invoke (CallResolve nodes) (resolve c nodes) ;;
  invoke (CallSummarizerRun (fst er) (snd er))
         (summarizer_run c (fst er) (snd er)) ;;
  invoke (CallInsertData (fst er) (snd er))
         (insert_data c (fst er) (snd er)).

(** The stage calls of a log: the constructor calls left out. *)
Definition is_stage (ev : call) : bool :=
  match ev with
  | NewTextSplitter | NewGraphExtractor | NewGraphResolver
  | NewDataIndexer | NewCommunitySummarizer => false
  | _ => true
  end.

Definition stages (l : list call) : list call := filter is_stage l.

(** The place of a call in the body of [run], counted from zero. *)
Definition rank (ev : call) : nat :=
  match ev with
  | NewTextSplitter => 0
  | NewGraphExtractor => 1
  | NewGraphResolver => 2
  | NewDataIndexer => 3
  | NewCommunitySummarizer => 4
  | CallLoadData => 5
  | CallExtract _ => 6
  | CallResolve _ => 7
  | CallSummarizerRun _ _ => 8
  | CallInsertData _ _ => 9
  end.

End Pipeline.

(** A build whose components all return: nodes, entities and
    relationships are numbers and the state counts the calls. *)
Definition counting_components : components nat nat nat nat :=
  {| TextSplitter_init := fun w => (inr tt, S w);
     GraphExtractor_init := fun w => (inr tt, S w);
     GraphResolver_init := fun w => (inr tt, S w);
     DataIndexer_init := fun w => (inr tt, S w);
     CommunitySummarizer_init := fun w => (inr tt, S w);
     load_data := fun w => (inr (10 + w), S w);
     extract := fun n w => (inr (2 * n), S w);
     resolve := fun n w => (inr (n + 1, n + 2), S w);
     summarizer_run := fun _ _ w => (inr tt, S w);
     insert_data := fun _ _ w => (inr tt, S w) |}.

End Pipeline.

(* ------------------------------------------------------------------ *)
(** ** The dashboards ([app.py] and [app2.py]) *)

(** What the two dashboards share: the retrieved entities, the tables of
    the data-frame library, the widgets drawn on the page and the state the
    rendering runs in. *)
Module Dash.

(** A retrieved entity.  [metadata] is absent ([hasattr] false) or a
    dictionary. *)
Record Entity : Type := {
  name : pystr;
  type : pystr;
  metadata : option (list (pystr * pystr))
}.

(** [d.get(key)] on the metadata dictionary. *)
Fixpoint metadata_get (key : pystr) (d : list (pystr * pystr))
  : option pystr :=
  match d with
  | [] => None
  | (k, v) :: d' => if str_eqb k key then Some v else metadata_get key d'
  end.

(** A cell of a table. *)
Inductive value : Type :=
| VStr (s : pystr)
| VInt (z : Z)
| VFloat (f : float)
| VMissing.

Definition value_eqb (a b : value) : bool :=
  match a, b with
  | VStr s, VStr t => str_eqb s t
  | VInt m, VInt n => Z.eqb m n
  | VFloat f, VFloat g => PrimFloat.eqb f g
  | _, _ => false
  end.

(** A dictionary literal: its keys in order, each with its value. *)
Definition record := list (pystr * value).

Fixpoint record_get (key : pystr) (r : record) : option value :=
  match r with
  | [] => None
  | (k, v) :: r' => if str_eqb k key then Some v else record_get key r'
  end.

(** A data frame built from a list of dictionaries: one row per dictionary,
    one column per key met, in the order the keys are first met.  An empty
    list gives a frame without rows and without columns. *)
Record DataFrame : Type := {
  columns : list pystr;
  rows : list record
}.

Definition DataFrame_of (records : list record) : DataFrame :=
  {| columns := first_seen [] (List.concat (map (map fst) records));
     rows := records |}.

(** [df.empty]: some axis has length zero. *)
Definition df_empty (df : DataFrame) : bool :=
  (List.length (columns df) =? 0) || (List.length (rows df) =? 0).

(** [len(df)]. *)
Definition df_len (df : DataFrame) : nat := List.length (rows df).

Definition cell (col : pystr) (r : record) : value :=
  match record_get col r with
  | Some v => v
  | None => VMissing
  end.

(** [df[col]]: [KeyError] when the frame has no such column. *)
Definition column (df : DataFrame) (col : pystr) : exn + list value :=
  if mem col (columns df) then inr (map (cell col) (rows df))
  else inl (KeyError col).

(** The 3-D scatter of v1, by the arrays it draws: one point per row. *)
Record Scatter3d : Type := {
  x : list Z;
  y : list Z;
  z : list Z;
  text : list value;
  color : list value;
  title : pystr
}.

(** [px.scatter_3d(data, x=..., y=..., z=..., text=..., color=..., title=...)]
    with the coordinates given as arrays and [text] and [color] as column
    names. *)
Definition scatter_3d (data : DataFrame) (xs ys zs : list Z)
  (text_col color_col : pystr) (ttl : pystr) : exn + Scatter3d :=
  match column data text_col, column data color_col with
  | inl e, _ => inl e
  | _, inl e => inl e
  | inr t, inr c =>
      if (List.length xs =? df_len data) && (List.length ys =? df_len data)
         && (List.length zs =? df_len data)
      then inr {| x := xs; y := ys; z := zs; text := t; color := c;
                  title := ttl |}
      else inl ValueError
  end.

(** An undirected graph of the graph library: nodes and edges in insertion
    order. *)
Record Graph : Type := {
  g_nodes : list value;
  g_edges : list (value * value)
}.

Definition empty_graph : Graph := {| g_nodes := []; g_edges := [] |}.

Definition has_node (n : value) (g : Graph) : bool :=
  existsb (value_eqb n) (g_nodes g).

Definition has_edge (u v : value) (g : Graph) : bool :=
  existsb (fun e => value_eqb (fst e) u && value_eqb (snd e) v
                    || value_eqb (fst e) v && value_eqb (snd e) u)
          (g_edges g).

Definition add_node (n : value) (g : Graph) : Graph :=
  if has_node n g then g
  else {| g_nodes := g_nodes g ++ [n]; g_edges := g_edges g |}.

Definition add_edge (g : Graph) (e : value * value) : Graph :=
  let g := add_node (snd e) (add_node (fst e) g) in
  if has_edge (fst e) (snd e) g then g
  else {| g_nodes := g_nodes g; g_edges := g_edges g ++ [e] |}.

(** [nx.from_pandas_edgelist(df, source, target)]: both columns are read,
    then every row adds its edge. *)
Definition from_pandas_edgelist (df : DataFrame) (source target : pystr)
  : exn + Graph :=
  match column df source with
  | inl e => inl e
  | inr us =>
      match column df target with
      | inl e => inl e
      | inr vs => inr (fold_left add_edge (combine us vs) empty_graph)
      end
  end.

(** The traces of the 2-D figure of v2. *)
Inductive trace : Type :=
| Lines (xs ys : list float) (width : value)
| Markers (xs ys : list float) (sizes : list value) (labels : list value).

Record GraphFigure : Type := {
  traces : list trace;
  layout_title : pystr;
  layout_height : Z
}.

Inductive figure : Type :=
| Fig3d (fig : Scatter3d)
| FigGraph (fig : GraphFigure).

(** The calls to the page library, in the order they are made.  The log is
    flat: the container a call is made in (a column, a tab, an expander, the
    spinner) is the one opened last before it.  [st.columns(3)] is three
    columns of equal width. *)
Inductive widget : Type :=
| st_title (body : pystr)
| st_text_input (label key placeholder : pystr) (help : option pystr)
| st_spinner (body : pystr)
| st_columns (widths : list nat)
| st_tabs (labels : list pystr)
| st_markdown (body : pystr) (unsafe_allow_html : bool)
| st_write (body : pystr)
| st_expander (label : pystr)
| st_plotly_chart (fig : figure) (use_container_width : bool).

Definition is_chart (w : widget) : bool :=
  match w with
  | st_plotly_chart _ _ => true
  | _ => false
  end.

(** The labels of the expanders of a page, in order. *)
Definition expander_labels (l : list widget) : list pystr :=
  flat_map (fun w => match w with
                     | st_expander label => [label]
                     | _ => []
                     end) l.

Section Backend.

(** The state of the backend (stores, model service) and of the random
    generators. *)
Variables World Rng : Type.

Record state : Type := {
  backend : World;
  rng : Rng;
  page : list widget
}.

(** A call to the page library. *)
Definition st (w : widget) : M state unit :=
  modify (fun s => {| backend := backend s; rng := rng s;
                      page := page s ++ [w] |}).

(** A call to the backend. *)
Definition on_backend {A : Type} (f : World -> (exn + A) * World)
  : M state A :=
  fun s =>
    let r := f (backend s) in
    (fst r, {| backend := snd r; rng := rng s; page := page s |}).

(** A draw from a random generator. *)
Definition draw {A : Type} (f : Rng -> A * Rng) : M state A :=
  fun s =>
    let r := f (rng s) in
    (inr (fst r), {| backend := backend s; rng := snd r; page := page s |}).

(** The answer generator. *)
Record Generator : Type := {
  generate : pystr -> World -> (exn + pystr) * World;
  get_entities : pystr -> World -> (exn + list Entity) * World;
  get_community_summaries : pystr -> World -> (exn + list pystr) * World
}.

End Backend.

(** The state after the widgets [new] were drawn. *)
Definition drawn {World Rng : Type} (s : state World Rng)
  (new : list widget) : state World Rng :=
  {| backend := backend s; rng := rng s; page := page s ++ new |}.

(** The state after the backend moved to [w]. *)
Definition moved {World Rng : Type} (s : state World Rng) (w : World)
  : state World Rng :=
  {| backend := w; rng := rng s; page := page s |}.

Definition nl : pystr := [10%N].
Definition spaces (n : nat) : pystr := repeat 32%N n.

Definition edge_record (e1 e2 : Entity) (weight : value) : record :=
  [ (py "source", VStr (name e1));
    (py "target", VStr (name e2));
    (py "weight", weight) ].

(** The two end points of an edge row. *)
Definition endpoints (r : record) : value * value :=
  (cell (py "source") r, cell (py "target") r).

(** Every entity paired with each entity after it. *)
Fixpoint all_pairs {A : Type} (l : list A) : list (A * A) :=
  match l with
  | [] => []
  | a :: l' => map (pair a) l' ++ all_pairs l'
  end.

(** The rows the loops of v2 build: the same pairs, each with a weight. *)
Definition weighted (rows : list record) (pairs : list (Entity * Entity))
  : Prop :=
  Forall2 (fun r p => exists w, r = edge_record (fst p) (snd p) (VFloat w))
          rows pairs.

(** The pair of names as the two cells of an edge row. *)
Definition name_pair (p : pystr * pystr) : value * value :=
  (VStr (fst p), VStr (snd p)).

(** No pair occurs twice in the list, in either orientation. *)
Fixpoint undirected_distinct {A : Type} (l : list (A * A)) : Prop :=
  match l with
  | [] => True
  | p :: l' =>
      ~ In p l' /\ ~ In (snd p, fst p) l' /\ undirected_distinct l'
  end.

End Dash.

(** *** Dashboard v1 ([app.py]) *)

Module DashboardV1.

Import Dash.

Section App.

Variables World Rng : Type.
Variable generator : Generator World.

Definition node_record (e : Entity) : record :=
  [ (py "id", VStr (name e)); (py "type", VStr (type e)) ].

(** The two nested loops that fill [edges]. *)
Definition edge_records (entities : list Entity) : list record :=
  fold_left
    (fun edges ie1 =>
       fold_left (fun edges e2 => edges ++ [edge_record (snd ie1) e2 (VInt 1)])
                 (skipn (fst ie1 + 1) entities) edges)
    (enumerate 0 entities) [].

Definition plot_entity_network (entities : list Entity)
  : M (state World Rng) unit :=
  let nodes := DataFrame_of (map node_record entities) in
  let edges := DataFrame_of (edge_records entities) in
  if negb (df_empty edges) then
    fig <- lift_result
             (scatter_3d nodes
                (repeat 0%Z (df_len nodes))
                (repeat 0%Z (df_len nodes))
                (repeat 0%Z (df_len nodes))
                (py "id") (py "type") (py "Related Concepts Network")) ;;
    st (st_plotly_chart (Fig3d fig) false)
  else ret tt.

(** [render_main]; [query] is the text the input box returns. *)
Definition render_main (query : pystr) : M (state World Rng) unit :=
  st (st_title (py "Insurance Knowledge Assistant")) ;;
  st (st_text_input (py "Ask a question about insurance:") (py "query")
        (py "e.g., What are the different types of auto insurance coverage?")
        None) ;;
  match query with
  | [] => ret tt
  | _ :: _ =>
      st (st_spinner (py "Generating response...")) ;;
      response <- on_backend (generate generator query) ;;
      entities <- on_backend (get_entities generator query) ;;
      summaries <- on_backend (get_community_summaries generator query) ;;
      st (st_columns [2; 1]) ;;
      st (st_markdown (py "### Answer") false) ;;
      st (st_write response) ;;
      st (st_markdown (py "### Related Concepts") false) ;;
      match entities with
      | [] => ret tt
      | _ :: _ => plot_entity_network entities
      end ;;
      st (st_markdown (py "### Knowledge Sources") false) ;;
      for_each (enumerate 1 summaries)
        (fun isum =>
           st (st_expander (py "Source " ++ str_of_nat (fst isum))) ;;
           st (st_write (snd isum)))
  end.

End App.

End DashboardV1.

(** *** Dashboard v2 ([app2.py]) *)

Module DashboardV2.

Import Dash.

Definition COLORS_primary : pystr := py "#1f77b4".
Definition COLORS_secondary : pystr := py "#2ca02c".
Definition COLORS_background : pystr := py "#f0f2f6".

Definition Unknown : pystr := py "Unknown".

(** [e.metadata.get('label', 'Unknown') if hasattr(e, 'metadata') else
    'Unknown']. *)
Definition node_label (e : Entity) : pystr :=
  match metadata e with
  | None => Unknown
  | Some d =>
      match metadata_get (py "label") d with
      | Some l => l
      | None => Unknown
      end
  end.

(** The dictionary of one node row, with the size drawn for it. *)
Definition node_row (e : Entity) (size : Z) : record :=
  [ (py "id", VStr (name e));
    (py "label", VStr (node_label e));
    (py "size", VInt size) ].

(** The rows of the node table: one per entity, in order, each with some
    size. *)
Definition sized (recs : list record) (entities : list Entity) : Prop :=
  Forall2 (fun r e => exists size, r = node_row e size) recs entities.

(** [nodes[nodes['id'] == node]['size'].iloc[0]]. *)
Definition node_size (nodes : DataFrame) (node : value) : exn + value :=
  match column nodes (py "id") with
  | inl e => inl e
  | inr _ =>
      let selected :=
        filter (fun r => value_eqb (cell (py "id") r) node) (rows nodes) in
      match column nodes (py "size") with
      | inl e => inl e
      | inr _ =>
          match selected with
          | [] => inl IndexError
          | r :: _ => inr (cell (py "size") r)
          end
      end
  end.

(** The bodies of the three formatted blocks. *)
Definition answer_html (response : pystr) : pystr :=
  nl ++ spaces 24 ++
  py "<div style='background-color: white; padding: 20px; border-radius: 10px; border-left: 5px solid "
  ++ COLORS_primary ++ py ";'>" ++
  nl ++ spaces 24 ++ response ++
  nl ++ spaces 24 ++ py "</div>" ++
  nl ++ spaces 24.

Definition badge_html (name : pystr) : pystr :=
  nl ++ spaces 36 ++ py "<div style='background-color: "
  ++ COLORS_background ++ py "; " ++
  nl ++ spaces 45 ++ py "padding: 10px; " ++
  nl ++ spaces 45 ++ py "border-radius: 5px; " ++
  nl ++ spaces 45 ++ py "margin: 5px 0;" ++
  nl ++ spaces 45 ++ py "text-align: center;'>" ++
  nl ++ spaces 36 ++ name ++
  nl ++ spaces 36 ++ py "</div>" ++
  nl ++ spaces 36.

Definition source_html (summary : pystr) : pystr :=
  nl ++ spaces 32 ++ py "<div style='background-color: white; " ++
  nl ++ spaces 41 ++ py "padding: 15px; " ++
  nl ++ spaces 41 ++ py "border-radius: 5px;" ++
  nl ++ spaces 41 ++ py "border: 1px solid "
  ++ COLORS_secondary ++ py ";'>" ++
  nl ++ spaces 32 ++ summary ++
  nl ++ spaces 32 ++ py "</div>" ++
  nl ++ spaces 32.

Definition hospital : pystr := [127973%N].
Definition thinking : pystr := [129300%N].
Definition bulb : pystr := [128161%N].
Definition link : pystr := [128279%N].
Definition books : pystr := [128218%N].
Definition sheet : pystr := [128196%N].

Section App.

Variables World Rng : Type.
Variable generator : Generator World.

(** [random.randint], [random.uniform] and the layout of the graph library,
    which draws the starting positions at random. *)
Variable random_randint : Z -> Z -> Rng -> Z * Rng.
Variable random_uniform : Z -> Z -> Rng -> float * Rng.
Variable spring_layout : Graph -> Rng -> (value -> float * float) * Rng.

Definition node_record (e : Entity) : M (state World Rng) record :=
  size <- draw (random_randint 20 40) ;;
  ret [ (py "id", VStr (name e));
        (py "label", VStr (node_label e));
        (py "size", VInt size) ].

(** The two nested loops that fill [edges]; every edge draws its weight. *)
Definition edge_records (entities : list Entity)
  : M (state World Rng) (list record) :=
  fold_m
    (fun edges ie1 =>
       fold_m (fun edges e2 =>
                 weight <- draw (random_uniform 1 3) ;;
                 ret (edges ++ [edge_record (snd ie1) e2 (VFloat weight)]))
              (skipn (fst ie1 + 1) entities) edges)
    (enumerate 0 entities) [].

Definition edge_trace (pos : value -> float * float) (edge : record) : trace :=
  let p0 := pos (cell (py "source") edge) in
  let p1 := pos (cell (py "target") edge) in
  Lines [fst p0; fst p1] [snd p0; snd p1] (cell (py "weight") edge).

Definition plot_entity_network (entities : list Entity)
  : M (state World Rng) unit :=
  node_records <- map_m node_record entities ;;
  let nodes := DataFrame_of node_records in
  edges <- edge_records entities ;;
  let edges := DataFrame_of edges in
  G <- lift_result (from_pandas_edgelist edges (py "source") (py "target")) ;;
  pos <- draw (spring_layout G) ;;
  let edge_traces := map (edge_trace pos) (rows edges) in
  node_sizes <- map_m (fun node => lift_result (node_size nodes node))
                      (g_nodes G) ;;
  let node_x := map (fun node => fst (pos node)) (g_nodes G) in
  let node_y := map (fun node => snd (pos node)) (g_nodes G) in
  let fig := {| traces := edge_traces ++
                          [Markers node_x node_y node_sizes (g_nodes G)];
                layout_title := py "Knowledge Graph Visualization";
                layout_height := 500 |} in
  st (st_plotly_chart (FigGraph fig) true).

(** [render_main]; [query] is the text the input box returns. *)
Definition render_main (query : pystr) : M (state World Rng) unit :=
  st (st_title (py "Insurance Knowledge Assistant " ++ hospital)) ;;
  st (st_text_input (py "Ask your insurance question:") (py "query")
        (py "e.g., What are the different types of auto insurance coverage?")
        (Some (py "Type your question here and press Enter"))) ;;
  match query with
  | [] => ret tt
  | _ :: _ =>
      st (st_spinner (thinking ++ py " Thinking...")) ;;
      response <- on_backend (generate generator query) ;;
      entities <- on_backend (get_entities generator query) ;;
      summaries <- on_backend (get_community_summaries generator query) ;;
      st (st_tabs [ bulb ++ py " Answer";
                    link ++ py " Related Concepts";
                    books ++ py " Sources" ]) ;;
      st (st_markdown (answer_html response) true) ;;
      match entities with
      | [] => ret tt
      | _ :: _ =>
          plot_entity_network entities ;;
          st (st_markdown (py "#### Related Terms") false) ;;
          let entity_names := map name entities in
          st (st_columns [1; 1; 1]) ;;
          for_each (enumerate 0 entity_names)
            (fun iname => st (st_markdown (badge_html (snd iname)) true))
      end ;;
      for_each (enumerate 1 summaries)
        (fun isum =>
           st (st_expander (sheet ++ py " Source " ++ str_of_nat (fst isum))) ;;
           st (st_markdown (source_html (snd isum)) true))
  end.

End App.

End DashboardV2.

(** *** The sidebar and the run of the two apps *)

Module App.

Import Dash.

(** The calls to the page library made inside the sidebar. *)
Inductive side_call : Type :=
| sb_title (body : pystr)
| sb_markdown (body : pystr) (unsafe_allow_html : bool)
| sb_button (label : pystr) (key : option pystr) (help : option pystr).

(** The labels of the buttons of a sidebar, in order. *)
Definition button_labels (l : list side_call) : list pystr :=
  flat_map (fun c => match c with
                     | sb_button label _ _ => [label]
                     | _ => []
                     end) l.

(** The same five questions in both apps. *)
Definition example_questions : list pystr :=
  [ py "What are the different types of auto insurance coverage?";
    py "How does workers compensation insurance work?";
    py "What is the difference between term and whole life insurance?";
    py "Insurance policy requirements by state?";
    py "What is the process for handling insurance claims?" ].

Definition sidebar_title : pystr := [127973%N] ++ py " Insurance Assistant".

Definition about_v1 : pystr :=
  join nl
    [ [];
      py "            This app helps you understand insurance concepts and requirements ";
      py "            using advanced AI and knowledge graph technology.";
      py "            " ].

Definition built_with_v1 : pystr :=
  join nl
    [ [];
      py "            Built with:";
      py "            - LlamaIndex";
      py "            - Neo4j";
      py "            - OpenAI";
      py "            - Streamlit";
      py "            " ].

(** The formatted blocks of v2, with the colours of [COLORS] filled in. *)
Definition about_v2 : pystr :=
  join nl
    [ [];
      py "                <div style='background-color: #f0f2f6; padding: 15px; border-radius: 5px;'>";
      py "                This AI-powered assistant helps you understand insurance concepts and requirements.";
      py "                </div>";
      py "                " ].

Definition built_with_v2 : pystr :=
  join nl
    [ [];
      py "                ### " ++ [128736%N] ++ [65039%N] ++ py " Built with";
      py "                - LlamaIndex " ++ [129433%N];
      py "                - Neo4j " ++ [128202%N];
      py "                - OpenAI " ++ [129302%N];
      py "                - Streamlit " ++ [127775%N];
      py "                " ].



Section Run.

Variables World Rng : Type.

(** The state of one run of the script: [st.session_state.query], what the
    sidebar holds, and the state of the main pane. *)
Record app_state : Type := {
  session_query : pystr;
  sidebar : list side_call;
  main : state World Rng
}.

Definition sb (c : side_call) : M app_state unit :=
  modify (fun a => {| session_query := session_query a;
                      sidebar := sidebar a ++ [c];
                      main := main a |}).

(** [st.session_state.query = q]. *)
Definition set_query (q : pystr) : M app_state unit :=
  modify (fun a => {| session_query := q;
                      sidebar := sidebar a;
                      main := main a |}).


(** What [st.button] returns for the button of a question in this run. *)
Variable clicked : pystr -> bool.

(** The loop over the example questions. *)
Definition example_buttons (button : pystr -> side_call) : M app_state unit :=
  for_each example_questions
    (fun q => sb (button q) ;;
              if clicked q then set_query q else ret tt).

Definition render_sidebar_v1 : M app_state unit :=
  sb (sb_title sidebar_title) ;;
  sb (sb_markdown (py "---") false) ;;
  sb (sb_markdown about_v1 false) ;;
  sb (sb_markdown (py "### Example Questions") false) ;;
  example_buttons (fun q => sb_button q None None) ;;
  sb (sb_markdown (py "---") false) ;;
  sb (sb_markdown (py "### About") false) ;;
  sb (sb_markdown built_with_v1 false).

Definition render_sidebar_v2 : M app_state unit :=
  sb (sb_title sidebar_title) ;;
  sb (sb_markdown about_v2 true) ;;
  sb (sb_markdown (py "### " ++ [128221%N] ++ py " Example Questions")
        false) ;;
  example_buttons
    (fun q => sb_button q (Some q) (Some (py "Click to ask: " ++ q))) ;;
  sb (sb_markdown (py "---") false) ;;
  sb (sb_markdown built_with_v2 false).

Variable generator : Generator World.
Variable random_randint : Z -> Z -> Rng -> Z * Rng.
Variable random_uniform : Z -> Z -> Rng -> float * Rng.
Variable spring_layout : Graph -> Rng -> (value -> float * float) * Rng.



End Run.

End App.

(** *** The start of the two apps ([__init__]) *)

Module Startup.

Section Startup.

(** The state of the page library, the stores and the model service. *)
Variable World : Type.

(** The constructors and the loading of the summaries; the objects they
    build live in the state. *)
Record components : Type := {
  set_page_config : option pystr -> World -> (exn + unit) * World;
  CommunitySummarizer_init : World -> (exn + unit) * World;
  DataIndexer_init : World -> (exn + unit) * World;
  summarizer_load : World -> (exn + unit) * World;
  Generator_init : World -> (exn + unit) * World
}.

Variable c : components.

(** The calls [__init__] makes; [set_page_config] with its
    [initial_sidebar_state], which only v2 gives. *)
Inductive call : Type :=
| SetPageConfig (initial_sidebar_state : option pystr)
| NewCommunitySummarizer
| NewDataIndexer
| SummarizerLoad
| NewGenerator.

Definition state : Type := World * list call.

Definition invoke {A : Type} (ev : call)
  (f : World -> (exn + A) * World) : M state A :=
  fun s =>
    let r := f (fst s) in
    (fst r, (snd r, snd s ++ [ev])).

Definition init (initial_sidebar_state : option pystr) : M state unit :=
  invoke (SetPageConfig initial_sidebar_state)
         (set_page_config c initial_sidebar_state) ;;
  invoke NewCommunitySummarizer (CommunitySummarizer_init c) ;;
  invoke NewDataIndexer (DataIndexer_init c) ;;
  invoke SummarizerLoad (summarizer_load c) ;;
  invoke NewGenerator (Generator_init c).

Definition init_v1 : M state unit := init None.
Definition init_v2 : M state unit := init (Some (py "expanded")).

(** The place of a call in the body of [__init__]. *)
Definition rank (ev : call) : nat :=
  match ev with
  | SetPageConfig _ => 0
  | NewCommunitySummarizer => 1
  | NewDataIndexer => 2
  | SummarizerLoad => 3
  | NewGenerator => 4
  end.

End Startup.

End Startup.

(* ------------------------------------------------------------------ *)
(** * Properties *)

(** ** The string builtins *)

Lemma char_eqb_eq a b : char_eqb a b = true <-> a = b.
Proof. apply N.eqb_eq. Qed.

Lemma char_eqb_sym a b : char_eqb a b = char_eqb b a.
Proof. apply N.eqb_sym. Qed.

Lemma str_eqb_eq a b : str_eqb a b = true <-> a = b.
Proof.
  revert b; induction a as [|x a IH]; intros [|y b]; simpl; split;
    try congruence; try discriminate.
  - intros H. apply andb_true_iff in H as [H1 H2].
    apply char_eqb_eq in H1. apply IH in H2. congruence.
  - intros H. injection H as -> ->. apply andb_true_iff. split.
    + now apply char_eqb_eq.
    + now apply IH.
Qed.

Lemma str_eqb_refl a : str_eqb a a = true.
Proof. now apply str_eqb_eq. Qed.

Lemma str_eqb_neq a b : str_eqb a b = false <-> a <> b.
Proof.
  split.
  - intros H E. apply str_eqb_eq in E. congruence.
  - intros H. destruct (str_eqb a b) eqn:E; [|reflexivity].
    apply str_eqb_eq in E. contradiction.
Qed.

Lemma str_eqb_sym a b : str_eqb a b = str_eqb b a.
Proof.
  destruct (str_eqb a b) eqn:E.
  - apply str_eqb_eq in E. subst. symmetry. apply str_eqb_refl.
  - symmetry. apply str_eqb_neq. apply str_eqb_neq in E. congruence.
Qed.

Lemma split_on_nonempty sep s : split_on sep s <> [].
Proof.
  induction s as [|c s IH]; simpl; [discriminate|].
  destruct (char_eqb c sep); [discriminate|].
  destruct (split_on sep s); discriminate.
Qed.

(** The segments of [split_on] are one more than the separators. *)
Lemma split_on_length sep s :
  List.length (split_on sep s) = S (count_char sep s).
Proof.
  unfold count_char.
  induction s as [|c s IH]; [reflexivity|].
  cbn [split_on filter]. rewrite (char_eqb_sym sep c).
  destruct (char_eqb c sep); cbn [List.length].
  - now rewrite IH.
  - destruct (split_on sep s) eqn:E; cbn [List.length] in *;
      [discriminate|exact IH].
Qed.

Lemma join_cons sep p ps :
  ps <> [] -> join sep (p :: ps) = p ++ sep ++ join sep ps.
Proof. destruct ps; [contradiction|reflexivity]. Qed.

(** Joining the segments with the separator gives the string back. *)
Lemma split_on_join sep s : join [sep] (split_on sep s) = s.
Proof.
  induction s as [|c s IH]; [reflexivity|].
  pose proof (split_on_nonempty sep s) as NE.
  cbn [split_on]. destruct (char_eqb c sep) eqn:E.
  - apply char_eqb_eq in E. subst c.
    rewrite join_cons by assumption. now rewrite IH.
  - destruct (split_on sep s) as [|seg segs]; [contradiction|].
    destruct segs as [|seg' segs].
    + cbn [join] in *. now rewrite IH.
    + rewrite join_cons by discriminate.
      rewrite join_cons in IH by discriminate.
      rewrite <- IH. reflexivity.
Qed.

(** No segment of [split_on] holds the separator. *)
Lemma split_on_no_sep sep s seg :
  In seg (split_on sep s) -> ~ In sep seg.
Proof.
  revert seg; induction s as [|c s IH]; simpl; intros seg H.
  - destruct H as [<-|[]]. intros [].
  - destruct (char_eqb c sep) eqn:E.
    + destruct H as [<-|H]; [intros []|now apply IH].
    + pose proof (split_on_nonempty sep s) as NE.
      destruct (split_on sep s) as [|seg0 segs]; [contradiction|].
      destruct H as [<-|H].
      * intros [->|H0].
        -- unfold char_eqb in E. rewrite N.eqb_refl in E. discriminate.
        -- apply (IH seg0); [now left|assumption].
      * apply IH. now right.
Qed.

(** The tokens of [split_ws] are as many as the starts of runs. *)
Lemma split_ws_from_length cur s :
  List.length (split_ws_from cur s) =
  match cur with
  | [] => count_runs true s
  | _ => S (count_runs false s)
  end.
Proof.
  revert cur; induction s as [|c s IH]; intros cur; simpl.
  - destruct cur; reflexivity.
  - destruct (isspace c).
    + destruct cur; simpl; rewrite IH; reflexivity.
    + rewrite IH. destruct cur; reflexivity.
Qed.

Lemma split_ws_length s : List.length (split_ws s) = count_runs true s.
Proof. apply (split_ws_from_length [] s). Qed.

Lemma startswith_app (x b : pystr) : startswith x (x ++ b) = true.
Proof.
  induction x as [|c x IH]; [reflexivity|].
  cbn [app startswith]. unfold char_eqb at 1. now rewrite N.eqb_refl, IH.
Qed.

Lemma contains_here (x y : pystr) :
  startswith x y = true -> contains x y = true.
Proof. intros H. destruct y; cbn [contains]; now rewrite H. Qed.

Lemma contains_app_r (x a y : pystr) :
  contains x y = true -> contains x (a ++ y) = true.
Proof.
  intros H. induction a as [|c a IH]; [assumption|].
  cbn [app contains]. rewrite IH. apply orb_true_r.
Qed.

Lemma contains_join (sep c : pystr) (parts : list pystr) :
  In c parts -> contains c (join sep parts) = true.
Proof.
  induction parts as [|p parts IH]; intros H; [destruct H|].
  destruct parts as [|p' parts].
  - destruct H as [->|[]]. cbn [join]. apply contains_here.
    rewrite <- (app_nil_r c) at 2. apply startswith_app.
  - rewrite join_cons by discriminate. destruct H as [->|H].
    + apply contains_here, startswith_app.
    + do 2 apply contains_app_r. now apply IH.
Qed.

Lemma contains_middle (x a b : pystr) : contains x (a ++ x ++ b) = true.
Proof. apply contains_app_r, contains_here, startswith_app. Qed.

(** ** Lists and loops *)

(** A loop that appends one element per round builds a [map]. *)
Lemma fold_left_snoc {A B : Type} (f : A -> B) (l : list A) (acc : list B) :
  fold_left (fun acc a => acc ++ [f a]) l acc = acc ++ map f l.
Proof.
  revert acc; induction l as [|a l IH]; intros acc; simpl.
  - now rewrite app_nil_r.
  - rewrite IH, <- app_assoc. reflexivity.
Qed.

Lemma enumerate_cons {A : Type} (start : nat) (a : A) (l : list A) :
  enumerate start (a :: l) = (start, a) :: enumerate (S start) l.
Proof. reflexivity. Qed.

Lemma enumerate_length {A : Type} (start : nat) (l : list A) :
  List.length (enumerate start l) = List.length l.
Proof.
  unfold enumerate. rewrite length_combine, length_seq. apply Nat.min_id.
Qed.

Lemma enumerate_nth {A : Type} (l : list A) :
  forall start i a,
    nth_error l i = Some a ->
    nth_error (enumerate start l) i = Some (start + i, a).
Proof.
  induction l as [|b l IH]; intros start [|i] a H; simpl in H;
    try discriminate.
  - injection H as ->. rewrite enumerate_cons, Nat.add_0_r. reflexivity.
  - rewrite enumerate_cons. simpl. rewrite (IH (S start) i a H).
    do 2 f_equal. lia.
Qed.

(** ** The toolkit: [analyze_chunks] *)

Import Toolkit.

Lemma analyze_chunks_map (chunks : list pystr) :
  analyze_chunks chunks =
  map (fun ic => analyze_chunk (fst ic) (snd ic)) (enumerate 0 chunks).
Proof.
  unfold analyze_chunks.
  exact (fold_left_snoc (fun ic => analyze_chunk (fst ic) (snd ic))
                        (enumerate 0 chunks) []).
Qed.

Lemma analyze_chunks_length (chunks : list pystr) :
  List.length (analyze_chunks chunks) = List.length chunks.
Proof. now rewrite analyze_chunks_map, length_map, enumerate_length. Qed.

(** C5: [analyze_chunks] returns one row per chunk, in input order; the row
    of the chunk at position [i] has [chunk_id] [i], [length] the number of
    characters of the chunk, [sentences] the number of segments between
    full stops (one more than the full stops), [words] the number of
    white-space separated tokens (the runs of non-space characters) and
    [preview] the first 100 characters followed by three full stops, which
    for a chunk of fewer than 100 characters is the whole chunk followed by
    three full stops. *)
Theorem analyze_chunks_rows (chunks : list pystr) (i : nat) (chunk : pystr) :
  nth_error chunks i = Some chunk ->
  List.length (analyze_chunks chunks) = List.length chunks /\
  exists r,
    nth_error (analyze_chunks chunks) i = Some r /\
    chunk_id r = i /\
    length r = List.length chunk /\
    sentences r = List.length (split_on dot chunk) /\
    sentences r = S (count_char dot chunk) /\
    words r = List.length (split_ws chunk) /\
    words r = count_runs true chunk /\
    preview r = firstn 100 chunk ++ py "..." /\
    (List.length chunk < 100 -> preview r = chunk ++ py "...").
Proof.
  intros H. split; [apply analyze_chunks_length|].
  exists (analyze_chunk i chunk). split.
  - rewrite analyze_chunks_map.
    rewrite nth_error_map, (enumerate_nth chunks 0 i H). reflexivity.
  - cbn [analyze_chunk chunk_id length sentences words preview].
    repeat split.
    + apply split_on_length.
    + apply split_ws_length.
    + intros Hlt. unfold slice_to. rewrite firstn_all2 by lia. reflexivity.
Qed.

Lemma analyze_chunks_rows_witness :
  nth_error [py "Term life. Whole life."; py "a  b"] 0
    = Some (py "Term life. Whole life.") /\
  exists r,
    nth_error (analyze_chunks [py "Term life. Whole life."; py "a  b"]) 0
      = Some r /\
    length r = 22 /\ sentences r = 3 /\ words r = 4 /\
    preview r = py "Term life. Whole life....".
Proof.
  split; [reflexivity|].
  destruct (@analyze_chunks_rows
              [py "Term life. Whole life."; py "a  b"] 0
              (py "Term life. Whole life.") eq_refl)
    as (_ & r & Hr & _ & Hl & _ & Hs & _ & Hw & Hp & _).
  exists r. repeat split; assumption.
Defined.

(** ** The toolkit: [split_by_topics] *)

Lemma last_cons {A : Type} (l : list A) :
  forall x d, last (x :: l) d = last l x.
Proof.
  induction l as [|a l IH]; intros x d; [reflexivity|].
  change (last (a :: l) d = last (a :: l) x).
  now rewrite !IH.
Qed.

(** A loop in which every matching element overwrites the variable leaves
    the last matching element in it. *)
Lemma fold_overwrite {A : Type} (p : A -> bool) (l : list A) :
  forall cur,
    fold_left (fun cur a => if p a then a else cur) l cur
    = last (filter p l) cur.
Proof.
  induction l as [|a l IH]; intros cur; simpl; [reflexivity|].
  rewrite IH. destruct (p a); [|reflexivity].
  symmetry. apply last_cons.
Qed.

Lemma mem_In x l : mem x l = true <-> In x l.
Proof.
  unfold mem. rewrite existsb_exists. split.
  - intros (y & Hy & E). apply str_eqb_eq in E. now subst.
  - intros H. exists x. split; [assumption|apply str_eqb_refl].
Qed.

Lemma mem_not_In x l : mem x l = false <-> ~ In x l.
Proof.
  rewrite <- mem_In. destruct (mem x l); split; congruence.
Qed.

Lemma first_seen_In l :
  forall seen x, In x (first_seen seen l) <-> In x l /\ ~ In x seen.
Proof.
  induction l as [|a l IH]; intros seen x; simpl; [tauto|].
  destruct (mem a seen) eqn:E.
  - apply mem_In in E. rewrite IH. split.
    + tauto.
    + intros [[->|H] Hn]; [contradiction|tauto].
  - apply mem_not_In in E. simpl. rewrite IH. simpl. split.
    + intros [->|[H Hn]]; [tauto|]. split; [tauto|]. tauto.
    + intros [[->|H] Hn]; [tauto|].
      destruct (str_eqb a x) eqn:Eax.
      * apply str_eqb_eq in Eax. tauto.
      * apply str_eqb_neq in Eax. right. split; [assumption|].
        intros [F|F]; [contradiction|contradiction].
Qed.

Lemma first_seen_NoDup l : forall seen, NoDup (first_seen seen l).
Proof.
  induction l as [|a l IH]; intros seen; simpl; [constructor|].
  destruct (mem a seen); [apply IH|].
  constructor; [|apply IH].
  rewrite first_seen_In. simpl. tauto.
Qed.

Lemma first_seen_snoc l :
  forall seen x,
    first_seen seen (l ++ [x]) =
    first_seen seen l ++ (if mem x seen || mem x l then [] else [x]).
Proof.
  induction l as [|a l IH]; intros seen x; simpl.
  - rewrite orb_false_r. destruct (mem x seen); reflexivity.
  - destruct (mem a seen) eqn:E.
    + rewrite IH. f_equal.
      destruct (str_eqb x a) eqn:Exa; [|reflexivity].
      apply str_eqb_eq in Exa. subst a. rewrite E. reflexivity.
    + rewrite IH. simpl. f_equal. f_equal.
      destruct (str_eqb x a), (mem x seen), (mem x l); reflexivity.
Qed.

Lemma dict_mem_keys (f : pystr -> list pystr) (keys : list pystr) key :
  dict_mem key (map (fun t => (t, f t)) keys) = mem key keys.
Proof.
  induction keys as [|k keys IH]; simpl; [reflexivity|].
  now rewrite IH, (str_eqb_sym k key).
Qed.

(** Appending under a key of a dictionary whose keys are distinct touches
    that key's list and no other. *)
Lemma dict_append_keys (f : pystr -> list pystr) (keys : list pystr) key v :
  NoDup keys ->
  dict_append key v (map (fun t => (t, f t)) keys) =
  map (fun t => (t, f t ++ (if str_eqb t key then [v] else []))) keys.
Proof.
  induction 1 as [|k keys Hk Hnd IH]; simpl; [reflexivity|].
  destruct (str_eqb k key) eqn:E.
  - apply str_eqb_eq in E. subst k. f_equal.
    apply map_ext_in. intros t Ht.
    assert (str_eqb t key = false) as ->.
    { apply str_eqb_neq. intros ->. contradiction. }
    now rewrite app_nil_r.
  - rewrite IH, app_nil_r. reflexivity.
Qed.

Lemma chunks_of_snoc t ps l c :
  chunks_of t (ps ++ [(l, c)]) =
  chunks_of t ps ++ (if str_eqb l t then [c] else []).
Proof.
  unfold chunks_of. rewrite filter_app, map_app. simpl.
  destruct (str_eqb l t); reflexivity.
Qed.

Lemma chunks_of_absent t ps :
  ~ In t (map fst ps) -> chunks_of t ps = [].
Proof.
  unfold chunks_of. induction ps as [|[l c] ps IH]; simpl; intros H;
    [reflexivity|].
  destruct (str_eqb l t) eqn:E.
  - apply str_eqb_eq in E. tauto.
  - apply IH. tauto.
Qed.

Lemma spec_group_snoc ps l c :
  spec_group (ps ++ [(l, c)]) = dict_add (spec_group ps) (l, c).
Proof.
  unfold dict_add, spec_group. cbn [fst snd].
  rewrite map_app. cbn [map fst]. rewrite first_seen_snoc.
  cbn [mem existsb orb]. fold (mem l (map fst ps)).
  set (K := first_seen [] (map fst ps)).
  assert (HK : NoDup K) by apply first_seen_NoDup.
  rewrite dict_mem_keys.
  assert (Hmem : mem l K = mem l (map fst ps)).
  { destruct (mem l (map fst ps)) eqn:E.
    - apply mem_In. apply first_seen_In. apply mem_In in E. simpl. tauto.
    - apply mem_not_In. apply mem_not_In in E. intros F.
      apply first_seen_In in F. tauto. }
  rewrite Hmem. destruct (mem l (map fst ps)) eqn:E.
  - rewrite app_nil_r, dict_append_keys by assumption.
    apply map_ext. intros t. rewrite chunks_of_snoc.
    now rewrite (str_eqb_sym l t).
  - apply mem_not_In in E.
    assert (HK' : NoDup (K ++ [l])).
    { apply NoDup_app; [assumption|repeat constructor; intros []|].
      intros t Ht [<-|[]]. apply first_seen_In in Ht. tauto. }
    replace (map (fun t => (t, chunks_of t ps)) K ++ [(l, [])])
      with (map (fun t => (t, chunks_of t ps)) (K ++ [l])).
    + rewrite dict_append_keys by assumption.
      apply map_ext. intros t. rewrite chunks_of_snoc.
      now rewrite (str_eqb_sym l t).
    + rewrite map_app. cbn [map]. now rewrite chunks_of_absent.
Qed.

Lemma fold_dict_add_spec ps :
  fold_left dict_add ps [] = spec_group ps.
Proof.
  induction ps as [|[l c] ps IH] using rev_ind; [reflexivity|].
  now rewrite fold_left_app, IH, spec_group_snoc.
Qed.

Section TopicFacts.

Variable lower : pystr -> pystr.

Lemma scan_indicators_spec cur text :
  scan_indicators lower cur text = spec_next_topic lower cur text.
Proof. apply fold_overwrite. Qed.

Lemma topics_loop_spec chunks :
  forall d cur,
    fst (fold_left (topics_step lower) chunks (d, cur)) =
    fold_left dict_add (combine (spec_labels lower cur chunks) chunks) d.
Proof.
  induction chunks as [|c chunks IH]; intros d cur; [reflexivity|].
  cbn [fold_left spec_labels combine].
  unfold topics_step at 2. cbn [fst snd].
  rewrite scan_indicators_spec. rewrite IH. reflexivity.
Qed.

Lemma group_by_topic_spec chunks :
  group_by_topic lower chunks = spec_buckets lower chunks.
Proof.
  unfold group_by_topic, spec_buckets.
  now rewrite topics_loop_spec, fold_dict_add_spec.
Qed.

Lemma spec_labels_length chunks :
  forall start,
    List.length (spec_labels lower start chunks) = List.length chunks.
Proof.
  induction chunks as [|c chunks IH]; intros start; simpl; [reflexivity|].
  now rewrite IH.
Qed.

Lemma spec_labels_nth chunks :
  forall start i c,
    nth_error chunks i = Some c ->
    nth_error (spec_labels lower start chunks) i =
    Some (spec_next_topic lower
            (topic_before start (spec_labels lower start chunks) i) c).
Proof.
  induction chunks as [|c0 chunks IH]; intros start [|i] c H; simpl in H;
    try discriminate.
  - injection H as ->. reflexivity.
  - cbn [spec_labels nth_error]. rewrite (IH _ i c H). do 2 f_equal.
    destruct i as [|i]; [reflexivity|]. cbn [topic_before nth].
    apply nth_indep. rewrite spec_labels_length.
    assert (S i < List.length chunks); [|lia].
    apply nth_error_Some. rewrite H. discriminate.
Qed.

Lemma spec_next_topic_unmarked cur text :
  has_marker lower text = false -> spec_next_topic lower cur text = cur.
Proof.
  unfold has_marker, spec_next_topic. intros H.
  assert (E : filter (fun indicator => occurs lower indicator text)
                     topic_indicators = []).
  { induction topic_indicators as [|a l IH]; [reflexivity|].
    simpl in *. apply orb_false_iff in H as [H1 H2].
    rewrite H1. now apply IH. }
  now rewrite E.
Qed.

Lemma last_In {A : Type} (l : list A) (d : A) :
  l <> [] -> In (last l d) l.
Proof.
  induction l as [|a l IH]; intros H; [contradiction|].
  destruct l as [|b l]; [now left|].
  right. apply IH. discriminate.
Qed.

Lemma spec_next_topic_marked cur text :
  has_marker lower text = true ->
  In (spec_next_topic lower cur text) topic_indicators /\
  occurs lower (spec_next_topic lower cur text) text = true.
Proof.
  unfold has_marker, spec_next_topic. intros H.
  apply existsb_exists in H as (m & Hm & Ho).
  apply (proj1 (filter_In (fun indicator => occurs lower indicator text)
                          _ topic_indicators)).
  apply last_In. intros E.
  assert (F : In m (filter (fun indicator => occurs lower indicator text)
                           topic_indicators)).
  { apply filter_In. tauto. }
  rewrite E in F. destruct F.
Qed.

End TopicFacts.

Lemma nth_error_combine {A B : Type} (l : list A) :
  forall (l' : list B) i a b,
    nth_error l i = Some a -> nth_error l' i = Some b ->
    nth_error (combine l l') i = Some (a, b).
Proof.
  induction l as [|x l IH]; intros [|y l'] [|i] a b Ha Hb; simpl in *;
    try discriminate.
  - congruence.
  - now apply IH.
Qed.

Lemma map_fst_combine {A B : Type} (l : list A) :
  forall (l' : list B),
    List.length l = List.length l' -> map fst (combine l l') = l.
Proof.
  induction l as [|x l IH]; intros [|y l'] H; simpl in *;
    try discriminate; [reflexivity|].
  f_equal. apply IH. lia.
Qed.

(** C3: [split_by_topics] is one pass over the base chunks with a current
    topic.  The buckets it returns are those of the labelling in which the
    topic starts as General and, after each chunk, is a marker occurring
    (case-insensitively) in that chunk when there is one and is unchanged
    otherwise; every chunk is appended to the bucket of the topic current
    after it.  So a chunk without a marker goes to the bucket of the topic of
    the chunk before it, and a chunk with no marker in it or before it goes
    to General. *)
Theorem split_by_topics_single_pass
  (lower : pystr -> pystr) (sentence_parser : pystr -> list pystr)
  (text : pystr) :
  split_by_topics lower sentence_parser text
  = format_results (spec_buckets lower (sentence_parser text)) /\
  List.length (spec_labels lower General (sentence_parser text))
  = List.length (sentence_parser text) /\
  (forall i c,
     nth_error (sentence_parser text) i = Some c ->
     exists t cs,
       nth_error (spec_labels lower General (sentence_parser text)) i = Some t
       /\ In (t, cs) (group_by_topic lower (sentence_parser text))
       /\ cs = chunks_of t
                 (combine (spec_labels lower General (sentence_parser text))
                          (sentence_parser text))
       /\ In c cs) /\
  (forall i c,
     nth_error (sentence_parser text) i = Some c ->
     has_marker lower c = false ->
     nth_error (spec_labels lower General (sentence_parser text)) i
     = Some (topic_before General
               (spec_labels lower General (sentence_parser text)) i)) /\
  (forall i c,
     nth_error (sentence_parser text) i = Some c ->
     has_marker lower c = true ->
     exists m,
       nth_error (spec_labels lower General (sentence_parser text)) i = Some m
       /\ In m topic_indicators /\ occurs lower m c = true) /\
  (forall i c,
     nth_error (sentence_parser text) i = Some c ->
     (forall j cj, j <= i -> nth_error (sentence_parser text) j = Some cj ->
                   has_marker lower cj = false) ->
     nth_error (spec_labels lower General (sentence_parser text)) i
     = Some General).
Proof.
  set (chunks := sentence_parser text).
  set (labels := spec_labels lower General chunks).
  assert (Hlen : List.length labels = List.length chunks)
    by apply spec_labels_length.
  assert (Hcarry : forall i c,
             nth_error chunks i = Some c -> has_marker lower c = false ->
             nth_error labels i = Some (topic_before General labels i)).
  { intros i c Hc Hm. unfold labels.
    rewrite (spec_labels_nth lower chunks General i Hc).
    now rewrite spec_next_topic_unmarked. }
  repeat split.
  - unfold split_by_topics. fold chunks. now rewrite group_by_topic_spec.
  - exact Hlen.
  - intros i c Hc.
    pose proof (spec_labels_nth lower chunks General i Hc) as Ht.
    fold labels in Ht.
    set (t := spec_next_topic lower (topic_before General labels i) c) in *.
    exists t, (chunks_of t (combine labels chunks)).
    pose proof (nth_error_combine labels chunks i Ht Hc) as Hp.
    apply nth_error_In in Hp.
    repeat split; [assumption| |].
    + rewrite group_by_topic_spec. unfold spec_buckets, spec_group.
      fold labels. apply in_map_iff. exists t. split; [reflexivity|].
      apply first_seen_In. split; [|intros []].
      rewrite map_fst_combine by assumption.
      apply nth_error_In with i. assumption.
    + unfold chunks_of. apply in_map_iff. exists (t, c). split; [reflexivity|].
      apply filter_In. split; [assumption|]. apply str_eqb_refl.
  - exact Hcarry.
  - intros i c Hc Hm. unfold labels.
    rewrite (spec_labels_nth lower chunks General i Hc).
    eexists. split; [reflexivity|].
    now apply spec_next_topic_marked.
  - intros i. induction i as [|i IH]; intros c Hc Hall.
    + rewrite (Hcarry 0 c Hc); [reflexivity|]. apply (Hall 0 c); auto.
    + rewrite (Hcarry (S i) c Hc) by (apply (Hall (S i) c); auto).
      cbn [topic_before]. f_equal.
      assert (Hi : i < List.length chunks).
      { assert (S i < List.length chunks); [|lia].
        apply nth_error_Some. rewrite Hc. discriminate. }
      destruct (nth_error chunks i) as [ci|] eqn:Hci.
      * apply nth_error_nth. apply (IH ci eq_refl).
        intros j cj Hj. apply Hall. lia.
      * apply nth_error_None in Hci. lia.
Qed.

Lemma first_seen_length l :
  forall seen, List.length (first_seen seen l) <= List.length l.
Proof.
  induction l as [|a l IH]; intros seen; simpl; [lia|].
  destruct (mem a seen); simpl.
  - specialize (IH seen). lia.
  - specialize (IH (a :: seen)). lia.
Qed.

(** There are never more buckets than base chunks. *)
Lemma split_by_topics_length
  (lower : pystr -> pystr) (sentence_parser : pystr -> list pystr)
  (text : pystr) :
  List.length (split_by_topics lower sentence_parser text)
  <= List.length (sentence_parser text).
Proof.
  unfold split_by_topics, format_results.
  rewrite length_map, group_by_topic_spec.
  unfold spec_buckets, spec_group. rewrite length_map.
  etransitivity; [apply first_seen_length|].
  rewrite length_map, length_combine, spec_labels_length. lia.
Qed.

(** The pieces cut at the sentence boundaries make up the text. *)
Lemma spec_cut_from_concat (text : pystr) :
  forall cur, List.concat (spec_cut_from cur text) = rev cur ++ text.
Proof.
  induction text as [|c text IH]; intros cur; cbn [spec_cut_from].
  - destruct cur; [reflexivity|]. cbn [List.concat]. reflexivity.
  - destruct (is_sentence_end c); cbn [List.concat].
    + rewrite IH. cbn [rev app]. now rewrite <- app_assoc.
    + rewrite IH. cbn [rev]. now rewrite <- app_assoc.
Qed.

Lemma spec_cut_sentences_concat (text : pystr) :
  List.concat (spec_cut_sentences text) = text.
Proof. apply (spec_cut_from_concat text []). Qed.

(** Every piece but the last ends a sentence, and no piece holds the end of
    a sentence before its last character. *)
Lemma spec_cut_from_ends (text : pystr) :
  forall cur,
    forallb (fun c => negb (is_sentence_end c)) cur = true ->
    Forall (fun piece =>
              forallb (fun c => negb (is_sentence_end c))
                      (removelast piece) = true)
           (spec_cut_from cur text).
Proof.
  assert (R : forall l : pystr,
             forallb (fun c => negb (is_sentence_end c)) l = true ->
             forallb (fun c => negb (is_sentence_end c)) (rev l) = true).
  { intros l H. rewrite forallb_forall in H |- *.
    intros x Hx. apply H. now apply in_rev. }
  assert (L : forall l : pystr,
             forallb (fun c => negb (is_sentence_end c)) l = true ->
             forallb (fun c => negb (is_sentence_end c)) (removelast l)
             = true).
  { intros l H. rewrite forallb_forall in H |- *.
    intros x Hx. apply H.
    destruct l as [|a l]; [destruct Hx|].
    rewrite (app_removelast_last a (l := a :: l)) by discriminate.
    apply in_or_app. now left. }
  induction text as [|c text IH]; intros cur Hcur; cbn [spec_cut_from].
  - destruct cur as [|a cur]; constructor; [|constructor].
    apply L, R, Hcur.
  - destruct (is_sentence_end c) eqn:E.
    + constructor; [|now apply IH].
      cbn [rev]. rewrite removelast_last. now apply R.
    + apply IH. cbn [forallb]. now rewrite E, Hcur.
Qed.


(** ** The indexing pipeline *)

Section PipelineFacts.

Import Pipeline.

Variables Nodes Entities Relationships World : Type.
Variable c : components Nodes Entities Relationships World.

Lemma invoke_returns {A : Type} (ev : call Nodes Entities Relationships)
  (f : World -> (exn + A) * World) (k : A -> M _ unit) s s' :
  bind (invoke ev f) k s = (inr tt, s') ->
  exists a w,
    f (fst s) = (inr a, w) /\ k a (w, snd s ++ [ev]) = (inr tt, s').
Proof.
  unfold bind, invoke. destruct (f (fst s)) as [[e|a] w] eqn:E; simpl.
  - discriminate.
  - intros H. now exists a, w.
Qed.

(** C1: a run that returns has made the five stage calls in the order
    [load_data], [extract], [resolve], the summarizer's [run], [insert_data],
    each exactly once and after the five constructors; [extract] received
    the nodes [load_data] returned, [resolve] the nodes [extract] returned,
    and the summarizer's [run] and [insert_data] the entities and
    relationships [resolve] returned, each stage starting in the state the
    stage before it left. *)
Theorem run_stages_in_order (w : World)
  (log : list (call Nodes Entities Relationships))
  (w' : World) (log' : list (call Nodes Entities Relationships)) :
  run c (w, log) = (inr tt, (w', log')) ->
  exists w1 w2 w3 w4 w5 w6 w7 w8 w9 nodes0 nodes1 entities relationships,
    TextSplitter_init c w = (inr tt, w1) /\
    GraphExtractor_init c w1 = (inr tt, w2) /\
    GraphResolver_init c w2 = (inr tt, w3) /\
    DataIndexer_init c w3 = (inr tt, w4) /\
    CommunitySummarizer_init c w4 = (inr tt, w5) /\
    load_data c w5 = (inr nodes0, w6) /\
    extract c nodes0 w6 = (inr nodes1, w7) /\
    resolve c nodes1 w7 = (inr (entities, relationships), w8) /\
    summarizer_run c entities relationships w8 = (inr tt, w9) /\
    insert_data c entities relationships w9 = (inr tt, w') /\
    log' = log ++
           [ NewTextSplitter _ _ _; NewGraphExtractor _ _ _;
             NewGraphResolver _ _ _; NewDataIndexer _ _ _;
             NewCommunitySummarizer _ _ _;
             CallLoadData _ _ _;
             CallExtract _ _ nodes0;
             CallResolve _ _ nodes1;
             CallSummarizerRun _ entities relationships;
             CallInsertData _ entities relationships ] /\
    stages log' = stages log ++
           [ CallLoadData _ _ _;
             CallExtract _ _ nodes0;
             CallResolve _ _ nodes1;
             CallSummarizerRun _ entities relationships;
             CallInsertData _ entities relationships ].
Proof.
  unfold run. intros H.
  apply invoke_returns in H as ([] & w1 & H1 & H).
  apply invoke_returns in H as ([] & w2 & H2 & H).
  apply invoke_returns in H as ([] & w3 & H3 & H).
  apply invoke_returns in H as ([] & w4 & H4 & H).
  apply invoke_returns in H as ([] & w5 & H5 & H).
  apply invoke_returns in H as (nodes0 & w6 & H6 & H).
  apply invoke_returns in H as (nodes1 & w7 & H7 & H).
  apply invoke_returns in H as ([entities relationships] & w8 & H8 & H).
  apply invoke_returns in H as ([] & w9 & H9 & H).
  cbn [fst snd] in *.
  unfold invoke in H. cbn [fst snd] in H.
  destruct (insert_data c entities relationships w9) as [[e|[]] w10] eqn:H10;
    cbn [fst snd] in H; [discriminate|].
  injection H as <- <-.
  exists w1, w2, w3, w4, w5, w6, w7, w8, w9,
    nodes0, nodes1, entities, relationships.
  repeat (split; [assumption|]).
  assert (E : forall l a, (l ++ [a] : list (call Nodes Entities Relationships))
                          = l ++ [a]) by reflexivity.
  split.
  - repeat rewrite <- app_assoc. reflexivity.
  - repeat rewrite <- app_assoc. unfold stages. rewrite filter_app.
    reflexivity.
Qed.

End PipelineFacts.

(** A build in which every component returns: nodes, entities and
    relationships are numbers, the state counts the calls. *)
Lemma run_stages_in_order_witness :
  let c := {| Pipeline.TextSplitter_init := fun w : nat => (inr tt, S w);
              Pipeline.GraphExtractor_init := fun w => (inr tt, S w);
              Pipeline.GraphResolver_init := fun w => (inr tt, S w);
              Pipeline.DataIndexer_init := fun w => (inr tt, S w);
              Pipeline.CommunitySummarizer_init := fun w => (inr tt, S w);
              Pipeline.load_data := fun w => (inr (10 + w), S w);
              Pipeline.extract := fun n w => (inr (2 * n), S w);
              Pipeline.resolve := fun n w => (inr (n + 1, n + 2), S w);
              Pipeline.summarizer_run := fun (_ _ : nat) w => (inr tt, S w);
              Pipeline.insert_data := fun (_ _ : nat) w => (inr tt, S w) |} in
  Pipeline.run c (0, []) = (inr tt, (10, snd (snd (Pipeline.run c (0, []))))) /\
  Pipeline.stages (snd (snd (Pipeline.run c (0, [])))) =
    [ Pipeline.CallLoadData _ _ _;
      Pipeline.CallExtract _ _ 15;
      Pipeline.CallResolve _ _ 30;
      Pipeline.CallSummarizerRun _ 31 32;
      Pipeline.CallInsertData _ 31 32 ].
Proof.
  intros c. split; [reflexivity|].
  destruct (@run_stages_in_order nat nat nat nat c 0 [] 10
              (snd (snd (Pipeline.run c (0, [])))) eq_refl)
    as (w1 & w2 & w3 & w4 & w5 & w6 & w7 & w8 & w9 & n0 & n1 & e & r &
        H1 & H2 & H3 & H4 & H5 & H6 & H7 & H8 & H9 & H10 & Hlog & Hst).
  cbn in H1. injection H1 as <-.
  cbn in H2. injection H2 as <-.
  cbn in H3. injection H3 as <-.
  cbn in H4. injection H4 as <-.
  cbn in H5. injection H5 as <-.
  cbn in H6. injection H6 as <- <-.
  cbn in H7. injection H7 as <- <-.
  cbn in H8. injection H8 as <- <- <-.
  exact Hst.
Defined.

(** ** The document loader *)

Section LoaderFacts.

Import Loader.

Lemma env_lookup_snoc key env kv :
  env_lookup key (env ++ [kv]) =
  match env_lookup key env with
  | Some v => Some v
  | None => if str_eqb (fst kv) key then Some (snd kv) else None
  end.
Proof.
  induction env as [|[k v] env IH]; simpl.
  - destruct kv. reflexivity.
  - destruct (str_eqb k key); [reflexivity|exact IH].
Qed.

(** After [load_dotenv] a variable has the value of the environment, or the
    value the file gives it when the environment has none. *)
Lemma load_dotenv_lookup key vars :
  forall env,
    env_lookup key (load_dotenv (Some vars) env) =
    match env_lookup key env with
    | Some v => Some v
    | None => env_lookup key vars
    end.
Proof.
  unfold load_dotenv.
  induction vars as [|[k v] vars IH]; intros env; simpl.
  - destruct (env_lookup key env); reflexivity.
  - rewrite IH. cbn [fst]. destruct (env_lookup k env) eqn:Ek.
    + destruct (env_lookup key env) eqn:E; [reflexivity|].
      destruct (str_eqb k key) eqn:Ekk; [|reflexivity].
      apply str_eqb_eq in Ekk. congruence.
    + rewrite env_lookup_snoc. cbn [fst snd].
      destruct (env_lookup key env); [reflexivity|].
      destruct (str_eqb k key); reflexivity.
Qed.

Variables Docs EmbedModel Nodes World : Type.
Variable read_directory : pystr -> World -> (exn + Docs) * World.
Variable OpenAIEmbedding : pystr -> World -> (exn + EmbedModel) * World.
Variable semantic_split :
  nat -> nat -> EmbedModel -> Docs -> World -> (exn + Nodes) * World.

(** C6: when [OPENAI_API_KEY] is not in the environment the module reads
    (after [load_dotenv]), importing the loader raises the [KeyError] of
    that key, the configuration error of the missing credential; this
    happens before any library call (no directory read, no embedding client,
    no split: the log and the library state are unchanged), so a client that
    imports the loader and calls [load_data] gets the exception and never a
    node sequence. *)
Theorem load_data_needs_api_key (s : state World) (directory : pystr) :
  env_lookup OPENAI_API_KEY (load_dotenv (dotenv_file s) (env s)) = None ->
  exists s',
    import_text_splitter s = (inl (KeyError OPENAI_API_KEY), s') /\
    import_and_load read_directory OpenAIEmbedding semantic_split directory s
    = (inl (KeyError OPENAI_API_KEY), s') /\
    log s' = log s /\ world s' = world s /\
    forall nodes s'',
      import_and_load read_directory OpenAIEmbedding semantic_split
                      directory s <> (inr nodes, s'').
Proof.
  intros H.
  exists {| env := load_dotenv (dotenv_file s) (env s);
            dotenv_file := dotenv_file s;
            world := world s; log := log s |}.
  assert (E : import_text_splitter s =
              (inl (KeyError OPENAI_API_KEY),
               {| env := load_dotenv (dotenv_file s) (env s);
                  dotenv_file := dotenv_file s;
                  world := world s; log := log s |})).
  { unfold import_text_splitter, bind, modify, get. cbn [env].
    rewrite H. reflexivity. }
  assert (E' : import_and_load read_directory OpenAIEmbedding semantic_split
                 directory s =
               (inl (KeyError OPENAI_API_KEY),
                {| env := load_dotenv (dotenv_file s) (env s);
                   dotenv_file := dotenv_file s;
                   world := world s; log := log s |})).
  { unfold import_and_load, bind at 1. rewrite E. reflexivity. }
  repeat split; try assumption.
  intros nodes s''. rewrite E'. discriminate.
Qed.

End LoaderFacts.

(** An environment without the key and no [.env] file. *)
Lemma load_data_needs_api_key_witness :
  let s := {| Loader.env := [(py "HOME", py "/root")];
              Loader.dotenv_file := None;
              Loader.world := tt; Loader.log := [] |} in
  Loader.env_lookup Loader.OPENAI_API_KEY
    (Loader.load_dotenv (Loader.dotenv_file s) (Loader.env s)) = None /\
  exists s',
    Loader.import_and_load
      (fun _ w => (inr tt, w)) (fun _ w => (inr tt, w))
      (fun _ _ _ _ w => (inr [py "node"], w))
      Loader.default_directory s
    = (inl (KeyError Loader.OPENAI_API_KEY), s') /\
    Loader.log s' = [].
Proof.
  intros s. split; [reflexivity|].
  destruct (@load_data_needs_api_key unit unit (list pystr) unit
              (fun _ w => (inr tt, w)) (fun _ w => (inr tt, w))
              (fun _ _ _ _ w => (inr [py "node"], w))
              s Loader.default_directory eq_refl)
    as (s' & _ & H & Hlog & _).
  exists s'. split; assumption.
Defined.

(** With the key in the environment, or in the [.env] file only, the import
    returns and [load_data] makes its three library calls in order. *)
Example load_data_with_api_key :
  let s := {| Loader.env := [];
              Loader.dotenv_file := Some [(Loader.OPENAI_API_KEY, py "sk")];
              Loader.world := tt; Loader.log := [] |} in
  let r := Loader.import_and_load
             (fun _ w => (inr tt, w)) (fun _ w => (inr tt, w))
             (fun _ _ _ _ w => (inr [py "node"], w))
             Loader.default_directory s in
  fst r = inr [py "node"] /\
  Loader.log (snd r) =
    [ Loader.ReadDirectory (py "./book");
      Loader.MakeEmbedding (py "sk");
      Loader.SemanticSplit 1 95 ].
Proof. split; reflexivity. Qed.

(** ** The dashboards: the edges of the network *)

Section PairFacts.

Import Dash.

Variable A : Type.

Lemma all_pairs_length (l : list A) :
  2 * List.length (all_pairs l) = List.length l * (List.length l - 1).
Proof.
  induction l as [|a l IH]; [reflexivity|].
  cbn [all_pairs List.length]. rewrite length_app, length_map.
  replace (S (List.length l) - 1) with (List.length l) by lia.
  destruct (List.length l) as [|n] eqn:E; [simpl in *; lia|].
  replace (S n - 1) with n in IH by lia. lia.
Qed.

Lemma all_pairs_count (l : list A) :
  List.length (all_pairs l) = List.length l * (List.length l - 1) / 2.
Proof.
  rewrite <- all_pairs_length, Nat.mul_comm. symmetry.
  apply Nat.div_mul. discriminate.
Qed.

Lemma all_pairs_In (l : list A) a b :
  In (a, b) (all_pairs l) -> In a l /\ In b l.
Proof.
  induction l as [|x l IH]; simpl; [tauto|].
  rewrite in_app_iff, in_map_iff. intros [(y & E & Hy)|H].
  - injection E as <- <-. tauto.
  - tauto.
Qed.

Lemma all_pairs_distinct_ends (l : list A) a b :
  NoDup l -> In (a, b) (all_pairs l) -> a <> b.
Proof.
  induction 1 as [|x l Hx Hnd IH]; simpl; [tauto|].
  rewrite in_app_iff, in_map_iff. intros [(y & E & Hy)|H].
  - injection E as <- <-. intros ->. contradiction.
  - now apply IH.
Qed.

Lemma undirected_distinct_app (l1 l2 : list (A * A)) :
  undirected_distinct l1 -> undirected_distinct l2 ->
  (forall p, In p l1 -> ~ In p l2 /\ ~ In (snd p, fst p) l2) ->
  undirected_distinct (l1 ++ l2).
Proof.
  induction l1 as [|p l1 IH]; intros H1 H2 Hx; [assumption|].
  destruct H1 as (Ha & Hb & H1). cbn [app undirected_distinct].
  destruct (Hx p (or_introl eq_refl)) as [Hc Hd].
  rewrite !in_app_iff. repeat split; try tauto.
  apply IH; try assumption. intros q Hq. apply Hx. now right.
Qed.

Lemma all_pairs_undirected_distinct (l : list A) :
  NoDup l -> undirected_distinct (all_pairs l).
Proof.
  induction 1 as [|x l Hx Hnd IH]; [exact I|].
  cbn [all_pairs]. apply undirected_distinct_app.
  - clear IH. induction Hnd as [|y l Hy Hnd IH']; [exact I|].
    cbn [map undirected_distinct fst snd]. rewrite !in_map_iff.
    repeat split.
    + intros (z & E & Hz). injection E as <-. contradiction.
    + intros (z & E & Hz). injection E as <- <-. apply Hx. now left.
    + apply IH'. intros F. apply Hx. now right.
  - assumption.
  - intros p Hp. apply in_map_iff in Hp as (y & <- & Hy). cbn [fst snd].
    split; intros F; apply all_pairs_In in F; tauto.
Qed.

Lemma all_pairs_cover (l : list A) a b :
  In a l -> In b l -> a <> b ->
  In (a, b) (all_pairs l) \/ In (b, a) (all_pairs l).
Proof.
  induction l as [|x l IH]; [intros []|].
  cbn [all_pairs]. rewrite !in_app_iff, !in_map_iff.
  intros [->|Ha] [->|Hb] Hab.
  - contradiction.
  - left. left. now exists b.
  - right. left. now exists a.
  - destruct (IH Ha Hb Hab); tauto.
Qed.

Lemma all_pairs_map {B : Type} (f : A -> B) (l : list A) :
  all_pairs (map f l) = map (fun p => (f (fst p), f (snd p))) (all_pairs l).
Proof.
  induction l as [|a l IH]; [reflexivity|].
  cbn [map all_pairs]. rewrite map_app, !map_map, IH. reflexivity.
Qed.

End PairFacts.

Section EdgeFacts.

Import Dash.

Lemma skipn_past {A : Type} (pre : list A) a suf :
  skipn (List.length pre + 1) (pre ++ a :: suf) = suf.
Proof.
  induction pre as [|x pre IH]; [reflexivity|exact IH].
Qed.

Lemma endpoints_edge_record e1 e2 w :
  endpoints (edge_record e1 e2 w) = name_pair (name e1, name e2).
Proof. reflexivity. Qed.

(** The nested loops of v1 visit every entity with each entity after it. *)
Lemma edge_records_v1_from (entities : list Entity) :
  forall suf pre acc,
    entities = pre ++ suf ->
    fold_left
      (fun edges ie1 =>
         fold_left
           (fun edges e2 => edges ++ [edge_record (snd ie1) e2 (VInt 1)])
           (skipn (fst ie1 + 1) entities) edges)
      (enumerate (List.length pre) suf) acc
    = acc ++ map (fun p => edge_record (fst p) (snd p) (VInt 1))
                 (all_pairs suf).
Proof.
  induction suf as [|a suf IH]; intros pre acc E.
  - simpl. now rewrite app_nil_r.
  - assert (Hs : skipn (List.length pre + 1) entities = suf)
      by (rewrite E; apply skipn_past).
    rewrite enumerate_cons. cbn [fold_left fst snd all_pairs].
    rewrite Hs.
    rewrite (fold_left_snoc (fun e2 => edge_record a e2 (VInt 1))).
    replace (S (List.length pre)) with (List.length (pre ++ [a]))
      by (rewrite length_app; simpl; lia).
    rewrite IH by (rewrite <- app_assoc; exact E).
    rewrite map_app, map_map, <- app_assoc. reflexivity.
Qed.

Lemma edge_records_v1 (entities : list Entity) :
  DashboardV1.edge_records entities
  = map (fun p => edge_record (fst p) (snd p) (VInt 1)) (all_pairs entities).
Proof.
  unfold DashboardV1.edge_records.
  exact (edge_records_v1_from entities [] [] eq_refl).
Qed.

Lemma endpoints_v1 (entities : list Entity) :
  map endpoints (DashboardV1.edge_records entities)
  = map name_pair (all_pairs (map name entities)).
Proof.
  rewrite edge_records_v1, all_pairs_map, !map_map. reflexivity.
Qed.

Variables World Rng : Type.
Variable random_uniform : Z -> Z -> Rng -> float * Rng.

Lemma weighted_app r1 p1 r2 p2 :
  weighted r1 p1 -> weighted r2 p2 -> weighted (r1 ++ r2) (p1 ++ p2).
Proof. apply Forall2_app. Qed.

Lemma edge_records_v2_inner (e1 : Entity) (l : list Entity) :
  forall acc (s : state World Rng),
  exists rows s',
    fold_m (fun edges e2 =>
              weight <- draw (random_uniform 1 3) ;;
              ret (edges ++ [edge_record e1 e2 (VFloat weight)]))
           l acc s
    = (inr (acc ++ rows), s') /\
    weighted rows (map (pair e1) l) /\
    backend s' = backend s /\ page s' = page s.
Proof.
  induction l as [|e2 l IH]; intros acc s.
  - exists [], s. rewrite app_nil_r. repeat split. constructor.
  - cbn [fold_m]. unfold bind at 1 2, draw at 1, ret at 1.
    destruct (random_uniform 1 3 (rng s)) as [w r'] eqn:Ew. cbn [fst snd].
    destruct (IH (acc ++ [edge_record e1 e2 (VFloat w)])
                 {| backend := backend s; rng := r'; page := page s |})
      as (rows & s' & Hrun & Hw & Hb & Hp).
    exists (edge_record e1 e2 (VFloat w) :: rows), s'.
    rewrite Hrun, <- app_assoc. repeat split; try assumption.
    constructor; [now exists w|assumption].
Qed.

Lemma edge_records_v2_from (entities : list Entity) :
  forall suf pre acc (s : state World Rng),
    entities = pre ++ suf ->
    exists rows s',
      fold_m
        (fun edges ie1 =>
           fold_m (fun edges e2 =>
                     weight <- draw (random_uniform 1 3) ;;
                     ret (edges ++
                          [edge_record (snd ie1) e2 (VFloat weight)]))
                  (skipn (fst ie1 + 1) entities) edges)
        (enumerate (List.length pre) suf) acc s
      = (inr (acc ++ rows), s') /\
      weighted rows (all_pairs suf) /\
      backend s' = backend s /\ page s' = page s.
Proof.
  induction suf as [|a suf IH]; intros pre acc s E.
  - exists [], s. rewrite app_nil_r. repeat split. constructor.
  - assert (Hs : skipn (List.length pre + 1) entities = suf)
      by (rewrite E; apply skipn_past).
    rewrite enumerate_cons. cbn [fold_m fst snd all_pairs].
    rewrite Hs. unfold bind at 1.
    destruct (edge_records_v2_inner a suf acc s)
      as (rows1 & s1 & Hrun1 & Hw1 & Hb1 & Hp1).
    rewrite Hrun1.
    replace (S (List.length pre)) with (List.length (pre ++ [a]))
      by (rewrite length_app; simpl; lia).
    destruct (IH (pre ++ [a]) (acc ++ rows1) s1)
      as (rows2 & s2 & Hrun2 & Hw2 & Hb2 & Hp2);
      [rewrite <- app_assoc; exact E|].
    exists (rows1 ++ rows2), s2. rewrite Hrun2, <- app_assoc.
    repeat split; try congruence.
    now apply weighted_app.
Qed.

Lemma edge_records_v2 (entities : list Entity) (s : state World Rng) :
  exists rows s',
    DashboardV2.edge_records random_uniform entities s = (inr rows, s') /\
    weighted rows (all_pairs entities) /\
    backend s' = backend s /\ page s' = page s.
Proof.
  unfold DashboardV2.edge_records.
  exact (edge_records_v2_from entities [] [] s eq_refl).
Qed.

Lemma weighted_length rows pairs :
  weighted rows pairs -> List.length rows = List.length pairs.
Proof. apply Forall2_length. Qed.

Lemma weighted_endpoints rows pairs :
  weighted rows pairs ->
  map endpoints rows =
  map (fun p => name_pair (name (fst p), name (snd p))) pairs.
Proof.
  induction 1 as [|r p rows pairs (w & ->) _ IH]; [reflexivity|].
  cbn [map]. now rewrite IH, endpoints_edge_record.
Qed.

Lemma weighted_columns rows pairs col :
  weighted rows pairs -> rows <> [] ->
  In col [py "source"; py "target"] ->
  column (DataFrame_of rows) col = inr (map (cell col) rows).
Proof.
  intros Hw Hne Hcol. unfold column.
  assert (E : mem col (columns (DataFrame_of rows)) = true).
  { apply mem_In. cbn [columns DataFrame_of]. apply first_seen_In.
    split; [|intros []].
    destruct Hw as [|r p rows pairs (w & ->) _]; [contradiction|].
    cbn [map List.concat]. apply in_or_app. left.
    cbn [edge_record map fst]. simpl in Hcol. simpl. tauto. }
  now rewrite E.
Qed.

End EdgeFacts.

Section GraphFacts.

Import Dash.

Lemma has_edge_add_node u v n g :
  has_edge u v (add_node n g) = has_edge u v g.
Proof. unfold add_node. destruct (has_node n g); reflexivity. Qed.

Lemma g_edges_add_node n g : g_edges (add_node n g) = g_edges g.
Proof. unfold add_node. destruct (has_node n g); reflexivity. Qed.

Lemma g_edges_add_edge g e :
  g_edges (add_edge g e) =
  if has_edge (fst e) (snd e) g then g_edges g else g_edges g ++ [e].
Proof.
  unfold add_edge. rewrite !has_edge_add_node.
  destruct (has_edge (fst e) (snd e) g); cbn [g_edges];
    now rewrite !g_edges_add_node.
Qed.

Lemma has_edge_add_edge u v g e :
  has_edge (fst e) (snd e) g = false ->
  has_edge u v (add_edge g e) =
  has_edge u v g
  || (value_eqb (fst e) u && value_eqb (snd e) v
      || value_eqb (fst e) v && value_eqb (snd e) u).
Proof.
  intros H. unfold has_edge at 1. rewrite g_edges_add_edge, H.
  rewrite existsb_app. cbn [existsb]. now rewrite orb_false_r.
Qed.

(** Adding the edges of a list without repeated pairs adds every one. *)
Lemma fold_add_edge_names (pairs : list (pystr * pystr)) :
  forall g,
    (forall p, In p pairs ->
               has_edge (VStr (fst p)) (VStr (snd p)) g = false) ->
    undirected_distinct pairs ->
    g_edges (fold_left add_edge (map name_pair pairs) g)
    = g_edges g ++ map name_pair pairs.
Proof.
  induction pairs as [|p pairs IH]; intros g Hg Hd.
  - simpl. now rewrite app_nil_r.
  - destruct Hd as (H1 & H2 & Hd). cbn [map fold_left].
    assert (Hp : has_edge (fst (name_pair p)) (snd (name_pair p)) g = false)
      by (apply Hg; now left).
    rewrite IH; [|intros q Hq|assumption].
    + rewrite g_edges_add_edge, Hp, <- app_assoc. reflexivity.
    + rewrite has_edge_add_edge by assumption.
      rewrite (Hg q (or_intror Hq)). cbn [orb name_pair fst snd value_eqb].
      destruct q as [a b], p as [u v]. cbn [fst snd] in *.
      destruct (str_eqb u a) eqn:E1, (str_eqb v b) eqn:E2; cbn [andb orb].
      * apply str_eqb_eq in E1, E2. subst. contradiction.
      * destruct (str_eqb u b) eqn:E3, (str_eqb v a) eqn:E4;
          cbn [andb]; try reflexivity.
        apply str_eqb_eq in E3, E4. subst. contradiction.
      * destruct (str_eqb u b) eqn:E3, (str_eqb v a) eqn:E4;
          cbn [andb]; try reflexivity.
        apply str_eqb_eq in E3, E4. subst. contradiction.
      * destruct (str_eqb u b) eqn:E3, (str_eqb v a) eqn:E4;
          cbn [andb]; try reflexivity.
        apply str_eqb_eq in E3, E4. subst. contradiction.
Qed.

Lemma combine_map {A B C : Type} (f : A -> B) (g : A -> C) (l : list A) :
  combine (map f l) (map g l) = map (fun a => (f a, g a)) l.
Proof. induction l as [|a l IH]; simpl; [reflexivity|now rewrite IH]. Qed.

(** The graph built from the edge rows of entities with distinct names has
    one edge per row. *)
Lemma graph_of_weighted_rows rows (entities : list Entity) :
  weighted rows (all_pairs entities) -> rows <> [] ->
  NoDup (map name entities) ->
  exists G,
    from_pandas_edgelist (DataFrame_of rows) (py "source") (py "target")
    = inr G /\
    g_edges G = map name_pair (all_pairs (map name entities)).
Proof.
  intros Hw Hne Hnd. unfold from_pandas_edgelist.
  rewrite (@weighted_columns rows _ (py "source") Hw Hne)
    by (simpl; tauto).
  rewrite (@weighted_columns rows _ (py "target") Hw Hne)
    by (simpl; tauto).
  eexists. split; [reflexivity|].
  rewrite combine_map.
  change (fun a => (cell (py "source") a, cell (py "target") a))
    with endpoints.
  rewrite (weighted_endpoints Hw).
  rewrite <- (map_map (fun p => (name (fst p), name (snd p))) name_pair).
  rewrite <- all_pairs_map.
  rewrite fold_add_edge_names; [reflexivity|intros p _; reflexivity|].
  now apply all_pairs_undirected_distinct.
Qed.

End GraphFacts.

(** C2: for entities with pairwise distinct names, at least two of them,
    both dashboards build one edge row per pair of an entity and an entity
    after it in the list: [N * (N - 1) / 2] rows, whose end points are the
    pairs of names.  These pairs hold every two distinct names once, in one
    orientation only, so the graph v2 builds from its rows has that many
    edges as well.  The rows are built from the entity list alone: the
    state of the backend, with the stored relationships, plays no part. *)
Theorem network_edges_complete
  (World Rng : Type) (random_uniform : Z -> Z -> Rng -> float * Rng)
  (entities : list Dash.Entity) (s : Dash.state World Rng) :
  2 <= List.length entities ->
  NoDup (map Dash.name entities) ->
  List.length (DashboardV1.edge_records entities)
  = List.length entities * (List.length entities - 1) / 2 /\
  map Dash.endpoints (DashboardV1.edge_records entities)
  = map Dash.name_pair (Dash.all_pairs (map Dash.name entities)) /\
  (exists rows s' G,
     DashboardV2.edge_records random_uniform entities s = (inr rows, s') /\
     List.length rows
     = List.length entities * (List.length entities - 1) / 2 /\
     map Dash.endpoints rows
     = map Dash.name_pair (Dash.all_pairs (map Dash.name entities)) /\
     Dash.from_pandas_edgelist (Dash.DataFrame_of rows)
       (py "source") (py "target") = inr G /\
     Dash.g_edges G = map Dash.endpoints rows /\
     List.length (Dash.g_edges G)
     = List.length entities * (List.length entities - 1) / 2) /\
  Dash.undirected_distinct (Dash.all_pairs (map Dash.name entities)) /\
  (forall a b,
     In a (map Dash.name entities) -> In b (map Dash.name entities) ->
     a <> b ->
     In (a, b) (Dash.all_pairs (map Dash.name entities)) \/
     In (b, a) (Dash.all_pairs (map Dash.name entities))) /\
  (forall a b,
     In (a, b) (Dash.all_pairs (map Dash.name entities)) ->
     In a (map Dash.name entities) /\ In b (map Dash.name entities) /\
     a <> b).
Proof.
  intros HN Hnd.
  split; [|split; [|split; [|split; [|split]]]].
  - now rewrite edge_records_v1, length_map, all_pairs_count.
  - apply endpoints_v1.
  - destruct (edge_records_v2 random_uniform entities s)
      as (rows & s' & Hrun & Hw & _ & _).
    assert (Hlen : List.length rows
                   = List.length entities * (List.length entities - 1) / 2)
      by now rewrite (weighted_length Hw), all_pairs_count.
    assert (Hne : rows <> []).
    { intros ->. simpl in Hlen. symmetry in Hlen.
      pose proof (all_pairs_length entities) as Hp.
      rewrite <- (weighted_length Hw) in Hp. simpl in Hp. nia. }
    assert (Hend : map Dash.endpoints rows
                   = map Dash.name_pair
                       (Dash.all_pairs (map Dash.name entities))).
    { rewrite (weighted_endpoints Hw), all_pairs_map, map_map.
      reflexivity. }
    destruct (@graph_of_weighted_rows rows entities Hw Hne Hnd)
      as (G & HG & HE).
    exists rows, s', G. repeat (split; [assumption|]).
    split; [congruence|].
    rewrite HE, <- Hend, length_map. exact Hlen.
  - now apply all_pairs_undirected_distinct.
  - intros a b. apply all_pairs_cover.
  - intros a b H. pose proof (all_pairs_In _ _ _ H) as [Ha Hb].
    repeat split; try assumption.
    now apply (all_pairs_distinct_ends Hnd H).
Qed.

(** Three entities with distinct names, the weights all drawn as one. *)
Lemma network_edges_complete_witness :
  let entities :=
    [ {| Dash.name := py "Term Life"; Dash.type := py "policy";
         Dash.metadata := None |};
      {| Dash.name := py "Whole Life"; Dash.type := py "policy";
         Dash.metadata := None |};
      {| Dash.name := py "Premium"; Dash.type := py "term";
         Dash.metadata := None |} ] in
  2 <= List.length entities /\
  NoDup (map Dash.name entities) /\
  List.length (DashboardV1.edge_records entities) = 3 /\
  exists rows s',
    DashboardV2.edge_records (fun _ _ (r : nat) => (1%float, S r)) entities
      {| Dash.backend := tt; Dash.rng := 0; Dash.page := [] |}
    = (inr rows, s') /\
    List.length rows = 3.
Proof.
  intros entities.
  assert (H2 : 2 <= List.length entities) by (simpl; lia).
  assert (Hnd : NoDup (map Dash.name entities)).
  { repeat constructor; simpl; intros H;
      repeat (destruct H as [H|H]; [discriminate H|]); exact H. }
  destruct (@network_edges_complete unit nat
              (fun _ _ (r : nat) => (1%float, S r)) entities
              {| Dash.backend := tt; Dash.rng := 0; Dash.page := [] |}
              H2 Hnd)
    as (H1 & _ & (rows & s' & G & Hrun & Hlen & _) & _).
  repeat split; try assumption.
  exists rows, s'. split; assumption.
Defined.

(** ** The dashboards: rendering *)

Section RenderFacts.

Import Dash.

Variables World Rng : Type.

Lemma drawn_nil (s : state World Rng) : drawn s [] = s.
Proof. destruct s. unfold drawn. cbn. now rewrite app_nil_r. Qed.

Lemma drawn_drawn (s : state World Rng) l1 l2 :
  drawn (drawn s l1) l2 = drawn s (l1 ++ l2).
Proof. unfold drawn. cbn. now rewrite app_assoc. Qed.

Lemma moved_drawn (s : state World Rng) l w :
  moved (drawn s l) w = drawn (moved s w) l.
Proof. reflexivity. Qed.

Lemma bind_st {B : Type} (w : widget) (k : unit -> M (state World Rng) B) s :
  bind (st w) k s = k tt (drawn s [w]).
Proof. reflexivity. Qed.

Lemma st_run (w : widget) (s : state World Rng) :
  st w s = (inr tt, drawn s [w]).
Proof. reflexivity. Qed.

Lemma bind_on_backend {A B : Type}
  (f : World -> (exn + A) * World) (k : A -> M (state World Rng) B) s a w :
  f (backend s) = (inr a, w) ->
  bind (on_backend f) k s = k a (moved s w).
Proof. intros H. unfold bind, on_backend. rewrite H. reflexivity. Qed.

Lemma bind_ret {A B : Type} (a : A) (k : A -> M (state World Rng) B) s :
  bind (ret a) k s = k a s.
Proof. reflexivity. Qed.

Lemma bind_returns {A B : Type} (m : M (state World Rng) A)
  (k : A -> M (state World Rng) B) s a s' :
  m s = (inr a, s') -> bind m k s = k a s'.
Proof. intros H. unfold bind. now rewrite H. Qed.

Lemma bind_raises {A B : Type} (m : M (state World Rng) A)
  (k : A -> M (state World Rng) B) s e s' :
  m s = (inl e, s') -> bind m k s = (inl e, s').
Proof. intros H. unfold bind. now rewrite H. Qed.

(** A loop whose body draws two widgets per element. *)
Lemma for_each_two {X : Type} (f g : X -> widget) (l : list X) :
  forall s : state World Rng,
    for_each l (fun x => st (f x) ;; st (g x)) s
    = (inr tt, drawn s (flat_map (fun x => [f x; g x]) l)).
Proof.
  induction l as [|x l IH]; intros s.
  - simpl. now rewrite drawn_nil.
  - cbn [for_each flat_map]. unfold bind at 1.
    rewrite bind_st, st_run, IH, !drawn_drawn. reflexivity.
Qed.

Lemma for_each_one {X : Type} (f : X -> widget) (l : list X) :
  forall s : state World Rng,
    for_each l (fun x => st (f x)) s = (inr tt, drawn s (map f l)).
Proof.
  induction l as [|x l IH]; intros s.
  - simpl. now rewrite drawn_nil.
  - cbn [for_each map]. unfold bind. rewrite st_run, IH, drawn_drawn.
    reflexivity.
Qed.

Lemma no_chart_flat_map {X : Type} (f : X -> list widget) (l : list X) :
  (forall x, filter is_chart (f x) = []) ->
  filter is_chart (flat_map f l) = [].
Proof.
  intros H. induction l as [|x l IH]; [reflexivity|].
  cbn [flat_map]. now rewrite filter_app, H, IH.
Qed.

(** The columns of the node table of v1. *)
Lemma node_columns_v1 (e : Entity) (entities : list Entity) :
  column (DataFrame_of (map DashboardV1.node_record (e :: entities)))
         (py "id")
  = inr (map (fun e => VStr (name e)) (e :: entities)) /\
  column (DataFrame_of (map DashboardV1.node_record (e :: entities)))
         (py "type")
  = inr (map (fun e => VStr (type e)) (e :: entities)).
Proof.
  unfold column.
  assert (E : forall col, In col [py "id"; py "type"] ->
                mem col (columns (DataFrame_of
                  (map DashboardV1.node_record (e :: entities)))) = true).
  { intros col Hcol. apply mem_In. cbn [columns DataFrame_of].
    apply first_seen_In. split; [|intros []].
    cbn [map List.concat]. apply in_or_app. left. exact Hcol. }
  rewrite !E by (simpl; tauto).
  cbn [rows DataFrame_of]. rewrite !map_map. split; reflexivity.
Qed.

Lemma edges_empty_v1 (entities : list Entity) :
  df_empty (DataFrame_of (DashboardV1.edge_records entities))
  = negb (2 <=? List.length entities).
Proof.
  rewrite edge_records_v1.
  destruct entities as [|e1 [|e2 rest]]; try reflexivity.
Qed.

(** The chart v1 draws for a list of entities. *)
Lemma plot_entity_network_v1 (entities : list Entity)
  (s : state World Rng) :
  DashboardV1.plot_entity_network entities s =
  (inr tt,
   drawn s
     (if 2 <=? List.length entities
      then [ st_plotly_chart
               (Fig3d {| x := repeat 0%Z (List.length entities);
                         y := repeat 0%Z (List.length entities);
                         z := repeat 0%Z (List.length entities);
                         text := map (fun e => VStr (name e)) entities;
                         color := map (fun e => VStr (type e)) entities;
                         title := py "Related Concepts Network" |})
               false ]
      else [])).
Proof.
  unfold DashboardV1.plot_entity_network. rewrite edges_empty_v1, negb_involutive.
  destruct (2 <=? List.length entities) eqn:E.
  - destruct entities as [|e entities]; [discriminate|].
    unfold scatter_3d.
    destruct (node_columns_v1 e entities) as [-> ->].
    unfold df_len. cbn [rows DataFrame_of].
    rewrite !repeat_length, !length_map, Nat.eqb_refl. cbn [andb].
    unfold bind, lift_result. rewrite st_run. reflexivity.
  - unfold ret. now rewrite drawn_nil.
Qed.

End RenderFacts.

(** C8: whatever chart v1's [plot_entity_network] draws for a list of
    entities is the 3-D scatter with one point per entity, every point at
    [x = y = z = 0], the text of the point the entity's name and its colour
    key the entity's type; nothing else is drawn, and the chart is drawn
    exactly when there are two entities or more. *)
Theorem v1_network_at_origin
  (World Rng : Type) (entities : list Dash.Entity)
  (s : Dash.state World Rng) :
  exists new,
    DashboardV1.plot_entity_network entities s = (inr tt, Dash.drawn s new) /\
    (new <> [] <-> 2 <= List.length entities) /\
    forall w, In w new ->
      exists fig,
        w = Dash.st_plotly_chart (Dash.Fig3d fig) false /\
        Dash.x fig = repeat 0%Z (List.length entities) /\
        Dash.y fig = repeat 0%Z (List.length entities) /\
        Dash.z fig = repeat 0%Z (List.length entities) /\
        Dash.text fig = map (fun e => Dash.VStr (Dash.name e)) entities /\
        Dash.color fig = map (fun e => Dash.VStr (Dash.type e)) entities.
Proof.
  eexists. split; [apply plot_entity_network_v1|].
  destruct (2 <=? List.length entities) eqn:E.
  - apply Nat.leb_le in E. split.
    + split; [intros _; exact E|intros _; discriminate].
    + intros w [<-|[]]. eexists. repeat split.
  - apply Nat.leb_gt in E. split.
    + split; [intros H; now contradiction H|lia].
    + intros w [].
Qed.

(** The formatted blocks of v2 hold the text they are built around. *)
Lemma answer_html_contains (response : pystr) :
  contains response (DashboardV2.answer_html response) = true.
Proof.
  unfold DashboardV2.answer_html. do 7 apply contains_app_r.
  apply contains_here, startswith_app.
Qed.

Lemma badge_html_contains (name : pystr) :
  contains name (DashboardV2.badge_html name) = true.
Proof.
  unfold DashboardV2.badge_html. do 19 apply contains_app_r.
  apply contains_here, startswith_app.
Qed.

Lemma source_html_contains (summary : pystr) :
  contains summary (DashboardV2.source_html summary) = true.
Proof.
  unfold DashboardV2.source_html. do 16 apply contains_app_r.
  apply contains_here, startswith_app.
Qed.

Section QueryFacts.

Import Dash.

Variables World Rng : Type.
Variable generator : Generator World.
Variable random_randint : Z -> Z -> Rng -> Z * Rng.
Variable random_uniform : Z -> Z -> Rng -> float * Rng.
Variable spring_layout : Graph -> Rng -> (value -> float * float) * Rng.

(** An empty query draws the title and the input box and calls nothing. *)
Lemma render_main_empty_query (s : state World Rng) :
  DashboardV1.render_main generator [] s
  = (inr tt,
     drawn s
       [ st_title (py "Insurance Knowledge Assistant");
         st_text_input (py "Ask a question about insurance:") (py "query")
           (py "e.g., What are the different types of auto insurance coverage?")
           None ]) /\
  backend
    (snd (DashboardV2.render_main generator random_randint random_uniform
            spring_layout [] s)) = backend s.
Proof.
  split; [|reflexivity].
  unfold DashboardV1.render_main. rewrite !bind_st. unfold ret.
  now rewrite drawn_drawn.
Qed.

(** The page of v1 for a query without retrieved entities. *)
Lemma render_main_v1_no_entities query response summaries
  (s : state World Rng) w1 w2 w3 :
  query <> [] ->
  generate generator query (backend s) = (inr response, w1) ->
  get_entities generator query w1 = (inr [], w2) ->
  get_community_summaries generator query w2 = (inr summaries, w3) ->
  DashboardV1.render_main generator query s
  = (inr tt,
     drawn (moved s w3)
       ([ st_title (py "Insurance Knowledge Assistant");
          st_text_input (py "Ask a question about insurance:") (py "query")
            (py "e.g., What are the different types of auto insurance coverage?")
            None;
          st_spinner (py "Generating response...");
          st_columns [2; 1];
          st_markdown (py "### Answer") false;
          st_write response;
          st_markdown (py "### Related Concepts") false;
          st_markdown (py "### Knowledge Sources") false ]
        ++ flat_map
             (fun isum =>
                [ st_expander (py "Source " ++ str_of_nat (fst isum));
                  st_write (snd isum) ])
             (enumerate 1 summaries))).
Proof.
  intros Hq Hgen Hent Hsum. unfold DashboardV1.render_main.
  destruct query as [|ch query]; [contradiction|].
  rewrite !bind_st.
  erewrite bind_on_backend by exact Hgen.
  erewrite bind_on_backend by exact Hent.
  erewrite bind_on_backend by exact Hsum.
  rewrite !bind_st, bind_ret, bind_st.
  rewrite for_each_two. f_equal.
  unfold drawn, moved. cbn [backend rng page]. f_equal.
  repeat rewrite <- app_assoc. reflexivity.
Qed.

(** The page of v2 for a query without retrieved entities. *)
Lemma render_main_v2_no_entities query response summaries
  (s : state World Rng) w1 w2 w3 :
  query <> [] ->
  generate generator query (backend s) = (inr response, w1) ->
  get_entities generator query w1 = (inr [], w2) ->
  get_community_summaries generator query w2 = (inr summaries, w3) ->
  DashboardV2.render_main generator random_randint random_uniform
    spring_layout query s
  = (inr tt,
     drawn (moved s w3)
       ([ st_title (py "Insurance Knowledge Assistant " ++
                    DashboardV2.hospital);
          st_text_input (py "Ask your insurance question:") (py "query")
            (py "e.g., What are the different types of auto insurance coverage?")
            (Some (py "Type your question here and press Enter"));
          st_spinner (DashboardV2.thinking ++ py " Thinking...");
          st_tabs [ DashboardV2.bulb ++ py " Answer";
                    DashboardV2.link ++ py " Related Concepts";
                    DashboardV2.books ++ py " Sources" ];
          st_markdown (DashboardV2.answer_html response) true ]
        ++ flat_map
             (fun isum =>
                [ st_expander (DashboardV2.sheet ++ py " Source " ++
                               str_of_nat (fst isum));
                  st_markdown (DashboardV2.source_html (snd isum)) true ])
             (enumerate 1 summaries))).
Proof.
  intros Hq Hgen Hent Hsum. unfold DashboardV2.render_main.
  destruct query as [|ch query]; [contradiction|].
  rewrite !bind_st.
  erewrite bind_on_backend by exact Hgen.
  erewrite bind_on_backend by exact Hent.
  erewrite bind_on_backend by exact Hsum.
  rewrite !bind_st, bind_ret.
  rewrite for_each_two. f_equal.
  unfold drawn, moved. cbn [backend rng page]. f_equal.
  repeat rewrite <- app_assoc. reflexivity.
Qed.

(** v2's [plot_entity_network] on a single entity: the node row draws its
    size, no edge row is built, the edge table has no columns and reading
    its [source] column raises. *)
Lemma plot_entity_network_v2_single (e : Entity) (s : state World Rng) :
  DashboardV2.plot_entity_network random_randint random_uniform
    spring_layout [e] s
  = (inl (KeyError (py "source")),
     {| backend := backend s;
        rng := snd (random_randint 20 40 (rng s));
        page := page s |}).
Proof. reflexivity. Qed.

End QueryFacts.

(** C7: for a submitted query for which the generator returns an answer, no
    entity and some summaries, both dashboards return without an exception;
    what they draw holds the answer and no chart.  v1 writes the answer as
    it is; v2 draws one formatted block, which is the answer between the
    opening and the closing of its frame, so the answer is a part of the
    text drawn. *)
Theorem no_entities_no_network
  (World Rng : Type) (generator : Dash.Generator World)
  (random_randint : Z -> Z -> Rng -> Z * Rng)
  (random_uniform : Z -> Z -> Rng -> float * Rng)
  (spring_layout :
     Dash.Graph -> Rng -> (Dash.value -> float * float) * Rng)
  (query response : pystr) (summaries : list pystr)
  (s : Dash.state World Rng) (w1 w2 w3 : World) :
  query <> [] ->
  Dash.generate generator query (Dash.backend s) = (inr response, w1) ->
  Dash.get_entities generator query w1 = (inr [], w2) ->
  Dash.get_community_summaries generator query w2 = (inr summaries, w3) ->
  (exists new,
     DashboardV1.render_main generator query s
     = (inr tt, Dash.drawn (Dash.moved s w3) new) /\
     filter Dash.is_chart new = [] /\
     In (Dash.st_write response) new) /\
  (exists new,
     DashboardV2.render_main generator random_randint random_uniform
       spring_layout query s
     = (inr tt, Dash.drawn (Dash.moved s w3) new) /\
     filter Dash.is_chart new = [] /\
     In (Dash.st_markdown (DashboardV2.answer_html response) true) new /\
     DashboardV2.answer_html response
     = Dash.nl ++ Dash.spaces 24 ++
       py "<div style='background-color: white; padding: 20px; border-radius: 10px; border-left: 5px solid #1f77b4;'>"
       ++ Dash.nl ++ Dash.spaces 24 ++ response
       ++ Dash.nl ++ Dash.spaces 24 ++ py "</div>"
       ++ Dash.nl ++ Dash.spaces 24 /\
     contains response (DashboardV2.answer_html response) = true).
Proof.
  intros Hq Hgen Hent Hsum. split.
  - eexists. split;
      [exact (render_main_v1_no_entities generator s Hq Hgen Hent Hsum)|].
    split.
    + rewrite filter_app, no_chart_flat_map by reflexivity. reflexivity.
    + apply in_or_app. left. simpl. tauto.
  - eexists. split;
      [exact (render_main_v2_no_entities generator random_randint
                random_uniform spring_layout s Hq Hgen Hent Hsum)|].
    split; [|split; [|split]].
    + rewrite filter_app, no_chart_flat_map by reflexivity. reflexivity.
    + apply in_or_app. left. simpl. tauto.
    + reflexivity.
    + apply answer_html_contains.
Qed.

(** C9: in v2, for a submitted query for which the generator returns
    exactly one entity, [render_main] calls [plot_entity_network] and the
    call raises [KeyError] for the [source] column of the edge table, which
    has no rows and no columns; the exception leaves [render_main], after
    the answer was drawn and before any chart, badge or source is. *)
Theorem single_entity_graph_error
  (World Rng : Type) (generator : Dash.Generator World)
  (random_randint : Z -> Z -> Rng -> Z * Rng)
  (random_uniform : Z -> Z -> Rng -> float * Rng)
  (spring_layout :
     Dash.Graph -> Rng -> (Dash.value -> float * float) * Rng)
  (query response : pystr) (e : Dash.Entity) (summaries : list pystr)
  (s : Dash.state World Rng) (w1 w2 w3 : World) :
  query <> [] ->
  Dash.generate generator query (Dash.backend s) = (inr response, w1) ->
  Dash.get_entities generator query w1 = (inr [e], w2) ->
  Dash.get_community_summaries generator query w2 = (inr summaries, w3) ->
  (forall s0 : Dash.state World Rng,
     fst (DashboardV2.plot_entity_network random_randint random_uniform
            spring_layout [e] s0) = inl (KeyError (py "source")) /\
     Dash.page
       (snd (DashboardV2.plot_entity_network random_randint random_uniform
               spring_layout [e] s0)) = Dash.page s0) /\
  exists s',
    DashboardV2.render_main generator random_randint random_uniform
      spring_layout query s
    = (inl (KeyError (py "source")), s') /\
    Dash.page s' =
      Dash.page s ++
      [ Dash.st_title (py "Insurance Knowledge Assistant " ++
                       DashboardV2.hospital);
        Dash.st_text_input (py "Ask your insurance question:") (py "query")
          (py "e.g., What are the different types of auto insurance coverage?")
          (Some (py "Type your question here and press Enter"));
        Dash.st_spinner (DashboardV2.thinking ++ py " Thinking...");
        Dash.st_tabs [ DashboardV2.bulb ++ py " Answer";
                       DashboardV2.link ++ py " Related Concepts";
                       DashboardV2.books ++ py " Sources" ];
        Dash.st_markdown (DashboardV2.answer_html response) true ] /\
    filter Dash.is_chart (Dash.page s') = filter Dash.is_chart (Dash.page s).
Proof.
  intros Hq Hgen Hent Hsum. split.
  - intros s0. rewrite plot_entity_network_v2_single. split; reflexivity.
  - unfold DashboardV2.render_main.
    destruct query as [|ch query]; [contradiction|].
    rewrite !bind_st.
    erewrite bind_on_backend by exact Hgen.
    erewrite bind_on_backend by exact Hent.
    erewrite bind_on_backend by exact Hsum.
    rewrite !bind_st.
    erewrite bind_raises;
      [|erewrite bind_raises;
          [reflexivity|apply plot_entity_network_v2_single]].
    eexists. split; [reflexivity|].
    cbn [Dash.page Dash.drawn Dash.moved Dash.backend Dash.rng]. split.
    + repeat rewrite <- app_assoc. reflexivity.
    + rewrite !filter_app. cbn [filter Dash.is_chart].
      now rewrite !app_nil_r.
Qed.

(** A generator that answers, finds no entity and returns two summaries. *)
Lemma no_entities_no_network_witness :
  let g := {| Dash.generate := fun _ (w : unit) => (inr (py "It depends."), w);
              Dash.get_entities := fun _ w => (inr [], w);
              Dash.get_community_summaries :=
                fun _ w => (inr [py "Auto"; py "Life"], w) |} in
  let s := {| Dash.backend := tt; Dash.rng := 0; Dash.page := [] |} in
  py "What is a premium?" <> [] /\
  Dash.generate g (py "What is a premium?") (Dash.backend s)
  = (inr (py "It depends."), tt) /\
  Dash.get_entities g (py "What is a premium?") tt = (inr [], tt) /\
  Dash.get_community_summaries g (py "What is a premium?") tt
  = (inr [py "Auto"; py "Life"], tt) /\
  (exists new,
     DashboardV1.render_main g (py "What is a premium?") s
     = (inr tt, Dash.drawn (Dash.moved s tt) new) /\
     filter Dash.is_chart new = [] /\
     In (Dash.st_write (py "It depends.")) new) /\
  (exists new,
     DashboardV2.render_main g
       (fun _ _ r => (20%Z, S r)) (fun _ _ r => (1%float, S r))
       (fun _ r => (fun _ => (0%float, 0%float), S r))
       (py "What is a premium?") s
     = (inr tt, Dash.drawn (Dash.moved s tt) new) /\
     filter Dash.is_chart new = [] /\
     In (Dash.st_markdown (DashboardV2.answer_html (py "It depends.")) true)
        new /\
     contains (py "It depends.")
       (DashboardV2.answer_html (py "It depends.")) = true).
Proof.
  intros g s.
  assert (Hq : py "What is a premium?" <> []) by discriminate.
  repeat (split; [first [exact Hq | reflexivity]|]).
  destruct (@no_entities_no_network unit nat g
              (fun _ _ r => (20%Z, S r)) (fun _ _ r => (1%float, S r))
              (fun _ r => (fun _ => (0%float, 0%float), S r))
              (py "What is a premium?") (py "It depends.")
              [py "Auto"; py "Life"] s tt tt tt
              Hq eq_refl eq_refl eq_refl)
    as (H1 & new & Hrun & Hc & Hin & _ & Hcont).
  split; [exact H1|].
  exists new. repeat split; assumption.
Defined.

(** A generator that answers and finds one entity. *)
Lemma single_entity_graph_error_witness :
  let e := {| Dash.name := py "Premium"; Dash.type := py "term";
              Dash.metadata := None |} in
  let g := {| Dash.generate := fun _ (w : unit) => (inr (py "It depends."), w);
              Dash.get_entities := fun _ w => (inr [e], w);
              Dash.get_community_summaries :=
                fun _ w => (inr [py "Auto"], w) |} in
  let s := {| Dash.backend := tt; Dash.rng := 0; Dash.page := [] |} in
  py "What is a premium?" <> [] /\
  Dash.get_entities g (py "What is a premium?") tt = (inr [e], tt) /\
  exists s',
    DashboardV2.render_main g
      (fun _ _ r => (20%Z, S r)) (fun _ _ r => (1%float, S r))
      (fun _ r => (fun _ => (0%float, 0%float), S r))
      (py "What is a premium?") s
    = (inl (KeyError (py "source")), s') /\
    filter Dash.is_chart (Dash.page s') = [].
Proof.
  intros e g s.
  assert (Hq : py "What is a premium?" <> []) by discriminate.
  split; [exact Hq|]. split; [reflexivity|].
  destruct (@single_entity_graph_error unit nat g
              (fun _ _ r => (20%Z, S r)) (fun _ _ r => (1%float, S r))
              (fun _ r => (fun _ => (0%float, 0%float), S r))
              (py "What is a premium?") (py "It depends.") e
              [py "Auto"] s tt tt tt
              Hq eq_refl eq_refl eq_refl)
    as (_ & s' & Hrun & _ & Hc).
  exists s'. split; [exact Hrun|exact Hc].
Defined.

(* ------------------------------------------------------------------ *)
(** * Further properties *)

(** ** The indexing pipeline: every outcome *)

Section PipelineOutcomes.

Import Pipeline.

Variables Nodes Entities Relationships World : Type.
Variable c : components Nodes Entities Relationships World.

(** One call of the body of [run], by cases on its outcome. *)
Ltac run_call :=
  match goal with
  | |- context [TextSplitter_init c ?w] =>
      destruct (TextSplitter_init c w) as [[?e|[]] ?w] eqn:?H
  | |- context [GraphExtractor_init c ?w] =>
      destruct (GraphExtractor_init c w) as [[?e|[]] ?w] eqn:?H
  | |- context [GraphResolver_init c ?w] =>
      destruct (GraphResolver_init c w) as [[?e|[]] ?w] eqn:?H
  | |- context [DataIndexer_init c ?w] =>
      destruct (DataIndexer_init c w) as [[?e|[]] ?w] eqn:?H
  | |- context [CommunitySummarizer_init c ?w] =>
      destruct (CommunitySummarizer_init c w) as [[?e|[]] ?w] eqn:?H
  | |- context [load_data c ?w] =>
      destruct (load_data c w) as [[?e|?nodes] ?w] eqn:?H
  | |- context [extract c ?n ?w] =>
      destruct (extract c n w) as [[?e|?nodes] ?w] eqn:?H
  | |- context [resolve c ?n ?w] =>
      destruct (resolve c n w) as [[?e|[?entities ?relationships]] ?w] eqn:?H
  | |- context [summarizer_run c ?e ?r ?w] =>
      destruct (summarizer_run c e r w) as [[?e|[]] ?w] eqn:?H
  | |- context [insert_data c ?e ?r ?w] =>
      destruct (insert_data c e r w) as [[?e|[]] ?w] eqn:?H
  end; cbn [fst snd].

Ltac run_cases :=
  unfold run, bind, invoke; cbn [fst snd]; repeat run_call.

(** X1: Whatever the outcome of [run], the calls it made are the first ones of
    its body, in the order of the body and each once: constructors first,
    then [load_data], [extract], [resolve], the summarizer's [run],
    [insert_data]; a run that returns made all ten. *)
Theorem run_calls_are_a_prefix (w : World)
  (log : list (call Nodes Entities Relationships)) :
  exists new,
    snd (snd (run c (w, log))) = log ++ new /\
    map (@rank Nodes Entities Relationships) new = seq 0 (List.length new) /\
    1 <= List.length new <= 10 /\
    (forall u, fst (run c (w, log)) = inr u -> List.length new = 10).
Proof.
  run_cases;
    (eexists; split;
     [repeat rewrite <- app_assoc; cbn [app]; reflexivity|];
     split; [reflexivity|]; split; [simpl; lia|];
     intros u Hu; first [discriminate Hu | reflexivity]).
Qed.

(** X2: [insert_data] is called only when every call before it returned:
    if a run has called [insert_data], then the five constructors,
    [load_data], [extract], [resolve] and the summarizer's [run] all
    returned, each in the state the call before it left, starting from the
    state the run started in; [insert_data] got the entities and
    relationships that [resolve] returned, and the calls of the run are
    these nine followed by [insert_data].  So a failure of any earlier call
    leaves the index unwritten by this run. *)
Theorem insert_data_only_after_summary (w : World)
  (log new : list (call Nodes Entities Relationships))
  (entities : Entities) (relationships : Relationships) :
  snd (snd (run c (w, log))) = log ++ new ->
  In (CallInsertData _ entities relationships) new ->
  exists w1 w2 w3 w4 w5 w6 w7 w8 w9 nodes0 nodes1,
    TextSplitter_init c w = (inr tt, w1) /\
    GraphExtractor_init c w1 = (inr tt, w2) /\
    GraphResolver_init c w2 = (inr tt, w3) /\
    DataIndexer_init c w3 = (inr tt, w4) /\
    CommunitySummarizer_init c w4 = (inr tt, w5) /\
    load_data c w5 = (inr nodes0, w6) /\
    extract c nodes0 w6 = (inr nodes1, w7) /\
    resolve c nodes1 w7 = (inr (entities, relationships), w8) /\
    summarizer_run c entities relationships w8 = (inr tt, w9) /\
    new = [ NewTextSplitter _ _ _; NewGraphExtractor _ _ _;
            NewGraphResolver _ _ _; NewDataIndexer _ _ _;
            NewCommunitySummarizer _ _ _;
            CallLoadData _ _ _;
            CallExtract _ _ nodes0;
            CallResolve _ _ nodes1;
            CallSummarizerRun _ entities relationships;
            CallInsertData _ entities relationships ] /\
    fst (snd (run c (w, log)))
    = snd (insert_data c entities relationships w9).
Proof.
  revert new. run_cases; intros new Hlog Hin;
    repeat rewrite <- app_assoc in Hlog; cbn [app] in Hlog;
    apply app_inv_head in Hlog; subst new; simpl in Hin;
    repeat (destruct Hin as [Hin|Hin]; [try discriminate Hin|]);
    try contradiction;
    injection Hin as <- <-;
    do 11 eexists;
    (split; [reflexivity|]);
    repeat (split; [eassumption|]);
    (split; [reflexivity|]);
    match goal with
    | H : insert_data c _ _ _ = _ |- _ => rewrite H; reflexivity
    end.
Qed.

(** The converse of the order of the stages: when every call returns in
    the state the call before it left, [run] returns, in the state
    [insert_data] left; the driver raises nothing of its own. *)
Theorem run_returns_when_calls_return (w : World)
  (log : list (call Nodes Entities Relationships))
  w1 w2 w3 w4 w5 w6 w7 w8 w9 w10 nodes0 nodes1 entities relationships :
  TextSplitter_init c w = (inr tt, w1) ->
  GraphExtractor_init c w1 = (inr tt, w2) ->
  GraphResolver_init c w2 = (inr tt, w3) ->
  DataIndexer_init c w3 = (inr tt, w4) ->
  CommunitySummarizer_init c w4 = (inr tt, w5) ->
  load_data c w5 = (inr nodes0, w6) ->
  extract c nodes0 w6 = (inr nodes1, w7) ->
  resolve c nodes1 w7 = (inr (entities, relationships), w8) ->
  summarizer_run c entities relationships w8 = (inr tt, w9) ->
  insert_data c entities relationships w9 = (inr tt, w10) ->
  exists log', run c (w, log) = (inr tt, (w10, log')).
Proof.
  intros H1 H2 H3 H4 H5 H6 H7 H8 H9 H10.
  unfold run, bind, invoke. cbn [fst snd].
  rewrite H1; cbn [fst snd]. rewrite H2; cbn [fst snd].
  rewrite H3; cbn [fst snd]. rewrite H4; cbn [fst snd].
  rewrite H5; cbn [fst snd]. rewrite H6; cbn [fst snd].
  rewrite H7; cbn [fst snd]. rewrite H8; cbn [fst snd].
  rewrite H9; cbn [fst snd]. rewrite H10; cbn [fst snd].
  eexists. reflexivity.
Qed.

End PipelineOutcomes.

Lemma insert_data_only_after_summary_witness :
  let new := [ Pipeline.NewTextSplitter _ _ _; Pipeline.NewGraphExtractor _ _ _;
               Pipeline.NewGraphResolver _ _ _; Pipeline.NewDataIndexer _ _ _;
               Pipeline.NewCommunitySummarizer _ _ _;
               Pipeline.CallLoadData _ _ _;
               Pipeline.CallExtract _ _ 15;
               Pipeline.CallResolve _ _ 30;
               Pipeline.CallSummarizerRun _ 31 32;
               Pipeline.CallInsertData _ 31 32 ] in
  snd (snd (Pipeline.run Pipeline.counting_components (0, []))) = [] ++ new /\
  In (Pipeline.CallInsertData _ 31 32) new /\
  exists w6 w7 w8 w9 nodes0 nodes1,
    Pipeline.extract Pipeline.counting_components nodes0 w6
    = (inr nodes1, w7) /\
    Pipeline.resolve Pipeline.counting_components nodes1 w7
    = (inr (31, 32), w8) /\
    Pipeline.summarizer_run Pipeline.counting_components 31 32 w8
    = (inr tt, w9).
Proof.
  intros new.
  assert (Hin : In (Pipeline.CallInsertData nat 31 32) new)
    by (do 9 right; left; reflexivity).
  split; [reflexivity|]. split; [exact Hin|].
  destruct (@insert_data_only_after_summary nat nat nat nat
              Pipeline.counting_components 0 [] new 31 32 eq_refl Hin)
    as (w1 & w2 & w3 & w4 & w5 & w6 & w7 & w8 & w9 & nodes0 & nodes1 &
        _ & _ & _ & _ & _ & _ & H7 & H8 & H9 & _).
  exists w6, w7, w8, w9, nodes0, nodes1. repeat split; assumption.
Defined.

Lemma run_returns_when_calls_return_witness :
  exists log',
    Pipeline.run Pipeline.counting_components (0, []) = (inr tt, (10, log')).
Proof.
  exact (@run_returns_when_calls_return nat nat nat nat
           Pipeline.counting_components 0 []
           1 2 3 4 5 6 7 8 9 10 15 30 31 32
           eq_refl eq_refl eq_refl eq_refl eq_refl
           eq_refl eq_refl eq_refl eq_refl eq_refl).
Defined.

(** ** The document loader: every outcome *)

Section LoaderOutcomes.

Import Loader.

Variables Docs EmbedModel Nodes World : Type.
Variable read_directory : pystr -> World -> (exn + Docs) * World.
Variable OpenAIEmbedding : pystr -> World -> (exn + EmbedModel) * World.
Variable semantic_split :
  nat -> nat -> EmbedModel -> Docs -> World -> (exn + Nodes) * World.

Lemma load_dotenv_keeps (dotenv : option environ) key v :
  forall env,
    env_lookup key env = Some v ->
    env_lookup key (load_dotenv dotenv env) = Some v.
Proof.
  destruct dotenv as [vars|]; [|trivial].
  intros env H. now rewrite load_dotenv_lookup, H.
Qed.

(** X3: The import binds [openai_api_key] to the value of the environment when
    the variable is set there, and to the value of the [.env] file only
    when the environment has none; it raises [KeyError] when neither has
    it.  In every case the import makes no library call and no variable of
    the environment loses or changes its value. *)
Theorem import_reads_environment_first (s : state World) :
  fst (import_text_splitter s) =
    match env_lookup OPENAI_API_KEY (env s) with
    | Some key => inr {| openai_api_key := key |}
    | None =>
        match dotenv_file s with
        | None => inl (KeyError OPENAI_API_KEY)
        | Some vars =>
            match env_lookup OPENAI_API_KEY vars with
            | Some key => inr {| openai_api_key := key |}
            | None => inl (KeyError OPENAI_API_KEY)
            end
        end
    end /\
  log (snd (import_text_splitter s)) = log s /\
  world (snd (import_text_splitter s)) = world s /\
  forall key v,
    env_lookup key (env s) = Some v ->
    env_lookup key (env (snd (import_text_splitter s))) = Some v.
Proof.
  assert (E : forall r,
             env_lookup OPENAI_API_KEY (load_dotenv (dotenv_file s) (env s))
             = r ->
             import_text_splitter s =
             (match r with
              | Some key => inr {| openai_api_key := key |}
              | None => inl (KeyError OPENAI_API_KEY)
              end,
              {| env := load_dotenv (dotenv_file s) (env s);
                 dotenv_file := dotenv_file s;
                 world := world s; log := log s |})).
  { intros r Hr. unfold import_text_splitter, bind, modify, get.
    cbn [env]. rewrite Hr. destruct r; reflexivity. }
  rewrite (E _ eq_refl). cbn [fst snd log world env].
  split; [|split; [reflexivity|split; [reflexivity|]]].
  - destruct (dotenv_file s) as [vars|].
    + rewrite load_dotenv_lookup.
      destruct (env_lookup OPENAI_API_KEY (env s)); [reflexivity|].
      destruct (env_lookup OPENAI_API_KEY vars); reflexivity.
    + cbn [load_dotenv].
      destruct (env_lookup OPENAI_API_KEY (env s)); reflexivity.
  - intros key v. apply load_dotenv_keeps.
Qed.

(** X4: [load_data] reads the directory, then builds the embedding client with
    the module's key, then splits with buffer size 1 and threshold 95, and
    returns the nodes of the splitter as they are.  Whatever the outcome,
    the library calls made are the first ones of these three, in this
    order; the first call that raises ends [load_data] with its exception,
    so a directory that cannot be read costs no call to the embedding
    service. *)
Theorem load_data_calls (m : module) (directory : pystr)
  (s : state World) :
  exists new,
    log (snd (load_data read_directory OpenAIEmbedding semantic_split
                m directory s)) = log s ++ new /\
    new = firstn (List.length new)
            [ ReadDirectory directory;
              MakeEmbedding (openai_api_key m);
              SemanticSplit 1 95 ] /\
    1 <= List.length new /\
    env (snd (load_data read_directory OpenAIEmbedding semantic_split
                m directory s)) = env s /\
    (forall e w1,
       read_directory directory (world s) = (inl e, w1) ->
       load_data read_directory OpenAIEmbedding semantic_split m directory s
       = (inl e, {| env := env s; dotenv_file := dotenv_file s;
                    world := w1;
                    log := log s ++ [ReadDirectory directory] |})) /\
    (forall nodes,
       fst (load_data read_directory OpenAIEmbedding semantic_split
              m directory s) = inr nodes ->
       List.length new = 3 /\
       exists docs embed_model w1 w2 w3,
         read_directory directory (world s) = (inr docs, w1) /\
         OpenAIEmbedding (openai_api_key m) w1 = (inr embed_model, w2) /\
         semantic_split 1 95 embed_model docs w2 = (inr nodes, w3) /\
         world (snd (load_data read_directory OpenAIEmbedding
                       semantic_split m directory s)) = w3).
Proof.
  unfold load_data, bind, call, ret. cbn [fst snd world log env dotenv_file].
  destruct (read_directory directory (world s)) as [[e|docs] w1] eqn:H1;
    cbn [fst snd world log env dotenv_file].
  - exists [ReadDirectory directory]. repeat split; try (simpl; lia).
    + intros e' w1' E. injection E as <- <-. reflexivity.
    + discriminate.
    + discriminate.
  - destruct (OpenAIEmbedding (openai_api_key m) w1) as [[e|em] w2] eqn:H2;
      cbn [fst snd world log env dotenv_file].
    + exists [ReadDirectory directory; MakeEmbedding (openai_api_key m)].
      repeat split; try (simpl; lia); try discriminate.
      now rewrite <- app_assoc.
    + destruct (semantic_split 1 95 em docs w2) as [[e|nodes] w3] eqn:H3;
        cbn [fst snd world log env dotenv_file].
      * exists [ReadDirectory directory; MakeEmbedding (openai_api_key m);
                SemanticSplit 1 95].
        repeat split; try (simpl; lia); try discriminate.
        now rewrite <- !app_assoc.
      * exists [ReadDirectory directory; MakeEmbedding (openai_api_key m);
                SemanticSplit 1 95].
        split; [now rewrite <- !app_assoc|].
        split; [reflexivity|]. split; [simpl; lia|]. split; [reflexivity|].
        split; [discriminate|].
        intros nodes' E. injection E as <-. split; [reflexivity|].
        exists docs, em, w1, w2, w3. repeat split; assumption.
Qed.

End LoaderOutcomes.

(** ** The toolkit: bounds and edge cases of [analyze_chunks] *)

Lemma analyze_chunks_Forall2 (chunks : list pystr) :
  Forall2 (fun chunk r => exists i, r = analyze_chunk i chunk)
          chunks (analyze_chunks chunks).
Proof.
  rewrite analyze_chunks_map. generalize 0.
  induction chunks as [|chunk chunks IH]; intros start; [constructor|].
  rewrite enumerate_cons. cbn [map fst snd].
  constructor; [now exists start|apply IH].
Qed.

Lemma count_runs_bound (s : pystr) :
  forall b, 2 * count_runs b s <= List.length s + (if b then 1 else 0).
Proof.
  induction s as [|c s IH]; intros b; cbn [count_runs List.length].
  - destruct b; lia.
  - destruct (isspace c).
    + specialize (IH true). cbv beta iota in IH. destruct b; lia.
    + specialize (IH false). cbv beta iota in IH. destruct b; lia.
Qed.

Lemma count_runs_zero (s : pystr) :
  count_runs true s = 0 <-> forallb isspace s = true.
Proof.
  induction s as [|c s IH]; cbn [count_runs forallb]; [tauto|].
  destruct (isspace c); cbn [andb]; [exact IH|].
  split; intros H; [lia|discriminate].
Qed.

Lemma count_char_zero (c : pychar) (s : pystr) :
  count_char c s = 0 <-> ~ In c s.
Proof.
  unfold count_char. induction s as [|a s IH]; cbn [filter In List.length].
  - tauto.
  - destruct (char_eqb c a) eqn:E; cbn [List.length].
    + apply char_eqb_eq in E. subst a. split; [lia|tauto].
    + assert (a <> c).
      { intros ->. unfold char_eqb in E. rewrite N.eqb_refl in E.
        discriminate. }
      tauto.
Qed.

Lemma count_char_le (c : pychar) (s : pystr) :
  count_char c s <= List.length s.
Proof. apply filter_length_le. Qed.

(** X5: The preview never exceeds 103 characters: it is the first
    [min 100 (len chunk)] characters of the chunk followed by the three full
    stops, also when the chunk was not cut. *)
Theorem analyze_chunks_preview_bound (chunks : list pystr) :
  Forall2
    (fun chunk r =>
       List.length (preview r) = Nat.min 100 (List.length chunk) + 3 /\
       List.length (preview r) <= 103 /\
       firstn (Nat.min 100 (List.length chunk)) (preview r)
       = firstn 100 chunk /\
       skipn (Nat.min 100 (List.length chunk)) (preview r) = py "...")
    chunks (analyze_chunks chunks).
Proof.
  eapply Forall2_impl; [|apply analyze_chunks_Forall2].
  intros chunk r (i & ->). cbn [analyze_chunk preview]. unfold slice_to.
  assert (L : List.length (firstn 100 chunk) = Nat.min 100 (List.length chunk))
    by apply length_firstn.
  repeat split.
  - rewrite length_app, L. reflexivity.
  - rewrite length_app, L. change (List.length ellipsis) with 3. lia.
  - rewrite <- L. rewrite firstn_app, Nat.sub_diag, firstn_all.
    simpl. now rewrite app_nil_r.
  - rewrite <- L. rewrite skipn_app, Nat.sub_diag, skipn_all. reflexivity.
Qed.

(** X6: The counts at the edges: a chunk always counts as at least one
    sentence, exactly one when it holds no full stop (the empty chunk too),
    and at most one more than its characters; it has no word exactly when
    all its characters are white space, and at most one word for every two
    characters, rounded up. *)
Theorem analyze_chunks_count_bounds (chunks : list pystr) :
  Forall2
    (fun chunk r =>
       1 <= sentences r <= S (List.length chunk) /\
       (sentences r = 1 <-> ~ In dot chunk) /\
       (words r = 0 <-> forallb isspace chunk = true) /\
       2 * words r <= S (List.length chunk))
    chunks (analyze_chunks chunks).
Proof.
  eapply Forall2_impl; [|apply analyze_chunks_Forall2].
  intros chunk r (i & ->). cbn [analyze_chunk sentences words].
  rewrite split_on_length, split_ws_length.
  pose proof (count_char_le dot chunk).
  pose proof (count_runs_bound chunk true) as Hw. cbv beta iota in Hw.
  split; [lia|]. split; [|split; [apply count_runs_zero|lia]].
  rewrite <- count_char_zero. split; lia.
Qed.

(** ** The toolkit: the buckets of [split_by_topics] *)

Lemma total_chunks_cons k vs (d : topics_dict) :
  total_chunks ((k, vs) :: d) = List.length vs + total_chunks d.
Proof. reflexivity. Qed.

Lemma total_chunks_append key v (d : topics_dict) :
  dict_mem key d = true ->
  total_chunks (dict_append key v d) = S (total_chunks d).
Proof.
  induction d as [|[k vs] d IH]; cbn [dict_mem dict_append]; [discriminate|].
  destruct (str_eqb k key); cbn [orb]; rewrite !total_chunks_cons.
  - intros _. rewrite length_app. simpl. lia.
  - intros H. rewrite (IH H). lia.
Qed.

Lemma dict_mem_snoc key (d : topics_dict) vs :
  dict_mem key (d ++ [(key, vs)]) = true.
Proof.
  induction d as [|[k ws] d IH]; cbn [app dict_mem].
  - now rewrite str_eqb_refl.
  - rewrite IH. apply orb_true_r.
Qed.

Lemma total_chunks_add (d : topics_dict) lc :
  total_chunks (dict_add d lc) = S (total_chunks d).
Proof.
  unfold dict_add. destruct (dict_mem (fst lc) d) eqn:E.
  - now apply total_chunks_append.
  - rewrite total_chunks_append by apply dict_mem_snoc.
    unfold total_chunks. rewrite map_app, list_sum_app. simpl. lia.
Qed.

Lemma total_chunks_fold ps :
  forall d,
    total_chunks (fold_left dict_add ps d) = total_chunks d + List.length ps.
Proof.
  induction ps as [|p ps IH]; intros d; cbn [fold_left List.length]; [lia|].
  rewrite IH, total_chunks_add. lia.
Qed.

Lemma General_not_indicator : ~ In General topic_indicators.
Proof.
  intros H. cbv in H.
  repeat (destruct H as [H|H]; [discriminate H|]). exact H.
Qed.

Lemma map_tail {A B : Type} (f : A -> B) (l : list A) :
  map f (tl l) = tl (map f l).
Proof. destruct l; reflexivity. Qed.

Section BucketFacts.

Variable lower : pystr -> pystr.

Lemma spec_next_topic_cases cur text :
  spec_next_topic lower cur text = cur \/
  In (spec_next_topic lower cur text) topic_indicators.
Proof.
  destruct (has_marker lower text) eqn:E.
  - right. now apply spec_next_topic_marked.
  - left. now apply spec_next_topic_unmarked.
Qed.

Lemma spec_labels_indicators chunks :
  forall start,
    In start topic_indicators ->
    Forall (fun t => In t topic_indicators) (spec_labels lower start chunks).
Proof.
  induction chunks as [|c chunks IH]; intros start H; cbn [spec_labels];
    constructor.
  - destruct (spec_next_topic_cases start c) as [->|]; assumption.
  - apply IH. destruct (spec_next_topic_cases start c) as [->|]; assumption.
Qed.

Lemma spec_labels_range chunks :
  forall start,
    Forall (fun t => t = start \/ In t topic_indicators)
           (spec_labels lower start chunks).
Proof.
  induction chunks as [|c chunks IH]; intros start; cbn [spec_labels];
    constructor.
  - apply spec_next_topic_cases.
  - destruct (spec_next_topic_cases start c) as [E|H].
    + rewrite E. apply IH.
    + eapply Forall_impl; [|apply (spec_labels_indicators chunks H)].
      intros t Ht. now right.
Qed.

Lemma topics_of_split sentence_parser text :
  map topic (split_by_topics lower sentence_parser text)
  = first_seen [] (spec_labels lower General (sentence_parser text)).
Proof.
  unfold split_by_topics, format_results.
  rewrite group_by_topic_spec. unfold spec_buckets, spec_group.
  rewrite !map_map. cbn [topic fst]. rewrite map_id.
  now rewrite map_fst_combine by apply spec_labels_length.
Qed.

(** X7: The buckets partition the base chunks: their [chunk_count]s add up to
    the number of base chunks, no bucket is empty, no two buckets have the
    same topic, and every topic is General or one of the six markers.  An
    empty base segmentation gives no bucket. *)
Theorem split_by_topics_partition
  (sentence_parser : pystr -> list pystr) (text : pystr) :
  list_sum (map chunk_count (split_by_topics lower sentence_parser text))
  = List.length (sentence_parser text) /\
  Forall (fun b => 1 <= chunk_count b)
         (split_by_topics lower sentence_parser text) /\
  NoDup (map topic (split_by_topics lower sentence_parser text)) /\
  Forall (fun b => topic b = General \/ In (topic b) topic_indicators)
         (split_by_topics lower sentence_parser text) /\
  (sentence_parser text = [] ->
   split_by_topics lower sentence_parser text = []).
Proof.
  split; [|split; [|split; [|split]]].
  - unfold split_by_topics, format_results. rewrite map_map.
    cbn [chunk_count]. unfold group_by_topic. rewrite topics_loop_spec.
    fold (total_chunks
            (fold_left dict_add
               (combine (spec_labels lower General (sentence_parser text))
                        (sentence_parser text)) [])).
    rewrite total_chunks_fold, length_combine, spec_labels_length.
    cbn. lia.
  - unfold split_by_topics, format_results.
    rewrite group_by_topic_spec. unfold spec_buckets, spec_group.
    rewrite map_map. apply Forall_forall. intros b Hb.
    apply in_map_iff in Hb as (t & <- & Ht). cbn [chunk_count snd].
    apply first_seen_In in Ht as [Ht _].
    apply in_map_iff in Ht as ([l c] & <- & Hp). cbn [fst].
    unfold chunks_of. rewrite length_map.
    assert (Hin : In (l, c)
              (filter (fun p => str_eqb (fst p) l)
                 (combine (spec_labels lower General (sentence_parser text))
                          (sentence_parser text)))).
    { apply filter_In. split; [assumption|apply str_eqb_refl]. }
    destruct (filter _ _); [destruct Hin|simpl; lia].
  - rewrite topics_of_split. apply first_seen_NoDup.
  - apply Forall_forall. intros b Hb.
    assert (Ht : In (topic b)
                    (map topic (split_by_topics lower sentence_parser text)))
      by now apply in_map.
    rewrite topics_of_split in Ht. apply first_seen_In in Ht as [Ht _].
    pose proof (spec_labels_range (sentence_parser text) General) as HF.
    rewrite Forall_forall in HF. now apply HF.
  - intros E. unfold split_by_topics. now rewrite E.
Qed.

(** X8: A bucket labelled General exists exactly when there is a first base
    chunk and no marker occurs in it; it is then the first bucket, and no
    later bucket is labelled General: once a marker was seen the pass never
    returns to General. *)
Theorem general_bucket_is_first
  (sentence_parser : pystr -> list pystr) (text : pystr) :
  (In General (map topic (split_by_topics lower sentence_parser text)) <->
   exists c rest,
     sentence_parser text = c :: rest /\ has_marker lower c = false) /\
  (forall c rest,
     sentence_parser text = c :: rest -> has_marker lower c = false ->
     map topic (firstn 1 (split_by_topics lower sentence_parser text))
     = [General]) /\
  ~ In General
      (map topic (tl (split_by_topics lower sentence_parser text))).
Proof.
  rewrite map_tail. rewrite topics_of_split.
  destruct (sentence_parser text) as [|c rest] eqn:E.
  - cbn. split; [|split].
    + split; [intros []|intros (c & rest & H & _); discriminate].
    + intros c rest H. discriminate.
    + intros [].
  - cbn [spec_labels first_seen mem existsb tl].
    destruct (has_marker lower c) eqn:Hm.
    + pose proof (spec_next_topic_marked lower General c Hm) as [Hin _].
      pose proof (spec_labels_indicators rest Hin) as HF.
      rewrite Forall_forall in HF.
      assert (Hno : forall seen,
                ~ In General
                    (first_seen seen
                       (spec_labels lower
                          (spec_next_topic lower General c) rest))).
      { intros seen F. apply first_seen_In in F as [F _].
        apply General_not_indicator. now apply HF. }
      split; [|split].
      * split.
        -- intros [F|F].
           ++ rewrite F in Hin. now apply General_not_indicator in Hin.
           ++ now apply Hno in F.
        -- intros (c' & rest' & H & H'). injection H as <- <-. congruence.
      * intros c' rest' H H'. injection H as <- <-. congruence.
      * apply Hno.
    + rewrite (spec_next_topic_unmarked lower General c Hm).
      split; [|split].
      * split; [intros _; now exists c, rest|intros _; now left].
      * intros c' rest' _ _.
        assert (T : map topic
                      (firstn 1 (split_by_topics lower sentence_parser text))
                    = firstn 1
                        (map topic
                           (split_by_topics lower sentence_parser text)))
          by (symmetry; apply firstn_map).
        rewrite T, topics_of_split, E. cbn [spec_labels first_seen mem existsb].
        rewrite (spec_next_topic_unmarked lower General c Hm). reflexivity.
      * intros F. apply first_seen_In in F as [_ F]. apply F. now left.
Qed.

(** X9: When several markers occur in one chunk, the order of the fixed list
    decides, not the order in the text: the chunk takes the occurring marker
    that comes last in the list, whatever the topic was before. *)
Theorem last_listed_marker_wins (current text : pystr)
  (before : list pystr) (m : pystr) (after : list pystr) :
  topic_indicators = before ++ m :: after ->
  occurs lower m text = true ->
  (forall m', In m' after -> occurs lower m' text = false) ->
  scan_indicators lower current text = m.
Proof.
  intros E Hm Hafter. rewrite scan_indicators_spec. unfold spec_next_topic.
  rewrite E, filter_app. cbn [filter]. rewrite Hm.
  assert (F : filter (fun indicator => occurs lower indicator text) after
              = []).
  { clear E. induction after as [|a after IH]; [reflexivity|].
    cbn [filter]. rewrite (Hafter a) by now left.
    apply IH. intros m' H. apply Hafter. now right. }
  rewrite F. apply last_last.
Qed.

End BucketFacts.

(** The text names life insurance before auto insurance; the chunk is
    labelled LIFE INSURANCE because that marker is listed after AUTO
    INSURANCE. *)
Lemma last_listed_marker_wins_witness :
  let text := py "Auto insurance is not life insurance." in
  topic_indicators =
    [py "AUTO INSURANCE"] ++ py "LIFE INSURANCE" ::
    [ py "PROPERTY INSURANCE"; py "LIABILITY INSURANCE";
      py "WORKERS COMPENSATION"; py "HEALTH INSURANCE" ] /\
  occurs ascii_lower (py "AUTO INSURANCE") text = true /\
  scan_indicators ascii_lower General text = py "LIFE INSURANCE".
Proof.
  intros text. split; [reflexivity|]. split; [reflexivity|].
  apply (@last_listed_marker_wins ascii_lower General text
           [py "AUTO INSURANCE"] (py "LIFE INSURANCE")
           [ py "PROPERTY INSURANCE"; py "LIABILITY INSURANCE";
             py "WORKERS COMPENSATION"; py "HEALTH INSURANCE" ]
           eq_refl eq_refl).
  intros m' H. simpl in H.
  repeat (destruct H as [H|H]; [rewrite <- H; reflexivity|]).
  destruct H.
Defined.

(** ** The dashboards: every list of entities, every outcome *)

Section RenderOutcomes.

Import Dash.

Variables World Rng : Type.
Variable generator : Generator World.

Lemma bind_on_backend_raises {A B : Type}
  (f : World -> (exn + A) * World) (k : A -> M (state World Rng) B) s e w :
  f (backend s) = (inl e, w) ->
  bind (on_backend f) k s = (inl e, moved s w).
Proof. intros H. unfold bind, on_backend. rewrite H. reflexivity. Qed.

Lemma expander_labels_app (l1 l2 : list widget) :
  expander_labels (l1 ++ l2) = expander_labels l1 ++ expander_labels l2.
Proof. apply flat_map_app. Qed.

(** The labels of the expanders of the source list. *)
Lemma expander_labels_sources (f : nat -> pystr) (g : pystr -> widget)
  (summaries : list pystr) :
  (forall x, expander_labels [g x] = []) ->
  forall start,
    expander_labels
      (flat_map (fun isum => [st_expander (f (fst isum)); g (snd isum)])
                (enumerate start summaries))
    = map f (seq start (List.length summaries)).
Proof.
  intros Hg. induction summaries as [|x l IH]; intros start; [reflexivity|].
  rewrite enumerate_cons. cbn [flat_map List.length seq map fst snd].
  rewrite expander_labels_app, IH.
  change (expander_labels [st_expander (f start); g x])
    with (f start :: expander_labels [g x]).
  now rewrite Hg.
Qed.

(** The guarded call of [plot_entity_network] in v1. *)
Lemma guarded_plot_v1 (entities : list Entity) (s : state World Rng) :
  match entities with
  | [] => ret tt
  | _ :: _ => DashboardV1.plot_entity_network entities
  end s
  = (inr tt,
     drawn s
       (if 2 <=? List.length entities
        then [ st_plotly_chart
                 (Fig3d {| x := repeat 0%Z (List.length entities);
                           y := repeat 0%Z (List.length entities);
                           z := repeat 0%Z (List.length entities);
                           text := map (fun e => VStr (name e)) entities;
                           color := map (fun e => VStr (type e)) entities;
                           title := py "Related Concepts Network" |})
                 false ]
        else [])).
Proof.
  destruct entities as [|e entities].
  - unfold ret. cbn. now rewrite drawn_nil.
  - apply plot_entity_network_v1.
Qed.

End RenderOutcomes.

(** X11: v1 draws for every list of retrieved entities without raising: for a
    submitted query whose three generator calls return, the page gets the
    answer, exactly one chart when two or more entities were retrieved and
    no chart for none or one (the single entity is not shown at all), and
    one expander per summary, labelled Source 1, Source 2, ... in the order
    of the summaries. *)
Theorem v1_render_main_page
  (World Rng : Type) (generator : Dash.Generator World)
  (query response : pystr) (entities : list Dash.Entity)
  (summaries : list pystr)
  (s : Dash.state World Rng) (w1 w2 w3 : World) :
  query <> [] ->
  Dash.generate generator query (Dash.backend s) = (inr response, w1) ->
  Dash.get_entities generator query w1 = (inr entities, w2) ->
  Dash.get_community_summaries generator query w2 = (inr summaries, w3) ->
  exists new,
    DashboardV1.render_main generator query s
    = (inr tt, Dash.drawn (Dash.moved s w3) new) /\
    In (Dash.st_write response) new /\
    List.length (filter Dash.is_chart new)
    = (if 2 <=? List.length entities then 1 else 0) /\
    (forall fig b,
       In (Dash.st_plotly_chart fig b) new ->
       exists sc,
         fig = Dash.Fig3d sc /\
         Dash.text sc = map (fun e => Dash.VStr (Dash.name e)) entities) /\
    Dash.expander_labels new
    = map (fun i => py "Source " ++ str_of_nat i)
          (seq 1 (List.length summaries)).
Proof.
  intros Hq Hgen Hent Hsum.
  exists ([ Dash.st_title (py "Insurance Knowledge Assistant");
            Dash.st_text_input (py "Ask a question about insurance:")
              (py "query")
              (py "e.g., What are the different types of auto insurance coverage?")
              None;
            Dash.st_spinner (py "Generating response...");
            Dash.st_columns [2; 1];
            Dash.st_markdown (py "### Answer") false;
            Dash.st_write response;
            Dash.st_markdown (py "### Related Concepts") false ]
          ++ (if 2 <=? List.length entities
              then [ Dash.st_plotly_chart
                       (Dash.Fig3d
                          {| Dash.x := repeat 0%Z (List.length entities);
                             Dash.y := repeat 0%Z (List.length entities);
                             Dash.z := repeat 0%Z (List.length entities);
                             Dash.text :=
                               map (fun e => Dash.VStr (Dash.name e)) entities;
                             Dash.color :=
                               map (fun e => Dash.VStr (Dash.type e)) entities;
                             Dash.title := py "Related Concepts Network" |})
                       false ]
              else [])
          ++ [Dash.st_markdown (py "### Knowledge Sources") false]
          ++ flat_map
               (fun isum =>
                  [ Dash.st_expander (py "Source " ++ str_of_nat (fst isum));
                    Dash.st_write (snd isum) ])
               (enumerate 1 summaries)).
  split; [|split; [|split; [|split]]].
  - unfold DashboardV1.render_main.
    destruct query as [|ch query]; [contradiction|].
    rewrite !bind_st.
    erewrite bind_on_backend by exact Hgen.
    erewrite bind_on_backend by exact Hent.
    erewrite bind_on_backend by exact Hsum.
    rewrite !bind_st.
    erewrite bind_returns by apply guarded_plot_v1.
    rewrite bind_st, for_each_two. f_equal.
    unfold Dash.drawn, Dash.moved.
    cbn [Dash.backend Dash.rng Dash.page]. f_equal.
    repeat rewrite <- app_assoc. reflexivity.
  - apply in_or_app. left. simpl. tauto.
  - rewrite !filter_app, no_chart_flat_map by reflexivity.
    destruct (2 <=? List.length entities); reflexivity.
  - intros fig b H.
    apply in_app_or in H as [H|H];
      [simpl in H; repeat (destruct H as [H|H]; [discriminate H|]);
       destruct H|].
    apply in_app_or in H as [H|H].
    + destruct (2 <=? List.length entities); [|destruct H].
      destruct H as [H|[]]. injection H as <- <-.
      eexists. split; reflexivity.
    + apply in_app_or in H as [[H|[]]|H]; [discriminate H|].
      apply in_flat_map in H as (isum & _ & [H|[H|[]]]); discriminate H.
  - unfold Dash.expander_labels at 1. rewrite !flat_map_app.
    fold (Dash.expander_labels
            (flat_map
               (fun isum =>
                  [ Dash.st_expander (py "Source " ++ str_of_nat (fst isum));
                    Dash.st_write (snd isum) ])
               (enumerate 1 summaries))).
    rewrite (expander_labels_sources
               (fun i => py "Source " ++ str_of_nat i) Dash.st_write)
      by reflexivity.
    destruct (2 <=? List.length entities); reflexivity.
Qed.

(** A single retrieved entity: v1 returns, with no chart on the page. *)
Lemma v1_render_main_page_witness :
  let e := {| Dash.name := py "Premium"; Dash.type := py "term";
              Dash.metadata := None |} in
  let g := {| Dash.generate := fun _ (w : unit) => (inr (py "It depends."), w);
              Dash.get_entities := fun _ w => (inr [e], w);
              Dash.get_community_summaries :=
                fun _ w => (inr [py "Auto"; py "Life"], w) |} in
  let s := {| Dash.backend := tt; Dash.rng := 0; Dash.page := [] |} in
  py "What is a premium?" <> [] /\
  Dash.get_entities g (py "What is a premium?") tt = (inr [e], tt) /\
  exists new,
    DashboardV1.render_main g (py "What is a premium?") s
    = (inr tt, Dash.drawn (Dash.moved s tt) new) /\
    List.length (filter Dash.is_chart new) = 0 /\
    Dash.expander_labels new = [py "Source 1"; py "Source 2"].
Proof.
  intros e g s.
  assert (Hq : py "What is a premium?" <> []) by discriminate.
  split; [exact Hq|]. split; [reflexivity|].
  destruct (@v1_render_main_page unit nat g
              (py "What is a premium?") (py "It depends.") [e]
              [py "Auto"; py "Life"] s tt tt tt
              Hq eq_refl eq_refl eq_refl)
    as (new & Hrun & _ & Hc & _ & Hl).
  exists new. repeat split; assumption.
Defined.

Section FailureFacts.

Import Dash.

Variables World Rng : Type.
Variable generator : Generator World.
Variable random_randint : Z -> Z -> Rng -> Z * Rng.
Variable random_uniform : Z -> Z -> Rng -> float * Rng.
Variable spring_layout : Graph -> Rng -> (value -> float * float) * Rng.

(** The three generator calls of [render_main], as one outcome: the first
    exception, or the three results. *)
Lemma render_main_v1_raises query e w (s : state World Rng) :
  query <> [] ->
  (generate generator query (backend s) = (inl e, w) \/
   (exists response w1,
      generate generator query (backend s) = (inr response, w1) /\
      (get_entities generator query w1 = (inl e, w) \/
       exists entities w2,
         get_entities generator query w1 = (inr entities, w2) /\
         get_community_summaries generator query w2 = (inl e, w)))) ->
  DashboardV1.render_main generator query s
  = (inl e,
     moved (drawn s
              [ st_title (py "Insurance Knowledge Assistant");
                st_text_input (py "Ask a question about insurance:")
                  (py "query")
                  (py "e.g., What are the different types of auto insurance coverage?")
                  None;
                st_spinner (py "Generating response...") ]) w).
Proof.
  intros Hq H. unfold DashboardV1.render_main.
  destruct query as [|ch query]; [contradiction|].
  rewrite !bind_st, !drawn_drawn. cbn [app].
  destruct H as [H|(response & w1 & Hgen & [H|(entities & w2 & Hent & H)])].
  - now erewrite bind_on_backend_raises by exact H.
  - erewrite bind_on_backend by exact Hgen.
    now erewrite bind_on_backend_raises by exact H.
  - erewrite bind_on_backend by exact Hgen.
    erewrite bind_on_backend by exact Hent.
    now erewrite bind_on_backend_raises by exact H.
Qed.

Lemma render_main_v2_raises query e w (s : state World Rng) :
  query <> [] ->
  (generate generator query (backend s) = (inl e, w) \/
   (exists response w1,
      generate generator query (backend s) = (inr response, w1) /\
      (get_entities generator query w1 = (inl e, w) \/
       exists entities w2,
         get_entities generator query w1 = (inr entities, w2) /\
         get_community_summaries generator query w2 = (inl e, w)))) ->
  DashboardV2.render_main generator random_randint random_uniform
    spring_layout query s
  = (inl e,
     moved (drawn s
              [ st_title (py "Insurance Knowledge Assistant " ++
                          DashboardV2.hospital);
                st_text_input (py "Ask your insurance question:")
                  (py "query")
                  (py "e.g., What are the different types of auto insurance coverage?")
                  (Some (py "Type your question here and press Enter"));
                st_spinner (DashboardV2.thinking ++ py " Thinking...") ]) w).
Proof.
  intros Hq H. unfold DashboardV2.render_main.
  destruct query as [|ch query]; [contradiction|].
  rewrite !bind_st, !drawn_drawn. cbn [app].
  destruct H as [H|(response & w1 & Hgen & [H|(entities & w2 & Hent & H)])].
  - now erewrite bind_on_backend_raises by exact H.
  - erewrite bind_on_backend by exact Hgen.
    now erewrite bind_on_backend_raises by exact H.
  - erewrite bind_on_backend by exact Hgen.
    erewrite bind_on_backend by exact Hent.
    now erewrite bind_on_backend_raises by exact H.
Qed.

End FailureFacts.

(** X12: When one of the three generator calls raises for a submitted query,
    both dashboards let the exception through and have drawn the title, the
    input box and the spinner only: an answer that [generate] had already
    returned is not shown when the retrieval of entities or of summaries
    fails after it, and no later generator call is made. *)
Theorem retrieval_failure_hides_answer
  (World Rng : Type) (generator : Dash.Generator World)
  (random_randint : Z -> Z -> Rng -> Z * Rng)
  (random_uniform : Z -> Z -> Rng -> float * Rng)
  (spring_layout :
     Dash.Graph -> Rng -> (Dash.value -> float * float) * Rng)
  (query : pystr) (e : exn) (w : World) (s : Dash.state World Rng) :
  query <> [] ->
  (Dash.generate generator query (Dash.backend s) = (inl e, w) \/
   (exists response w1,
      Dash.generate generator query (Dash.backend s) = (inr response, w1) /\
      (Dash.get_entities generator query w1 = (inl e, w) \/
       exists entities w2,
         Dash.get_entities generator query w1 = (inr entities, w2) /\
         Dash.get_community_summaries generator query w2 = (inl e, w)))) ->
  DashboardV1.render_main generator query s
  = (inl e,
     Dash.moved
       (Dash.drawn s
          [ Dash.st_title (py "Insurance Knowledge Assistant");
            Dash.st_text_input (py "Ask a question about insurance:")
              (py "query")
              (py "e.g., What are the different types of auto insurance coverage?")
              None;
            Dash.st_spinner (py "Generating response...") ]) w) /\
  DashboardV2.render_main generator random_randint random_uniform
    spring_layout query s
  = (inl e,
     Dash.moved
       (Dash.drawn s
          [ Dash.st_title (py "Insurance Knowledge Assistant " ++
                           DashboardV2.hospital);
            Dash.st_text_input (py "Ask your insurance question:")
              (py "query")
              (py "e.g., What are the different types of auto insurance coverage?")
              (Some (py "Type your question here and press Enter"));
            Dash.st_spinner (DashboardV2.thinking ++ py " Thinking...") ])
       w).
Proof.
  intros Hq H. split.
  - exact (render_main_v1_raises generator s Hq H).
  - exact (render_main_v2_raises generator random_randint random_uniform
             spring_layout s Hq H).
Qed.

(** The summaries cannot be retrieved although the answer was generated. *)
Lemma retrieval_failure_hides_answer_witness :
  let g := {| Dash.generate := fun _ (w : nat) => (inr (py "It depends."), S w);
              Dash.get_entities := fun _ w => (inr [], S w);
              Dash.get_community_summaries :=
                fun _ w => (inl (External (py "ServiceUnavailable")), S w) |} in
  let s := {| Dash.backend := 0; Dash.rng := 0; Dash.page := [] |} in
  py "What is a premium?" <> [] /\
  Dash.generate g (py "What is a premium?") 0 = (inr (py "It depends."), 1) /\
  exists s',
    DashboardV1.render_main g (py "What is a premium?") s
    = (inl (External (py "ServiceUnavailable")), s') /\
    Dash.backend s' = 3 /\
    List.length (Dash.page s') = 3.
Proof.
  intros g s.
  assert (Hq : py "What is a premium?" <> []) by discriminate.
  split; [exact Hq|]. split; [reflexivity|].
  destruct (@retrieval_failure_hides_answer nat nat g
              (fun _ _ r => (20%Z, S r)) (fun _ _ r => (1%float, S r))
              (fun _ r => (fun _ => (0%float, 0%float), S r))
              (py "What is a premium?")
              (External (py "ServiceUnavailable")) 3 s Hq
              (or_intror
                 (ex_intro _ (py "It depends.")
                    (ex_intro _ 1
                       (conj eq_refl
                          (or_intror
                             (ex_intro _ []
                                (ex_intro _ 2 (conj eq_refl eq_refl)))))))))
    as (Hrun & _).
  eexists. split; [exact Hrun|]. split; reflexivity.
Defined.

(** X13: An empty query: both dashboards draw the title and the input box and
    return; the generator is not called (the backend is as it was), no
    random number is drawn and nothing else is drawn. *)
Theorem empty_query_does_nothing
  (World Rng : Type) (generator : Dash.Generator World)
  (random_randint : Z -> Z -> Rng -> Z * Rng)
  (random_uniform : Z -> Z -> Rng -> float * Rng)
  (spring_layout :
     Dash.Graph -> Rng -> (Dash.value -> float * float) * Rng)
  (s : Dash.state World Rng) :
  DashboardV1.render_main generator [] s
  = (inr tt,
     Dash.drawn s
       [ Dash.st_title (py "Insurance Knowledge Assistant");
         Dash.st_text_input (py "Ask a question about insurance:")
           (py "query")
           (py "e.g., What are the different types of auto insurance coverage?")
           None ]) /\
  DashboardV2.render_main generator random_randint random_uniform
    spring_layout [] s
  = (inr tt,
     Dash.drawn s
       [ Dash.st_title (py "Insurance Knowledge Assistant " ++
                        DashboardV2.hospital);
         Dash.st_text_input (py "Ask your insurance question:")
           (py "query")
           (py "e.g., What are the different types of auto insurance coverage?")
           (Some (py "Type your question here and press Enter")) ]).
Proof.
  split.
  - unfold DashboardV1.render_main. rewrite !bind_st. unfold ret.
    now rewrite drawn_drawn.
  - unfold DashboardV2.render_main. rewrite !bind_st. unfold ret.
    now rewrite drawn_drawn.
Qed.

(** ** Dashboard v2: the figure for two entities or more *)

Section FigureFacts.

Import Dash.

Variables World Rng : Type.
Variable random_randint : Z -> Z -> Rng -> Z * Rng.
Variable random_uniform : Z -> Z -> Rng -> float * Rng.
Variable spring_layout : Graph -> Rng -> (value -> float * float) * Rng.

Lemma node_records_v2 (entities : list Entity) :
  forall s : state World Rng,
  exists recs s',
    map_m (DashboardV2.node_record (World := World) random_randint)
          entities s
    = (inr recs, s') /\
    DashboardV2.sized recs entities /\
    backend s' = backend s /\ page s' = page s.
Proof.
  induction entities as [|e entities IH]; intros s.
  - exists [], s. repeat split. constructor.
  - cbn [map_m]. unfold bind at 1, DashboardV2.node_record at 1.
    unfold bind at 1, draw at 1, ret at 1.
    destruct (random_randint 20 40 (rng s)) as [size r'] eqn:Er.
    cbn [fst snd].
    destruct (IH {| backend := backend s; rng := r'; page := page s |})
      as (recs & s' & Hrun & Hs & Hb & Hp).
    unfold bind at 1. rewrite Hrun. unfold ret.
    exists (DashboardV2.node_row e size :: recs), s'.
    repeat split; try assumption.
    constructor; [now exists size|assumption].
Qed.

Lemma sized_In_entity recs entities e :
  DashboardV2.sized recs entities -> In e entities ->
  exists size, In (DashboardV2.node_row e size) recs.
Proof.
  induction 1 as [|r e0 recs entities (size & ->) _ IH]; intros H;
    [destruct H|].
  destruct H as [->|H].
  - exists size. now left.
  - destruct (IH H) as (size' & H'). exists size'. now right.
Qed.

Lemma sized_In_row recs entities r :
  DashboardV2.sized recs entities -> In r recs ->
  exists e size, In e entities /\ r = DashboardV2.node_row e size.
Proof.
  induction 1 as [|r0 e0 recs entities (size & ->) _ IH]; intros H;
    [destruct H|].
  destruct H as [<-|H].
  - exists e0, size. split; [now left|reflexivity].
  - destruct (IH H) as (e & size' & He & ->).
    exists e, size'. split; [now right|reflexivity].
Qed.

Lemma sized_columns recs entities col :
  DashboardV2.sized recs entities -> recs <> [] ->
  In col [py "id"; py "label"; py "size"] ->
  column (DataFrame_of recs) col = inr (map (cell col) recs).
Proof.
  intros Hs Hne Hcol. unfold column.
  assert (E : mem col (columns (DataFrame_of recs)) = true).
  { apply mem_In. cbn [columns DataFrame_of]. apply first_seen_In.
    split; [|intros []].
    destruct Hs as [|r e recs entities (size & ->) _]; [contradiction|].
    cbn [map List.concat]. apply in_or_app. left. exact Hcol. }
  now rewrite E.
Qed.

(** The size of a node that is a retrieved entity is found. *)
Lemma node_size_found recs entities e :
  DashboardV2.sized recs entities -> In e entities ->
  exists size,
    DashboardV2.node_size (DataFrame_of recs) (VStr (name e))
    = inr (VInt size).
Proof.
  intros Hs He. destruct (@sized_In_entity recs entities e Hs He) as (size0 & Hrow).
  assert (Hne : recs <> []) by (intros ->; destruct Hrow).
  unfold DashboardV2.node_size.
  rewrite (@sized_columns recs entities (py "id") Hs Hne) by (simpl; tauto).
  rewrite (@sized_columns recs entities (py "size") Hs Hne)
    by (simpl; tauto).
  cbn [rows DataFrame_of].
  assert (Hsel : In (DashboardV2.node_row e size0)
                    (filter (fun r => value_eqb (cell (py "id") r)
                                                (VStr (name e))) recs)).
  { apply filter_In. split; [assumption|].
    change (cell (py "id") (DashboardV2.node_row e size0))
      with (VStr (name e)).
    apply str_eqb_refl. }
  destruct (filter _ recs) as [|r sel] eqn:Ef; [destruct Hsel|].
  assert (Hr : In r recs).
  { assert (In r (r :: sel)) as Hin by now left.
    rewrite <- Ef in Hin. now apply filter_In in Hin. }
  destruct (@sized_In_row recs entities r Hs Hr) as (e' & size' & _ & ->).
  now exists size'.
Qed.

Lemma g_nodes_add_node m g n :
  In n (g_nodes (add_node m g)) -> In n (g_nodes g) \/ n = m.
Proof.
  unfold add_node. destruct (has_node m g); cbn [g_nodes]; [tauto|].
  rewrite in_app_iff. simpl. intuition.
Qed.

Lemma g_nodes_add_edge g e n :
  In n (g_nodes (add_edge g e)) ->
  In n (g_nodes g) \/ n = fst e \/ n = snd e.
Proof.
  unfold add_edge.
  destruct (has_edge (fst e) (snd e) (add_node (snd e) (add_node (fst e) g)));
    cbn [g_nodes]; intros H;
    apply g_nodes_add_node in H as [H|H]; try tauto;
    apply g_nodes_add_node in H; tauto.
Qed.

(** Every node of the graph is an end point of an edge that was added. *)
Lemma g_nodes_fold pairs :
  forall g n,
    In n (g_nodes (fold_left add_edge pairs g)) ->
    In n (g_nodes g) \/ exists p, In p pairs /\ (n = fst p \/ n = snd p).
Proof.
  induction pairs as [|p pairs IH]; intros g n H; [now left|].
  cbn [fold_left] in H. apply IH in H as [H|(q & Hq & H)].
  - apply g_nodes_add_edge in H as [H|H]; [now left|].
    right. exists p. split; [now left|assumption].
  - right. exists q. split; [now right|assumption].
Qed.

Lemma from_pandas_edgelist_rows rows pairs :
  weighted rows pairs -> rows <> [] ->
  from_pandas_edgelist (DataFrame_of rows) (py "source") (py "target")
  = inr (fold_left add_edge (map endpoints rows) empty_graph).
Proof.
  intros Hw Hne. unfold from_pandas_edgelist.
  rewrite (@weighted_columns rows _ (py "source") Hw Hne)
    by (simpl; tauto).
  rewrite (@weighted_columns rows _ (py "target") Hw Hne)
    by (simpl; tauto).
  now rewrite combine_map.
Qed.

Lemma map_m_lift_ok {A B : Type} (f : A -> exn + B) (l : list A) :
  (forall a, In a l -> exists b, f a = inr b) ->
  forall s : state World Rng,
  exists bs,
    map_m (fun a => lift_result (f a)) l s = (inr bs, s) /\
    List.length bs = List.length l.
Proof.
  induction l as [|a l IH]; intros Hf s.
  - now exists [].
  - destruct (Hf a (or_introl eq_refl)) as (b & Hb).
    destruct (IH (fun a' H => Hf a' (or_intror H)) s) as (bs & Hrun & Hlen).
    exists (b :: bs). cbn [map_m]. unfold bind at 1, lift_result at 1.
    rewrite Hb. unfold bind at 1. rewrite Hrun. unfold ret.
    split; [reflexivity|]. simpl. now rewrite Hlen.
Qed.

Lemma all_pairs_ends {A : Type} (l : list A) (p : A * A) :
  In p (all_pairs l) -> In (fst p) l /\ In (snd p) l.
Proof. destruct p as [a b]. apply all_pairs_In. Qed.

Lemma has_node_str a g :
  has_node (VStr a) g = true -> In (VStr a) (g_nodes g).
Proof.
  unfold has_node. intros H. apply existsb_exists in H as (n & Hn & E).
  destruct n as [b| | |]; try discriminate E.
  cbn [value_eqb] in E. apply str_eqb_eq in E. now subst.
Qed.

Lemma add_node_keeps n m g :
  In n (g_nodes g) -> In n (g_nodes (add_node m g)).
Proof.
  unfold add_node. destruct (has_node m g); cbn [g_nodes]; [tauto|].
  intros H. apply in_or_app. now left.
Qed.

Lemma add_node_adds a g : In (VStr a) (g_nodes (add_node (VStr a) g)).
Proof.
  unfold add_node. destruct (has_node (VStr a) g) eqn:E; cbn [g_nodes].
  - now apply has_node_str.
  - apply in_or_app. right. now left.
Qed.

Lemma g_nodes_add_edge_eq g e :
  g_nodes (add_edge g e) = g_nodes (add_node (snd e) (add_node (fst e) g)).
Proof.
  unfold add_edge.
  destruct (has_edge (fst e) (snd e) (add_node (snd e) (add_node (fst e) g)));
    reflexivity.
Qed.

Lemma fold_add_edge_keeps pairs :
  forall g n,
    In n (g_nodes g) -> In n (g_nodes (fold_left add_edge pairs g)).
Proof.
  induction pairs as [|p pairs IH]; intros g n H; [assumption|].
  cbn [fold_left]. apply IH. rewrite g_nodes_add_edge_eq.
  now do 2 apply add_node_keeps.
Qed.

(** Both end points of an added edge of names are nodes of the graph. *)
Lemma fold_add_edge_ends pairs a b :
  forall g,
    In (VStr a, VStr b) pairs ->
    In (VStr a) (g_nodes (fold_left add_edge pairs g)) /\
    In (VStr b) (g_nodes (fold_left add_edge pairs g)).
Proof.
  induction pairs as [|p pairs IH]; intros g H; [destruct H|].
  cbn [fold_left]. destruct H as [->|H]; [|now apply IH].
  split; apply fold_add_edge_keeps; rewrite g_nodes_add_edge_eq;
    cbn [fst snd].
  - apply add_node_keeps, add_node_adds.
  - apply add_node_adds.
Qed.

(** Among two entities or more, every entity is in some pair. *)
Lemma all_pairs_reach {A : Type} (l : list A) (a : A) :
  2 <= List.length l -> In a l ->
  exists p, In p (all_pairs l) /\ (fst p = a \/ snd p = a).
Proof.
  destruct l as [|x [|y l]]; cbn [List.length]; try lia. intros _ H.
  destruct H as [->|H].
  - exists (a, y). split; [now left|now left].
  - exists (x, a). split; [|now right].
    cbn [all_pairs]. apply in_or_app. left.
    apply in_map_iff. now exists a.
Qed.

(** The chart v2 draws for two entities or more. *)
Lemma plot_entity_network_v2_many (entities : list Entity)
  (s : state World Rng) :
  2 <= List.length entities ->
  exists lines xs ys sizes labels s',
    DashboardV2.plot_entity_network random_randint random_uniform
      spring_layout entities s
    = (inr tt, s') /\
    backend s' = backend s /\
    page s' = page s ++
      [ st_plotly_chart
          (FigGraph {| traces := lines ++ [Markers xs ys sizes labels];
                       layout_title := py "Knowledge Graph Visualization";
                       layout_height := 500 |}) true ] /\
    List.length lines
    = List.length entities * (List.length entities - 1) / 2 /\
    Forall (fun t => exists x0 x1 y0 y1 w,
                       t = Lines [x0; x1] [y0; y1] (VFloat w)) lines /\
    List.length xs = List.length labels /\
    List.length ys = List.length labels /\
    List.length sizes = List.length labels /\
    (forall n, In n labels <->
               exists e, In e entities /\ n = VStr (name e)).
Proof.
  intros HN. unfold DashboardV2.plot_entity_network.
  destruct (node_records_v2 entities s)
    as (recs & s1 & Hrun1 & Hsized & Hb1 & Hp1).
  erewrite bind_returns by exact Hrun1.
  destruct (edge_records_v2 random_uniform entities s1)
    as (rows & s2 & Hrun2 & Hw & Hb2 & Hp2).
  erewrite bind_returns by exact Hrun2.
  assert (Hlen : List.length rows
                 = List.length entities * (List.length entities - 1) / 2)
    by now rewrite (weighted_length Hw), all_pairs_count.
  assert (Hne : rows <> []).
  { intros ->. pose proof (all_pairs_length entities) as Hp.
    rewrite <- (weighted_length Hw) in Hp. simpl in Hp. nia. }
  unfold bind at 1, lift_result at 1.
  rewrite (@from_pandas_edgelist_rows rows _ Hw Hne).
  set (G := fold_left add_edge (map endpoints rows) empty_graph).
  unfold bind at 1, draw at 1.
  destruct (spring_layout G (rng s2)) as [pos r3] eqn:El. cbn [fst snd].
  assert (Hnodes : forall n, In n (g_nodes G) ->
                     exists e, In e entities /\ n = VStr (name e)).
  { intros n Hn. apply g_nodes_fold in Hn as [[]|(p & Hp & Hn)].
    rewrite (weighted_endpoints Hw) in Hp.
    apply in_map_iff in Hp as (q & <- & Hq).
    apply all_pairs_ends in Hq as [Hq1 Hq2]. cbn [name_pair fst snd] in Hn.
    destruct Hn as [->| ->]; [exists (fst q)|exists (snd q)];
      (split; [assumption|reflexivity]). }
  destruct (@map_m_lift_ok value value
              (DashboardV2.node_size (DataFrame_of recs)) (g_nodes G))
    with (s := {| backend := backend s2; rng := r3; page := page s2 |})
    as (sizes & Hrun4 & Hlen4).
  { intros n Hn. destruct (Hnodes n Hn) as (e & He & ->).
    destruct (@node_size_found recs entities e Hsized He) as (size & Hsz).
    now exists (VInt size). }
  erewrite bind_returns by exact Hrun4.
  rewrite st_run.
  exists (map (DashboardV2.edge_trace pos) rows),
    (map (fun node => fst (pos node)) (g_nodes G)),
    (map (fun node => snd (pos node)) (g_nodes G)),
    sizes, (g_nodes G).
  eexists. split; [reflexivity|].
  cbn [backend page drawn Dash.rows DataFrame_of].
  split; [congruence|]. split; [now rewrite Hp2, Hp1|].
  split; [now rewrite length_map|].
  split.
  - apply Forall_forall. intros t Ht.
    apply in_map_iff in Ht as (r & <- & Hr).
    unfold weighted in Hw.
    assert (exists p w, r = edge_record (fst p) (snd p) (VFloat w))
      as (p & w & ->).
    { clear - Hw Hr. induction Hw as [|r0 p rows pairs (w & ->) _ IH];
        [destruct Hr|].
      destruct Hr as [<-|Hr]; [now exists p, w|now apply IH]. }
    unfold DashboardV2.edge_trace. do 5 eexists. reflexivity.
  - rewrite !length_map.
    split; [reflexivity|]. split; [reflexivity|]. split; [assumption|].
    intros n. split; [apply Hnodes|].
    intros (e & He & ->).
    destruct (all_pairs_reach entities e HN He) as (p & Hp & Hends).
    assert (Hin : In (VStr (name (fst p)), VStr (name (snd p)))
                     (map endpoints rows)).
    { rewrite (weighted_endpoints Hw). apply in_map_iff. now exists p. }
    destruct (fold_add_edge_ends _ _ _ empty_graph Hin) as [H1 H2].
    destruct Hends as [<-|<-]; assumption.
Qed.

End FigureFacts.

(** X14: For two retrieved entities or more, whatever their names, v2's
    [plot_entity_network] returns and draws one chart: a line trace per
    pair of entities, [N * (N - 1) / 2] of them, each with a drawn weight as
    its width, followed by one marker trace whose labels are exactly the
    names of the retrieved entities, with a position and a size for each
    label.  The backend is not touched. *)
Theorem v2_network_for_two_or_more
  (World Rng : Type)
  (random_randint : Z -> Z -> Rng -> Z * Rng)
  (random_uniform : Z -> Z -> Rng -> float * Rng)
  (spring_layout :
     Dash.Graph -> Rng -> (Dash.value -> float * float) * Rng)
  (entities : list Dash.Entity) (s : Dash.state World Rng) :
  2 <= List.length entities ->
  exists lines xs ys sizes labels s',
    DashboardV2.plot_entity_network random_randint random_uniform
      spring_layout entities s
    = (inr tt, s') /\
    Dash.backend s' = Dash.backend s /\
    Dash.page s' = Dash.page s ++
      [ Dash.st_plotly_chart
          (Dash.FigGraph
             {| Dash.traces := lines ++ [Dash.Markers xs ys sizes labels];
                Dash.layout_title := py "Knowledge Graph Visualization";
                Dash.layout_height := 500 |}) true ] /\
    List.length lines
    = List.length entities * (List.length entities - 1) / 2 /\
    Forall (fun t => exists x0 x1 y0 y1 w,
                       t = Dash.Lines [x0; x1] [y0; y1] (Dash.VFloat w))
           lines /\
    List.length xs = List.length labels /\
    List.length ys = List.length labels /\
    List.length sizes = List.length labels /\
    (forall n, In n labels <->
               exists e, In e entities /\ n = Dash.VStr (Dash.name e)).
Proof. apply plot_entity_network_v2_many. Qed.

Lemma v2_network_for_two_or_more_witness :
  let entities :=
    [ {| Dash.name := py "Term Life"; Dash.type := py "policy";
         Dash.metadata := None |};
      {| Dash.name := py "Premium"; Dash.type := py "term";
         Dash.metadata := Some [(py "label", py "Term")] |} ] in
  let s := {| Dash.backend := tt; Dash.rng := 0; Dash.page := [] |} in
  2 <= List.length entities /\
  exists fig s',
    DashboardV2.plot_entity_network
      (fun _ _ r => (20%Z, S r)) (fun _ _ r => (1%float, S r))
      (fun _ r => (fun _ => (0%float, 0%float), S r)) entities s
    = (inr tt, s') /\
    Dash.page s' = [Dash.st_plotly_chart (Dash.FigGraph fig) true] /\
    List.length (Dash.traces fig) = 2.
Proof.
  intros entities s.
  assert (H2 : 2 <= List.length entities) by (simpl; lia).
  split; [exact H2|].
  destruct (@v2_network_for_two_or_more unit nat
              (fun _ _ r => (20%Z, S r)) (fun _ _ r => (1%float, S r))
              (fun _ r => (fun _ => (0%float, 0%float), S r))
              entities s H2)
    as (lines & xs & ys & sizes & labels & s' & Hrun & _ & Hp & Hl & _).
  eexists. exists s'. split; [exact Hrun|]. split; [exact Hp|].
  cbn [Dash.traces]. rewrite length_app, Hl. reflexivity.
Defined.

Section ManyEntities.

Import Dash.

Variables World Rng : Type.
Variable generator : Generator World.
Variable random_randint : Z -> Z -> Rng -> Z * Rng.
Variable random_uniform : Z -> Z -> Rng -> float * Rng.
Variable spring_layout : Graph -> Rng -> (value -> float * float) * Rng.

Lemma bind_assoc {A B C : Type} (m : M (state World Rng) A)
  (k : A -> M (state World Rng) B) (k' : B -> M (state World Rng) C) s :
  bind (bind m k) k' s = bind m (fun a => bind (k a) k') s.
Proof. unfold bind. destruct (m s) as [[e|a] s']; reflexivity. Qed.

Lemma map_snd_enumerate {A B : Type} (g : A -> B) (l : list A) :
  forall start,
    map (fun ia => g (snd ia)) (enumerate start l) = map g l.
Proof.
  induction l as [|a l IH]; intros start; [reflexivity|].
  rewrite enumerate_cons. cbn [map snd]. now rewrite IH.
Qed.

(** The page of v2 for two retrieved entities or more. *)
Lemma render_main_v2_many query response entities summaries
  (s : state World Rng) w1 w2 w3 :
  query <> [] ->
  generate generator query (backend s) = (inr response, w1) ->
  get_entities generator query w1 = (inr entities, w2) ->
  get_community_summaries generator query w2 = (inr summaries, w3) ->
  2 <= List.length entities ->
  exists fig s',
    DashboardV2.render_main generator random_randint random_uniform
      spring_layout query s = (inr tt, s') /\
    backend s' = w3 /\
    page s' = page s ++
      [ st_title (py "Insurance Knowledge Assistant " ++
                  DashboardV2.hospital);
        st_text_input (py "Ask your insurance question:") (py "query")
          (py "e.g., What are the different types of auto insurance coverage?")
          (Some (py "Type your question here and press Enter"));
        st_spinner (DashboardV2.thinking ++ py " Thinking...");
        st_tabs [ DashboardV2.bulb ++ py " Answer";
                  DashboardV2.link ++ py " Related Concepts";
                  DashboardV2.books ++ py " Sources" ];
        st_markdown (DashboardV2.answer_html response) true;
        st_plotly_chart (FigGraph fig) true;
        st_markdown (py "#### Related Terms") false;
        st_columns [1; 1; 1] ]
      ++ map (fun e => st_markdown (DashboardV2.badge_html (name e)) true)
             entities
      ++ flat_map
           (fun isum =>
              [ st_expander (DashboardV2.sheet ++ py " Source " ++
                             str_of_nat (fst isum));
                st_markdown (DashboardV2.source_html (snd isum)) true ])
           (enumerate 1 summaries).
Proof.
  intros Hq Hgen Hent Hsum HN. unfold DashboardV2.render_main.
  destruct query as [|ch query]; [contradiction|].
  rewrite !bind_st.
  erewrite bind_on_backend by exact Hgen.
  erewrite bind_on_backend by exact Hent.
  erewrite bind_on_backend by exact Hsum.
  rewrite !bind_st.
  destruct entities as [|e1 rest]; [simpl in HN; lia|].
  set (entities := e1 :: rest) in *.
  match goal with
  | |- context [bind _ _ ?s0 = _] =>
      destruct (plot_entity_network_v2_many random_randint random_uniform
                  spring_layout entities s0 HN)
        as (lines & xs & ys & sizes & labels & s1 & Hplot & Hb & Hp & _)
  end.
  rewrite !bind_assoc.
  erewrite bind_returns by exact Hplot.
  rewrite bind_assoc, bind_st, bind_assoc, bind_st.
  erewrite bind_returns by apply for_each_one.
  rewrite for_each_two.
  eexists. eexists. split; [reflexivity|].
  cbn [backend page drawn moved] in *. split; [exact Hb|].
  rewrite Hp.
  rewrite (map_snd_enumerate
             (fun n => st_markdown (DashboardV2.badge_html n) true)).
  rewrite map_map.
  repeat rewrite <- app_assoc. reflexivity.
Qed.

End ManyEntities.

(** X15: v2 draws the related concepts for two retrieved entities or more
    without raising: for a submitted query whose three generator calls
    return, the page gets the answer, one chart, the heading of the related
    terms, then one badge per retrieved entity with its name, in the order
    of the entities (duplicates included), then one expander per summary,
    numbered from 1.  The answer is a part of the text of the answer
    block, the name of each entity a part of the text of its badge and each
    summary a part of the text drawn under its expander. *)
Theorem v2_render_main_page
  (World Rng : Type) (generator : Dash.Generator World)
  (random_randint : Z -> Z -> Rng -> Z * Rng)
  (random_uniform : Z -> Z -> Rng -> float * Rng)
  (spring_layout :
     Dash.Graph -> Rng -> (Dash.value -> float * float) * Rng)
  (query response : pystr) (entities : list Dash.Entity)
  (summaries : list pystr)
  (s : Dash.state World Rng) (w1 w2 w3 : World) :
  query <> [] ->
  Dash.generate generator query (Dash.backend s) = (inr response, w1) ->
  Dash.get_entities generator query w1 = (inr entities, w2) ->
  Dash.get_community_summaries generator query w2 = (inr summaries, w3) ->
  2 <= List.length entities ->
  exists fig s' before,
    DashboardV2.render_main generator random_randint random_uniform
      spring_layout query s = (inr tt, s') /\
    Dash.backend s' = w3 /\
    Dash.page s' =
      Dash.page s ++ before
      ++ [ Dash.st_plotly_chart (Dash.FigGraph fig) true;
           Dash.st_markdown (py "#### Related Terms") false;
           Dash.st_columns [1; 1; 1] ]
      ++ map (fun e => Dash.st_markdown
                         (DashboardV2.badge_html (Dash.name e)) true)
             entities
      ++ flat_map
           (fun isum =>
              [ Dash.st_expander (DashboardV2.sheet ++ py " Source " ++
                                  str_of_nat (fst isum));
                Dash.st_markdown (DashboardV2.source_html (snd isum)) true ])
           (enumerate 1 summaries) /\
    In (Dash.st_markdown (DashboardV2.answer_html response) true) before /\
    filter Dash.is_chart before = [] /\
    contains response (DashboardV2.answer_html response) = true /\
    Forall (fun e => contains (Dash.name e)
                       (DashboardV2.badge_html (Dash.name e)) = true)
           entities /\
    Forall (fun summary =>
              contains summary (DashboardV2.source_html summary) = true)
           summaries.
Proof.
  intros Hq Hgen Hent Hsum HN.
  destruct (render_main_v2_many generator random_randint random_uniform
              spring_layout s Hq Hgen Hent Hsum HN)
    as (fig & s' & Hrun & Hb & Hp).
  exists fig, s'.
  exists [ Dash.st_title (py "Insurance Knowledge Assistant " ++
                          DashboardV2.hospital);
           Dash.st_text_input (py "Ask your insurance question:")
             (py "query")
             (py "e.g., What are the different types of auto insurance coverage?")
             (Some (py "Type your question here and press Enter"));
           Dash.st_spinner (DashboardV2.thinking ++ py " Thinking...");
           Dash.st_tabs [ DashboardV2.bulb ++ py " Answer";
                          DashboardV2.link ++ py " Related Concepts";
                          DashboardV2.books ++ py " Sources" ];
           Dash.st_markdown (DashboardV2.answer_html response) true ].
  split; [exact Hrun|]. split; [exact Hb|].
  split; [rewrite Hp; reflexivity|].
  split; [simpl; tauto|]. split; [reflexivity|].
  split; [apply answer_html_contains|].
  split; apply Forall_forall; intros x _;
    [apply badge_html_contains|apply source_html_contains].
Qed.

(** Two retrieved entities: v2 returns, with the chart and two badges. *)
Lemma v2_render_main_page_witness :
  let entities :=
    [ {| Dash.name := py "Term Life"; Dash.type := py "policy";
         Dash.metadata := None |};
      {| Dash.name := py "Premium"; Dash.type := py "term";
         Dash.metadata := None |} ] in
  let g := {| Dash.generate := fun _ (w : unit) => (inr (py "It depends."), w);
              Dash.get_entities := fun _ w => (inr entities, w);
              Dash.get_community_summaries := fun _ w => (inr [py "Life"], w) |} in
  let s := {| Dash.backend := tt; Dash.rng := 0; Dash.page := [] |} in
  py "What is a premium?" <> [] /\
  2 <= List.length entities /\
  exists s',
    DashboardV2.render_main g
      (fun _ _ r => (20%Z, S r)) (fun _ _ r => (1%float, S r))
      (fun _ r => (fun _ => (0%float, 0%float), S r))
      (py "What is a premium?") s
    = (inr tt, s') /\
    Dash.backend s' = tt.
Proof.
  intros entities g s.
  assert (Hq : py "What is a premium?" <> []) by discriminate.
  assert (H2 : 2 <= List.length entities) by (simpl; lia).
  split; [exact Hq|]. split; [exact H2|].
  destruct (@v2_render_main_page unit nat g
              (fun _ _ r => (20%Z, S r)) (fun _ _ r => (1%float, S r))
              (fun _ r => (fun _ => (0%float, 0%float), S r))
              (py "What is a premium?") (py "It depends.") entities
              [py "Life"] s tt tt tt Hq eq_refl eq_refl eq_refl H2)
    as (fig & s' & before & Hrun & Hb & _).
  exists s'. split; [exact Hrun|exact Hb].
Defined.

(** ** The sidebar and the run of the apps *)

Section AppFacts.

Import Dash App.

Variables World Rng : Type.
Variable clicked : pystr -> bool.

Lemma bind_sb {B : Type} (c : side_call)
  (k : unit -> M (app_state World Rng) B) a :
  bind (sb c) k a
  = k tt {| session_query := session_query a;
            sidebar := sidebar a ++ [c];
            main := main a |}.
Proof. reflexivity. Qed.

(** The loop over the example questions draws one button per question and
    leaves in the session the last question whose button was clicked. *)
Lemma for_each_buttons (button : pystr -> side_call) (l : list pystr) :
  forall a : app_state World Rng,
    for_each l (fun q => sb (button q) ;;
                         if clicked q then set_query q else ret tt) a
    = (inr tt,
       {| session_query :=
            fold_left (fun cur q => if clicked q then q else cur) l
                      (session_query a);
          sidebar := sidebar a ++ map button l;
          main := main a |}).
Proof.
  induction l as [|q l IH]; intros a.
  - destruct a. cbn. now rewrite app_nil_r.
  - cbn [for_each]. unfold bind at 1. rewrite bind_sb.
    destruct (clicked q) eqn:E.
    + unfold set_query, modify. cbn [fst snd]. rewrite IH.
      cbn [session_query sidebar main fold_left map]. rewrite E.
      now rewrite <- app_assoc.
    + unfold ret. rewrite IH.
      cbn [session_query sidebar main fold_left map]. rewrite E.
      now rewrite <- app_assoc.
Qed.

Lemma example_buttons_run (button : pystr -> side_call)
  (a : app_state World Rng) :
  example_buttons clicked button a
  = (inr tt,
     {| session_query :=
          last (filter clicked example_questions) (session_query a);
        sidebar := sidebar a ++ map button example_questions;
        main := main a |}).
Proof.
  unfold example_buttons. rewrite for_each_buttons.
  now rewrite (fold_overwrite clicked example_questions).
Qed.

Lemma render_sidebar_v1_run (a : app_state World Rng) :
  render_sidebar_v1 clicked a
  = (inr tt,
     {| session_query :=
          last (filter clicked example_questions) (session_query a);
        sidebar :=
          sidebar a ++
          [ sb_title sidebar_title;
            sb_markdown (py "---") false;
            sb_markdown about_v1 false;
            sb_markdown (py "### Example Questions") false ]
          ++ map (fun q => sb_button q None None) example_questions
          ++ [ sb_markdown (py "---") false;
               sb_markdown (py "### About") false;
               sb_markdown built_with_v1 false ];
        main := main a |}).
Proof.
  unfold render_sidebar_v1. rewrite !bind_sb.
  unfold bind at 1. rewrite example_buttons_run.
  rewrite !bind_sb. unfold sb, modify.
  cbn [session_query sidebar main]. do 2 f_equal.
  repeat rewrite <- app_assoc. reflexivity.
Qed.

Lemma render_sidebar_v2_run (a : app_state World Rng) :
  render_sidebar_v2 clicked a
  = (inr tt,
     {| session_query :=
          last (filter clicked example_questions) (session_query a);
        sidebar :=
          sidebar a ++
          [ sb_title sidebar_title;
            sb_markdown about_v2 true;
            sb_markdown (py "### " ++ [128221%N] ++ py " Example Questions")
              false ]
          ++ map (fun q => sb_button q (Some q)
                             (Some (py "Click to ask: " ++ q)))
                 example_questions
          ++ [ sb_markdown (py "---") false;
               sb_markdown built_with_v2 false ];
        main := main a |}).
Proof.
  unfold render_sidebar_v2. rewrite !bind_sb.
  unfold bind at 1. rewrite example_buttons_run.
  rewrite !bind_sb. unfold sb, modify.
  cbn [session_query sidebar main]. do 2 f_equal.
  repeat rewrite <- app_assoc. reflexivity.
Qed.

Lemma filter_none {A : Type} (p : A -> bool) (l : list A) :
  (forall a, In a l -> p a = false) -> filter p l = [].
Proof.
  induction l as [|a l IH]; intros H; [reflexivity|].
  cbn [filter]. rewrite (H a) by now left.
  apply IH. intros b Hb. apply H. now right.
Qed.

Lemma filter_only (q : pystr) (l : list pystr) :
  In q l ->
  exists n, filter (fun q' => str_eqb q' q) l = repeat q (S n).
Proof.
  induction l as [|a l IH]; intros H; [destruct H|].
  cbn [filter]. destruct (str_eqb a q) eqn:E.
  - apply str_eqb_eq in E. subst a.
    assert (D : forall m, exists n,
               filter (fun q' => str_eqb q' q) m = repeat q n).
    { intros m. induction m as [|b m IHm]; [now exists 0|].
      cbn [filter]. destruct (str_eqb b q) eqn:Eb; [|exact IHm].
      apply str_eqb_eq in Eb. subst b. destruct IHm as (n & ->).
      now exists (S n). }
    destruct (D l) as (n & ->). now exists n.
  - destruct H as [->|H]; [now rewrite str_eqb_refl in E|]. now apply IH.
Qed.

Lemma last_repeat {A : Type} (a d : A) n : last (repeat a (S n)) d = a.
Proof.
  revert d. induction n as [|n IH]; intros d; [reflexivity|].
  change (last (a :: repeat a (S n)) d = a).
  rewrite last_cons. apply IH.
Qed.

End AppFacts.

(** X16: The sidebar of both apps draws one button per example question, the
    same five in the same order, changes nothing in the main pane and
    leaves in [st.session_state.query] the last question, in the order of
    the list, whose button reported a click: the query is untouched when no
    button was clicked and is the clicked question when one was. *)
Theorem sidebar_sets_query (World Rng : Type) (clicked : pystr -> bool)
  (a : App.app_state World Rng) :
  (exists new,
     App.render_sidebar_v1 clicked a
     = (inr tt,
        {| App.session_query :=
             last (filter clicked App.example_questions)
                  (App.session_query a);
           App.sidebar := App.sidebar a ++ new;
           App.main := App.main a |}) /\
     App.button_labels new = App.example_questions) /\
  (exists new,
     App.render_sidebar_v2 clicked a
     = (inr tt,
        {| App.session_query :=
             last (filter clicked App.example_questions)
                  (App.session_query a);
           App.sidebar := App.sidebar a ++ new;
           App.main := App.main a |}) /\
     App.button_labels new = App.example_questions) /\
  ((forall q, In q App.example_questions -> clicked q = false) ->
   last (filter clicked App.example_questions) (App.session_query a)
   = App.session_query a) /\
  (forall q,
     In q App.example_questions ->
     (forall q', In q' App.example_questions ->
                 clicked q' = str_eqb q' q) ->
     last (filter clicked App.example_questions) (App.session_query a) = q).
Proof.
  split; [|split; [|split]].
  - eexists. split; [apply render_sidebar_v1_run|]. reflexivity.
  - eexists. split; [apply render_sidebar_v2_run|]. reflexivity.
  - intros H. now rewrite filter_none.
  - intros q Hq H.
    rewrite (filter_ext_in clicked (fun q' => str_eqb q' q)) by exact H.
    destruct (filter_only q App.example_questions Hq) as (n & ->).
    apply last_repeat.
Qed.

Section RunFacts.

Import Dash App.

Variables World Rng : Type.
Variable clicked : pystr -> bool.
Variable generator : Generator World.
Variable random_randint : Z -> Z -> Rng -> Z * Rng.
Variable random_uniform : Z -> Z -> Rng -> float * Rng.
Variable spring_layout : Graph -> Rng -> (value -> float * float) * Rng.



End RunFacts.


(** ** The start of the apps *)

Section StartupFacts.

Import Startup.

Variable World : Type.
Variable c : components World.

(** One call of the body of [__init__], by cases on its outcome. *)
Ltac init_call :=
  match goal with
  | |- context [set_page_config c ?i ?w] =>
      destruct (set_page_config c i w) as [[?e|[]] ?w] eqn:?H
  | |- context [CommunitySummarizer_init c ?w] =>
      destruct (CommunitySummarizer_init c w) as [[?e|[]] ?w] eqn:?H
  | |- context [DataIndexer_init c ?w] =>
      destruct (DataIndexer_init c w) as [[?e|[]] ?w] eqn:?H
  | |- context [summarizer_load c ?w] =>
      destruct (summarizer_load c w) as [[?e|[]] ?w] eqn:?H
  | |- context [Generator_init c ?w] =>
      destruct (Generator_init c w) as [[?e|[]] ?w] eqn:?H
  end.

(** X18: Whatever the outcome of [__init__], its calls are the first ones
    of its body in order, each once: the page configuration, the summarizer,
    the indexer, the loading of the summaries, the generator.  The generator
    is built only when the four calls before it returned, each in the state
    the call before it left, so an app whose summaries cannot be loaded
    never gets a generator.  [__init__] returns exactly when all five calls
    return in a chain from the state it started in, and then leaves the
    state the generator's constructor left and the five calls in the
    log. *)
Theorem init_calls_are_a_prefix (initial_sidebar_state : option pystr)
  (w : World) (log : list call) :
  (exists new,
     snd (snd (init c initial_sidebar_state (w, log))) = log ++ new /\
     map rank new = seq 0 (List.length new) /\
     1 <= List.length new <= 5 /\
     (In NewGenerator new ->
      exists w1 w2 w3 w4,
        set_page_config c initial_sidebar_state w = (inr tt, w1) /\
        CommunitySummarizer_init c w1 = (inr tt, w2) /\
        DataIndexer_init c w2 = (inr tt, w3) /\
        summarizer_load c w3 = (inr tt, w4) /\
        new = [ SetPageConfig initial_sidebar_state;
                NewCommunitySummarizer; NewDataIndexer;
                SummarizerLoad; NewGenerator ])) /\
  (forall w5 log',
     init c initial_sidebar_state (w, log) = (inr tt, (w5, log')) <->
     exists w1 w2 w3 w4,
       set_page_config c initial_sidebar_state w = (inr tt, w1) /\
       CommunitySummarizer_init c w1 = (inr tt, w2) /\
       DataIndexer_init c w2 = (inr tt, w3) /\
       summarizer_load c w3 = (inr tt, w4) /\
       Generator_init c w4 = (inr tt, w5) /\
       log' = log ++ [ SetPageConfig initial_sidebar_state;
                       NewCommunitySummarizer; NewDataIndexer;
                       SummarizerLoad; NewGenerator ]).
Proof.
  split; [|intros w5 log'; split].
  - unfold init, bind, invoke; cbn [fst snd];
      repeat (init_call; cbn [fst snd]);
      (eexists; split;
       [repeat rewrite <- app_assoc; cbn [app]; reflexivity|];
       split; [reflexivity|]; split; [simpl; lia|];
       intros Hin; simpl in Hin;
       repeat (destruct Hin as [Hin|Hin]; [try discriminate Hin|]);
       first [ contradiction
             | do 4 eexists;
               repeat (split; [first [reflexivity | eassumption]|]);
               reflexivity ]).
  - unfold init, bind, invoke; cbn [fst snd];
      repeat (init_call; cbn [fst snd]);
      intros Hret; try discriminate Hret;
      injection Hret as <- <-;
      do 4 eexists;
      repeat (split; [first [reflexivity | eassumption]|]);
      repeat rewrite <- app_assoc; reflexivity.
  - intros (w1 & w2 & w3 & w4 & H1 & H2 & H3 & H4 & H5 & ->).
    unfold init, bind, invoke. cbn [fst snd].
    rewrite H1; cbn [fst snd]. rewrite H2; cbn [fst snd].
    rewrite H3; cbn [fst snd]. rewrite H4; cbn [fst snd].
    rewrite H5; cbn [fst snd].
    repeat rewrite <- app_assoc. reflexivity.
Qed.

End StartupFacts.

(** ** The toolkit: no text is lost *)

(** X10: Every base chunk is found, character for character, in the content of
    a returned bucket: grouping by topic loses no text. *)
Theorem split_by_topics_keeps_text
  (lower : pystr -> pystr) (sentence_parser : pystr -> list pystr)
  (text : pystr) :
  Forall (fun c =>
            exists b,
              In b (split_by_topics lower sentence_parser text) /\
              contains c (content b) = true /\
              1 <= chunk_count b)
         (sentence_parser text).
Proof.
  apply Forall_forall. intros c Hc.
  apply In_nth_error in Hc as (i & Hi).
  set (chunks := sentence_parser text) in *.
  set (labels := spec_labels lower General chunks).
  pose proof (spec_labels_nth lower chunks General i Hi) as Ht.
  fold labels in Ht.
  set (t := spec_next_topic lower (topic_before General labels i) c) in *.
  pose proof (nth_error_combine labels chunks i Ht Hi) as Hp.
  apply nth_error_In in Hp.
  assert (Hin : In c (chunks_of t (combine labels chunks))).
  { unfold chunks_of. apply in_map_iff. exists (t, c). split; [reflexivity|].
    apply filter_In. split; [assumption|apply str_eqb_refl]. }
  exists {| topic := t;
            content := join (py " ") (chunks_of t (combine labels chunks));
            chunk_count := List.length (chunks_of t (combine labels chunks)) |}.
  split; [|split].
  - unfold split_by_topics, format_results. fold chunks.
    rewrite group_by_topic_spec. unfold spec_buckets, spec_group.
    fold labels. rewrite map_map. apply in_map_iff. exists t.
    split; [reflexivity|].
    apply first_seen_In. split; [|intros []].
    rewrite map_fst_combine by apply spec_labels_length.
    now apply nth_error_In with i.
  - cbn [content]. now apply contains_join.
  - cbn [chunk_count].
    destruct (chunks_of t (combine labels chunks)); [destruct Hin|simpl; lia].
Qed.
